(** * LocalExperimentClient: a shallow embedding of
      [qiskit_ibm_experiment/client/local_client.py]

    The client keeps two pandas tables (experiments, analysis results) and a
    dictionary of figures in memory and, when local saving is on, mirrors them
    in a directory.  The embedding follows the Python class method by method:

    - a table is the list of its rows in index order; a row is a record of
      the columns the client reads, each cell holding a value of the type
      the column is meant for (a string, a list of tags, a timestamp or
      NaN), plus the remaining columns as opaque cells; JSON payloads are
      taken parsed, with the same columns.  A payload that leaves out one of
      these columns, or gives it a value of another type, and the table such
      a payload leaves, are not described;
    - [Series.str.contains] is taken on patterns without regular-expression
      metacharacters, where it is a substring search; on another pattern the
      code runs a regular expression, or raises [re.error] on an invalid
      one;
    - [self._figures] is a dictionary of dictionaries, a [gmap] of [gmap]s;
    - the directory is a record: the two table files (absent until first
      written) and the contents of the figures directory, a [gmap] from file
      name to bytes.  A table file holds the rows written to it, and
      [init_db] takes them as they were written: this is what
      [pandas.read_json] gives while it re-types no column.  It does re-type
      a column of strings that all read as numbers, and a timestamp column
      whose values all lie after 1971, so a statement about a client built
      over written files says under which condition it holds.  Writes do not
      fail: input/output errors are outside the model;
    - a method that assigns to [self] or writes files takes the client and
      the directory and returns its value or exception together with the
      client and the directory it leaves; the list and get methods are
      functions of the client;
    - [uuid.uuid4()] is an input: the identifier the generator hands out is
      an argument of the two methods that call it. *)

From Stdlib Require Import ZArith String Ascii List Bool Lia Strings.Byte.
From Stdlib Require Import Sorting.Sorted Sorting.Permutation.
From Stdlib Require OrderedTypeEx.
From stdpp Require Import base gmap strings list sorting.

Local Open Scope string_scope.
Local Open Scope Z_scope.

(** ** Exceptions and results *)

(** The exceptions the client raises itself, and the built-in ones the
    interpreter raises inside it. [RequestsApiError] carries the
    [status_code] keyword when the raise site gives one. *)
Inductive exn : Type :=
| IBMExperimentEntryNotFound
| IBMExperimentEntryExists
| RequestsApiError (status_code : option Z)
| ValueError
| KeyError
| AttributeError
| IndexError
| TypeError.

Inductive result (A : Type) : Type :=
| Ok (a : A)
| Raise (e : exn).
Arguments Ok {A} a.
Arguments Raise {A} e.

Definition is_ok {A} (r : result A) : bool :=
  match r with Ok _ => true | Raise _ => false end.

(** ** Python string operations *)

Module PyStr.

(** [s.split(sep)] for a one-character separator: the pieces between the
    separators, empty pieces kept, always at least one piece. *)
Fixpoint split (sep : ascii) (s : string) : list string :=
  match s with
  | EmptyString => [EmptyString]
  | String c s' =>
      if Ascii.eqb c sep then EmptyString :: split sep s'
      else match split sep s' with
           | [] => [String c EmptyString]
           | piece :: pieces => String c piece :: pieces
           end
  end.

(** [s[:n]] for a non-negative [n]. *)
Fixpoint take (n : nat) (s : string) : string :=
  match n, s with
  | O, _ => EmptyString
  | S _, EmptyString => EmptyString
  | S n', String c s' => String c (take n' s')
  end.

(** [s.startswith(p)]. *)
Fixpoint startswith (p s : string) : bool :=
  match p, s with
  | EmptyString, _ => true
  | String _ _, EmptyString => false
  | String a p', String b s' => Ascii.eqb a b && startswith p' s'
  end.

(** [s[n:]] for a non-negative [n]. *)
Fixpoint drop (n : nat) (s : string) : string :=
  match n, s with
  | O, _ => s
  | S _, EmptyString => EmptyString
  | S n', String _ s' => drop n' s'
  end.

(** [Series.str.contains(pat)] on one cell, for a pattern that holds no
    regular-expression metacharacter: [pat] occurs somewhere in [s]. *)
Fixpoint contains (pat s : string) : bool :=
  startswith pat s ||
  match s with
  | EmptyString => false
  | String _ s' => contains pat s'
  end.

(** [x in xs] for a list of strings. *)
Definition mem (x : string) (xs : list string) : bool :=
  existsb (String.eqb x) xs.

(** [c in s] for a character. *)
Fixpoint has_char (c : ascii) (s : string) : bool :=
  match s with
  | EmptyString => false
  | String c' s' => Ascii.eqb c' c || has_char c s'
  end.

(** The characters [re] gives a meaning to. *)
Definition regex_special : list ascii :=
  list_ascii_of_string ".^$*+?{}[]\|()".

Definition plain_char (c : ascii) : bool :=
  negb (existsb (Ascii.eqb c) regex_special).

Fixpoint plain (s : string) : bool :=
  match s with
  | EmptyString => true
  | String c s' => plain_char c && plain s'
  end.

End PyStr.

(** ** Python slicing of a list: [l[:limit]] *)

(** [limit] is [None], a non-negative count, or a negative count taken from
    the end. *)
Definition iloc_upto {A} (limit : option Z) (l : list A) : list A :=
  match limit with
  | None => l
  | Some n =>
      if 0 <=? n then firstn (Z.to_nat n) l
      else firstn (length l - Z.to_nat (- n))%nat l
  end.

(** An exception-or-value computation, chained as Python statements are:
    the first raise ends the method. *)
Definition bind_result {A B} (r : result A) (k : A -> result B) : result B :=
  match r with
  | Ok a => k a
  | Raise e => Raise e
  end.

Notation "x <- r ;; k" := (bind_result r (fun x => k))
  (at level 100, r at next level, right associativity).

(** ** The data model *)

Definition bytes : Type := list byte.

(** A row of the experiments table ([experiment_db_columns]).  The columns
    the client reads are fields; the others ([extra], [hub_id], [notes],
    ...) are kept as cells the client never looks into.  [start_time] is
    [None] where the table holds NaN.  The other fields always hold a value:
    a row uploaded without a [type] or [tags] key, whose cell is NaN in the
    table, is not a row of this type. *)
Record experiment : Type := Experiment {
  exp_type : string;
  exp_device_name : string;
  exp_uuid : string;
  exp_parent_experiment_uuid : option string;
  exp_tags : list string;
  exp_start_time : option Z;
  exp_other : list (string * string);
}.

(** A row of the results table ([results_db_columns]). *)
Record analysis_result : Type := AnalysisResult {
  res_experiment_uuid : string;
  res_type : string;
  res_tags : list string;
  res_quality : string;
  res_verified : bool;
  res_uuid : string;
  res_device_name : string;
  res_created_at : option Z;
  res_other : list (string * string);
}.

(** The attributes of a [LocalExperimentClient]. *)
Record client : Type := Client {
  _experiments : list experiment;
  _results : list analysis_result;
  _figures : gmap string (gmap string bytes);
  _local_save : bool;
}.

(** What [main_dir] holds: [experiments.json], [results.json] and the files
    of [figures/]. *)
Record directory : Type := Directory {
  experiments_file : option (list experiment);
  results_file : option (list analysis_result);
  figures_dir : gmap string bytes;
}.

(** ** [DataFrame.sort_values] on (timestamp, uuid) *)

Section sort_values.
Context {A : Type}.
Variable time : A -> option Z.
Variable ident : A -> string.
(** [ascending=[ascending, True]] *)
Variable ascending : bool.

(** The first key. Missing values go last in either direction
    ([na_position='last']). *)
Definition cmp_time (a b : option Z) : comparison :=
  match a, b with
  | Some x, Some y => if ascending then (x ?= y) else (y ?= x)
  | Some _, None => Lt
  | None, Some _ => Gt
  | None, None => Eq
  end.

(** The lexicographic order on (timestamp, uuid), the uuid ascending. *)
Definition row_le (r1 r2 : A) : bool :=
  match cmp_time (time r1) (time r2) with
  | Lt => true
  | Gt => false
  | Eq => String.leb (ident r1) (ident r2)
  end.

(** The sort is stable: a row goes in front of the rows that came after it
    in the table and are not smaller. *)
Fixpoint insert_row (r : A) (l : list A) : list A :=
  match l with
  | [] => [r]
  | r' :: l' => if row_le r r' then r :: l else r' :: insert_row r l'
  end.

Definition sort_values (l : list A) : list A :=
  fold_right insert_row [] l.
End sort_values.

(** ** The pieces the two list methods share *)

(** Lines 203-208 and 505-510: the type filter. With the prefix ["like:"]
    the pattern is the second piece of the value split at colons, looked for
    inside the type; otherwise the value is compared with the type.  The
    search is that of [str.contains] for a pattern that holds no
    regular-expression metacharacter ([plain_type_filter] below); for
    another pattern the code may answer differently or raise [re.error]. *)
Definition type_filter {A} (type : A -> string) (value : string) (df : list A)
  : result (list A) :=
  if String.eqb (PyStr.take 5 value) "like:" then
    match nth_error (PyStr.split ":" value) 1 with
    | Some pat => Ok (List.filter (fun r => PyStr.contains pat (type r)) df)
    | None => Raise IndexError
    end
  else Ok (List.filter (fun r => String.eqb (type r) value) df).

(** [any(x in dftags for x in tags)] and [all(x in dftags for x in tags)]. *)
Definition any_tag (tags dftags : list string) : bool :=
  existsb (fun x => PyStr.mem x dftags) tags.

Definition all_tags (tags dftags : list string) : bool :=
  forallb (fun x => PyStr.mem x dftags) tags.

(** [sort_by] is a string or a list of strings. *)
Inductive sort_arg : Type :=
| SortStr (s : string)
| SortList (l : list string).

(** Lines 243-266 and 532-554, the same up to the field name: the one
    accepted token is [field:asc] or [field:desc]; the answer is whether the
    direction is ["asc"]. *)
Definition parse_sort_by (field : string) (sort_by : option sort_arg)
  : result bool :=
  let sort_by :=
    match sort_by with
    | None => SortStr (field +:+ ":desc")
    | Some s => s
    end in
  let sort_by :=
    match sort_by with
    | SortList l => l
    | SortStr s => [s]
    end in
  match sort_by with
  | [token] =>
      match PyStr.split ":" token with
      | [name; direction] =>
          if negb (String.eqb name field)
             || (negb (String.eqb direction "asc")
                 && negb (String.eqb direction "desc"))
          then Raise ValueError
          else Ok (String.eqb direction "asc")
      | _ => Raise ValueError
      end
  | _ => Raise ValueError
  end.

(** ** [experiments]: the list method of the experiments table *)

(** The arguments as the body sees them. The two time bounds and [sort_by]
    are the keys the body reads from [**filters]. *)
Record exp_query : Type := ExpQuery {
  q_limit : option Z;
  q_device_components : option string;
  q_experiment_type : option string;
  q_backend_name : option string;
  q_tags : option (list string);
  q_parent_id : option string;
  q_tags_operator : option string;
  q_start_datetime_before : option Z;
  q_start_datetime_after : option Z;
  q_sort_by : option sort_arg;
}.

(** The call [experiments()]: every argument left out takes the default of
    the signature, no key in [**filters]. *)
Definition experiments_defaults : exp_query :=
  {| q_limit := Some 10;
     q_device_components := None;
     q_experiment_type := None;
     q_backend_name := None;
     q_tags := None;
     q_parent_id := None;
     q_tags_operator := Some "OR";
     q_start_datetime_before := None;
     q_start_datetime_after := None;
     q_sort_by := None |}.

Definition time_le_bound (t : option Z) (bound : Z) : bool :=
  match t with Some x => x <=? bound | None => false end.

Definition time_ge_bound (t : option Z) (bound : Z) : bool :=
  match t with Some x => bound <=? x | None => false end.

(** [cell == v] where the cell may hold [None]. *)
Definition opt_eqb (cell : option string) (v : string) : bool :=
  match cell with Some s => String.eqb s v | None => false end.

Definition experiments (self : client) (q : exp_query)
  : result (list experiment) :=
  let df := _experiments self in
  df <- match q_experiment_type q with
        | Some experiment_type => type_filter exp_type experiment_type df
        | None => Ok df
        end ;;
  let df :=
    match q_backend_name q with
    | Some backend_name =>
        List.filter (fun r => String.eqb (exp_device_name r) backend_name) df
    | None => df
    end in
  let df :=
    match q_parent_id q with
    | Some parent_id =>
        List.filter
          (fun r => opt_eqb (exp_parent_experiment_uuid r) parent_id) df
    | None => df
    end in
  _ <- match q_device_components q with
       | Some _ => Raise ValueError
       | None => Ok tt
       end ;;
  df <- match q_tags q with
        | Some tags =>
            if opt_eqb (q_tags_operator q) "OR" then
              Ok (List.filter (fun r => any_tag tags (exp_tags r)) df)
            else if opt_eqb (q_tags_operator q) "AND" then
              Ok (List.filter (fun r => all_tags tags (exp_tags r)) df)
            else Raise ValueError
        | None => Ok df
        end ;;
  let df :=
    match q_start_datetime_before q with
    | Some bound =>
        List.filter (fun r => time_le_bound (exp_start_time r) bound) df
    | None => df
    end in
  let df :=
    match q_start_datetime_after q with
    | Some bound =>
        List.filter (fun r => time_ge_bound (exp_start_time r) bound) df
    | None => df
    end in
  ascending <- parse_sort_by "start_datetime" (q_sort_by q) ;;
  let df := sort_values exp_start_time exp_uuid ascending df in
  Ok (iloc_upto (q_limit q) df).

(** ** [analysis_results]: the list method of the results table *)

(** [limit] and [marker] have no default; [tags] is one string,
    [operator:tag,tag,...]. *)
Record res_query : Type := ResQuery {
  rq_limit : option Z;
  rq_marker : option string;
  rq_backend_name : option string;
  rq_device_components : option (list string);
  rq_experiment_uuid : option string;
  rq_result_type : option string;
  rq_quality : option string;
  rq_verified : option bool;
  rq_tags : option string;
  rq_created_at : option (list Z);
  rq_sort_by : option sort_arg;
}.

(** The call [analysis_results(limit, marker)]. *)
Definition analysis_results_defaults (limit : option Z) (marker : option string)
  : res_query :=
  {| rq_limit := limit;
     rq_marker := marker;
     rq_backend_name := None;
     rq_device_components := None;
     rq_experiment_uuid := None;
     rq_result_type := None;
     rq_quality := None;
     rq_verified := None;
     rq_tags := None;
     rq_created_at := None;
     rq_sort_by := None |}.

(** [device_components], [marker] and [created_at] are not read by the body.
    The results table has no [backend_name] column ([results_db_columns]),
    so the attribute access of line 512 raises.  This is the table of a new
    client and of every state reached from it, unless an
    [analysis_result_update] was given the key ["backend_name"]: that call
    adds the column to the table, where it stays when the row is deleted,
    and line 512 then filters on it (see [adds_no_backend_name]). *)
Definition analysis_results (self : client) (q : res_query)
  : result (list analysis_result) :=
  let df := _results self in
  let df :=
    match rq_experiment_uuid q with
    | Some experiment_uuid =>
        List.filter
          (fun r => String.eqb (res_experiment_uuid r) experiment_uuid) df
    | None => df
    end in
  df <- match rq_result_type q with
        | Some result_type => type_filter res_type result_type df
        | None => Ok df
        end ;;
  df <- match rq_backend_name q with
        | Some _ => Raise AttributeError
        | None => Ok df
        end ;;
  let df :=
    match rq_quality q with
    | Some quality =>
        List.filter (fun r => String.eqb (res_quality r) quality) df
    | None => df
    end in
  let df :=
    match rq_verified q with
    | Some verified =>
        List.filter (fun r => Bool.eqb (res_verified r) verified) df
    | None => df
    end in
  df <- match rq_tags q with
        | Some tags =>
            match PyStr.split ":" tags with
            | [operator; tags] =>
                let tags := PyStr.split "," tags in
                if String.eqb operator "any:" then
                  Ok (List.filter (fun r => any_tag tags (res_tags r)) df)
                else if String.eqb operator "AND" then
                  Ok (List.filter (fun r => all_tags tags (res_tags r)) df)
                else Raise ValueError
            | _ => Raise ValueError
            end
        | None => Ok df
        end ;;
  ascending <- parse_sort_by "creation_datetime" (rq_sort_by q) ;;
  let df := sort_values res_created_at res_uuid ascending df in
  Ok (iloc_upto (rq_limit q) df).

(** ** Persistence *)

(** A method that assigns to [self] or writes files: its value or exception,
    and the client and the directory it leaves behind (an exception does not
    undo the assignments made before it). *)
Definition outcome (A : Type) : Type := (result A * client * directory)%type.

Definition with_experiments (self : client) (df : list experiment) : client :=
  {| _experiments := df; _results := _results self;
     _figures := _figures self; _local_save := _local_save self |}.

Definition with_results (self : client) (df : list analysis_result) : client :=
  {| _experiments := _experiments self; _results := df;
     _figures := _figures self; _local_save := _local_save self |}.

Definition with_figures (self : client) (figs : gmap string (gmap string bytes))
  : client :=
  {| _experiments := _experiments self; _results := _results self;
     _figures := figs; _local_save := _local_save self |}.

(** [f"{exp_id}_{figure_name}"] *)
Definition figure_filename (exp_id figure_name : string) : string :=
  exp_id +:+ "_" +:+ figure_name.

(** [_save_figures]: one file written per figure; no file is removed. *)
Definition _save_figures (figures : gmap string (gmap string bytes))
  (dir : gmap string bytes) : gmap string bytes :=
  map_fold
    (fun exp_id exp_figures dir =>
       map_fold
         (fun figure_name figure_data dir =>
            <[figure_filename exp_id figure_name := figure_data]> dir)
         dir exp_figures)
    dir figures.

Definition save (self : client) (d : directory) : directory :=
  if _local_save self then
    {| experiments_file := Some (_experiments self);
       results_file := Some (_results self);
       figures_dir := _save_figures (_figures self) (figures_dir d) |}
  else d.

(** [_get_figure_list]: for each uuid of the experiments table, the files
    whose name starts with it, keyed by the rest of the name after one more
    character. [os.listdir] gives the names in the order of the map. *)
Definition _get_figure_list (experiments_table : list experiment)
  (dir : gmap string bytes) : gmap string (gmap string bytes) :=
  fold_left
    (fun figures exp_id =>
       let figures_for_exp :=
         map_fold
           (fun filename figure_data figures_for_exp =>
              if PyStr.startswith exp_id filename then
                <[PyStr.drop (String.length exp_id + 1) filename
                    := figure_data]> figures_for_exp
              else figures_for_exp)
           (∅ : gmap string bytes) dir in
       <[exp_id := figures_for_exp]> figures)
    (map exp_uuid experiments_table)
    (∅ : gmap string (gmap string bytes)).

(** [init_db]. With local saving the figures directory exists, created by
    [create_directories] just before.  The tables read are the rows the
    files were written with; [pandas.read_json] (lines 124, 129) gives them
    so only while it re-types no column (see [uuids_read_back] for the uuid
    column, which keys the figures). *)
Definition init_db (local_save : bool) (d : directory) : client * directory :=
  let self :=
    if local_save then
      let exps := default [] (experiments_file d) in
      {| _experiments := exps;
         _results := default [] (results_file d);
         _figures := _get_figure_list exps (figures_dir d);
         _local_save := true |}
    else
      {| _experiments := []; _results := []; _figures := ∅;
         _local_save := false |} in
  (self, save self d).

(** [LocalExperimentClient(main_dir, local_save)]; [local_save] here stands
    for [local_save and main_dir is not None], [d] for what [main_dir]
    holds. *)
Definition LocalExperimentClient (local_save : bool) (d : directory)
  : client * directory :=
  init_db local_save d.

Definition empty_directory : directory :=
  {| experiments_file := None; results_file := None; figures_dir := ∅ |}.

(** ** The record methods *)

(** [DataFrame.to_dict("records")[0]]: the first row. *)
Definition serialize {A} (df : list A) : result A :=
  match df with
  | r :: _ => Ok r
  | [] => Raise IndexError
  end.

(** The rows [df.loc[df.uuid == id]]. *)
Definition loc_uuid {A} (uuid : A -> string) (id : string) (df : list A)
  : list A :=
  List.filter (fun r => String.eqb (uuid r) id) df.

(** [df.drop(df.loc[df.uuid == id].index)]. *)
Definition drop_uuid {A} (uuid : A -> string) (id : string) (df : list A)
  : list A :=
  List.filter (fun r => negb (String.eqb (uuid r) id)) df.

(** [df.empty] *)
Definition df_empty {A} (df : list A) : bool :=
  match df with [] => true | _ :: _ => false end.

(** [df.at[df.loc[df.uuid == id].index[0], key] = value]: the assignment
    lands on the first row whose uuid is [id]. *)
Fixpoint at_first {A} (uuid : A -> string) (id : string) (set : A -> A)
  (df : list A) : list A :=
  match df with
  | [] => []
  | r :: df' =>
      if String.eqb (uuid r) id then set r :: df'
      else r :: at_first uuid id set df'
  end.

(** The parsed JSON of [experiment_upload]; the key ["uuid"] may be
    missing ([None]).  A payload whose ["uuid"] is [null] (line 307 tests
    the presence of the key only, and stores such a row) is not a payload
    of this type. *)
Record experiment_data : Type := ExperimentData {
  xd_uuid : option string;
  xd_type : string;
  xd_device_name : string;
  xd_parent_experiment_uuid : option string;
  xd_tags : list string;
  xd_start_time : option Z;
  xd_other : list (string * string);
}.

(** One [key: value] of the JSON object of an update. *)
Inductive experiment_item : Type :=
| Xtype (value : string)
| Xdevice_name (value : string)
| Xuuid (value : string)
| Xparent_experiment_uuid (value : option string)
| Xtags (value : list string)
| Xstart_time (value : option Z)
| Xother (key value : string).

(** Assignment to one of the columns kept as opaque cells. *)
Fixpoint set_other (key value : string) (cells : list (string * string))
  : list (string * string) :=
  match cells with
  | [] => [(key, value)]
  | (k, v) :: cells' =>
      if String.eqb k key then (key, value) :: cells'
      else (k, v) :: set_other key value cells'
  end.

Definition set_experiment_item (item : experiment_item) (r : experiment)
  : experiment :=
  match item with
  | Xtype v =>
      Experiment v (exp_device_name r) (exp_uuid r)
        (exp_parent_experiment_uuid r) (exp_tags r) (exp_start_time r)
        (exp_other r)
  | Xdevice_name v =>
      Experiment (exp_type r) v (exp_uuid r)
        (exp_parent_experiment_uuid r) (exp_tags r) (exp_start_time r)
        (exp_other r)
  | Xuuid v =>
      Experiment (exp_type r) (exp_device_name r) v
        (exp_parent_experiment_uuid r) (exp_tags r) (exp_start_time r)
        (exp_other r)
  | Xparent_experiment_uuid v =>
      Experiment (exp_type r) (exp_device_name r) (exp_uuid r)
        v (exp_tags r) (exp_start_time r) (exp_other r)
  | Xtags v =>
      Experiment (exp_type r) (exp_device_name r) (exp_uuid r)
        (exp_parent_experiment_uuid r) v (exp_start_time r) (exp_other r)
  | Xstart_time v =>
      Experiment (exp_type r) (exp_device_name r) (exp_uuid r)
        (exp_parent_experiment_uuid r) (exp_tags r) v (exp_other r)
  | Xother k v =>
      Experiment (exp_type r) (exp_device_name r) (exp_uuid r)
        (exp_parent_experiment_uuid r) (exp_tags r) (exp_start_time r)
        (set_other k v (exp_other r))
  end.

Definition experiment_get (self : client) (experiment_id : string)
  : result experiment :=
  let exp := loc_uuid exp_uuid experiment_id (_experiments self) in
  if df_empty exp then Raise IBMExperimentEntryNotFound
  else serialize exp.

(** [fresh] is what [str(uuid.uuid4())] returns when it is called. *)
Definition experiment_upload (fresh : string) (data : experiment_data)
  (self : client) (d : directory) : outcome experiment :=
  let uuid := match xd_uuid data with Some u => u | None => fresh end in
  let exp := loc_uuid exp_uuid uuid (_experiments self) in
  if negb (df_empty exp) then (Raise IBMExperimentEntryExists, self, d)
  else
    let row :=
      {| exp_type := xd_type data;
         exp_device_name := xd_device_name data;
         exp_uuid := uuid;
         exp_parent_experiment_uuid := xd_parent_experiment_uuid data;
         exp_tags := xd_tags data;
         exp_start_time := xd_start_time data;
         exp_other := xd_other data |} in
    let self := with_experiments self (_experiments self ++ [row]) in
    (Ok row, self, save self d).

(** The row is looked up once, before the loop: every item of [new_data]
    goes to the row that was first with uuid [experiment_id]. *)
Definition experiment_update (experiment_id : string)
  (new_data : list experiment_item) (self : client) (d : directory)
  : outcome experiment :=
  let exp := loc_uuid exp_uuid experiment_id (_experiments self) in
  if df_empty exp then (Raise IBMExperimentEntryNotFound, self, d)
  else
    let set r := fold_left (fun r item => set_experiment_item item r) new_data r in
    let self :=
      with_experiments self
        (at_first exp_uuid experiment_id set (_experiments self)) in
    let d := save self d in
    let exp := loc_uuid exp_uuid experiment_id (_experiments self) in
    (serialize exp, self, d).

Definition experiment_delete (experiment_id : string)
  (self : client) (d : directory) : outcome experiment :=
  let exp := loc_uuid exp_uuid experiment_id (_experiments self) in
  if df_empty exp then (Raise IBMExperimentEntryNotFound, self, d)
  else
    let self :=
      with_experiments self
        (drop_uuid exp_uuid experiment_id (_experiments self)) in
    (serialize exp, self, save self d).

(** ** The figure methods *)

Definition experiment_plot_upload (experiment_id : string) (plot : bytes)
  (plot_name : string) (self : client) (d : directory) : outcome bool :=
  let self :=
    match _figures self !! experiment_id with
    | None => with_figures self (<[experiment_id := ∅]> (_figures self))
    | Some _ => self
    end in
  match _figures self !! experiment_id with
  | None => (Raise KeyError, self, d)
  | Some exp_figures =>
      match exp_figures !! plot_name with
      | Some _ => (Raise (RequestsApiError (Some 409)), self, d)
      | None =>
          let self :=
            with_figures self
              (<[experiment_id := <[plot_name := plot]> exp_figures]>
                 (_figures self)) in
          (Ok true, self, save self d)
      end
  end.

(** The value returned is [{"name": plot_name, "size": len(plot)}]. *)
Definition experiment_plot_update (experiment_id : string) (plot : bytes)
  (plot_name : string) (self : client) (d : directory)
  : outcome (string * nat) :=
  match _figures self !! experiment_id with
  | None => (Raise KeyError, self, d)
  | Some exp_figures =>
      match exp_figures !! plot_name with
      | None => (Raise (RequestsApiError (Some 404)), self, d)
      | Some _ =>
          let self :=
            with_figures self
              (<[experiment_id := <[plot_name := plot]> exp_figures]>
                 (_figures self)) in
          (Ok (plot_name, length plot), self, save self d)
      end
  end.

Definition experiment_plot_get (self : client) (experiment_id : string)
  (plot_name : string) : result bytes :=
  match _figures self !! experiment_id with
  | None => Raise KeyError
  | Some exp_figures =>
      match exp_figures !! plot_name with
      | None => Raise (RequestsApiError (Some 404))
      | Some plot => Ok plot
      end
  end.

(** The method ends after the [del]: [save] is not called. *)
Definition experiment_plot_delete (experiment_id : string)
  (plot_name : string) (self : client) (d : directory) : outcome unit :=
  match _figures self !! experiment_id with
  | None => (Raise KeyError, self, d)
  | Some exp_figures =>
      match exp_figures !! plot_name with
      | None => (Raise (RequestsApiError (Some 404)), self, d)
      | Some _ =>
          let self :=
            with_figures self
              (<[experiment_id := delete plot_name exp_figures]>
                 (_figures self)) in
          (Ok tt, self, d)
      end
  end.

(** ** The analysis-result methods *)

(** The parsed JSON of [analysis_result_create]; the keys
    ["experiment_uuid"] and ["uuid"] may be missing. *)
Record result_data : Type := ResultData {
  rd_experiment_uuid : option string;
  rd_uuid : option string;
  rd_type : string;
  rd_tags : list string;
  rd_quality : string;
  rd_verified : bool;
  rd_created_at : option Z;
  rd_other : list (string * string);
}.

Inductive result_item : Type :=
| Rexperiment_uuid (value : string)
| Rtype (value : string)
| Rtags (value : list string)
| Rquality (value : string)
| Rverified (value : bool)
| Ruuid (value : string)
| Rdevice_name (value : string)
| Rcreated_at (value : option Z)
| Rother (key value : string).

Definition set_result_item (item : result_item) (r : analysis_result)
  : analysis_result :=
  match item with
  | Rexperiment_uuid v =>
      AnalysisResult v (res_type r) (res_tags r) (res_quality r)
        (res_verified r) (res_uuid r) (res_device_name r) (res_created_at r)
        (res_other r)
  | Rtype v =>
      AnalysisResult (res_experiment_uuid r) v (res_tags r) (res_quality r)
        (res_verified r) (res_uuid r) (res_device_name r) (res_created_at r)
        (res_other r)
  | Rtags v =>
      AnalysisResult (res_experiment_uuid r) (res_type r) v (res_quality r)
        (res_verified r) (res_uuid r) (res_device_name r) (res_created_at r)
        (res_other r)
  | Rquality v =>
      AnalysisResult (res_experiment_uuid r) (res_type r) (res_tags r) v
        (res_verified r) (res_uuid r) (res_device_name r) (res_created_at r)
        (res_other r)
  | Rverified v =>
      AnalysisResult (res_experiment_uuid r) (res_type r) (res_tags r)
        (res_quality r) v (res_uuid r) (res_device_name r) (res_created_at r)
        (res_other r)
  | Ruuid v =>
      AnalysisResult (res_experiment_uuid r) (res_type r) (res_tags r)
        (res_quality r) (res_verified r) v (res_device_name r)
        (res_created_at r) (res_other r)
  | Rdevice_name v =>
      AnalysisResult (res_experiment_uuid r) (res_type r) (res_tags r)
        (res_quality r) (res_verified r) (res_uuid r) v (res_created_at r)
        (res_other r)
  | Rcreated_at v =>
      AnalysisResult (res_experiment_uuid r) (res_type r) (res_tags r)
        (res_quality r) (res_verified r) (res_uuid r) (res_device_name r) v
        (res_other r)
  | Rother k v =>
      AnalysisResult (res_experiment_uuid r) (res_type r) (res_tags r)
        (res_quality r) (res_verified r) (res_uuid r) (res_device_name r)
        (res_created_at r) (set_other k v (res_other r))
  end.

(** No look-up of the new uuid in the results table precedes the
    [concat]. *)
Definition analysis_result_create (fresh : string) (data : result_data)
  (self : client) (d : directory) : outcome analysis_result :=
  match rd_experiment_uuid data with
  | None => (Raise (RequestsApiError None), self, d)
  | Some exp_id =>
      match loc_uuid exp_uuid exp_id (_experiments self) with
      | [] => (Raise (RequestsApiError (Some 404)), self, d)
      | exp :: _ =>
          let device_name := exp_device_name exp in
          let uuid :=
            match rd_uuid data with Some u => u | None => fresh end in
          let row :=
            {| res_experiment_uuid := exp_id;
               res_type := rd_type data;
               res_tags := rd_tags data;
               res_quality := rd_quality data;
               res_verified := rd_verified data;
               res_uuid := uuid;
               res_device_name := device_name;
               res_created_at := rd_created_at data;
               res_other := rd_other data |} in
          let self := with_results self (_results self ++ [row]) in
          (Ok row, self, save self d)
      end
  end.

Definition analysis_result_update (result_id : string)
  (new_data : list result_item) (self : client) (d : directory)
  : outcome analysis_result :=
  let result := loc_uuid res_uuid result_id (_results self) in
  if df_empty result then (Raise IBMExperimentEntryNotFound, self, d)
  else
    let set r := fold_left (fun r item => set_result_item item r) new_data r in
    let self :=
      with_results self (at_first res_uuid result_id set (_results self)) in
    let d := save self d in
    let result := loc_uuid res_uuid result_id (_results self) in
    (serialize result, self, d).

Definition analysis_result_delete (result_id : string)
  (self : client) (d : directory) : outcome analysis_result :=
  let result := loc_uuid res_uuid result_id (_results self) in
  if df_empty result then (Raise IBMExperimentEntryNotFound, self, d)
  else
    let self :=
      with_results self (drop_uuid res_uuid result_id (_results self)) in
    (serialize result, self, save self d).

Definition analysis_result_get (self : client) (result_id : string)
  : result analysis_result :=
  let result := loc_uuid res_uuid result_id (_results self) in
  if df_empty result then Raise IBMExperimentEntryNotFound
  else serialize result.

(** ** The stages of the list methods, and the vocabulary of the statements *)

(** Lines 201-241 of [experiments]: the rows that pass the filters, in table
    order. *)
Definition experiments_select (self : client) (q : exp_query)
  : result (list experiment) :=
  let df := _experiments self in
  df <- match q_experiment_type q with
        | Some experiment_type => type_filter exp_type experiment_type df
        | None => Ok df
        end ;;
  let df :=
    match q_backend_name q with
    | Some backend_name =>
        List.filter (fun r => String.eqb (exp_device_name r) backend_name) df
    | None => df
    end in
  let df :=
    match q_parent_id q with
    | Some parent_id =>
        List.filter
          (fun r => opt_eqb (exp_parent_experiment_uuid r) parent_id) df
    | None => df
    end in
  _ <- match q_device_components q with
       | Some _ => Raise ValueError
       | None => Ok tt
       end ;;
  df <- match q_tags q with
        | Some tags =>
            if opt_eqb (q_tags_operator q) "OR" then
              Ok (List.filter (fun r => any_tag tags (exp_tags r)) df)
            else if opt_eqb (q_tags_operator q) "AND" then
              Ok (List.filter (fun r => all_tags tags (exp_tags r)) df)
            else Raise ValueError
        | None => Ok df
        end ;;
  let df :=
    match q_start_datetime_before q with
    | Some bound =>
        List.filter (fun r => time_le_bound (exp_start_time r) bound) df
    | None => df
    end in
  let df :=
    match q_start_datetime_after q with
    | Some bound =>
        List.filter (fun r => time_ge_bound (exp_start_time r) bound) df
    | None => df
    end in
  Ok df.

(** Lines 497-530 of [analysis_results]. *)
Definition analysis_results_select (self : client) (q : res_query)
  : result (list analysis_result) :=
  let df := _results self in
  let df :=
    match rq_experiment_uuid q with
    | Some experiment_uuid =>
        List.filter
          (fun r => String.eqb (res_experiment_uuid r) experiment_uuid) df
    | None => df
    end in
  df <- match rq_result_type q with
        | Some result_type => type_filter res_type result_type df
        | None => Ok df
        end ;;
  df <- match rq_backend_name q with
        | Some _ => Raise AttributeError
        | None => Ok df
        end ;;
  let df :=
    match rq_quality q with
    | Some quality =>
        List.filter (fun r => String.eqb (res_quality r) quality) df
    | None => df
    end in
  let df :=
    match rq_verified q with
    | Some verified =>
        List.filter (fun r => Bool.eqb (res_verified r) verified) df
    | None => df
    end in
  match rq_tags q with
  | Some tags =>
      match PyStr.split ":" tags with
      | [operator; tags] =>
          let tags := PyStr.split "," tags in
          if String.eqb operator "any:" then
            Ok (List.filter (fun r => any_tag tags (res_tags r)) df)
          else if String.eqb operator "AND" then
            Ok (List.filter (fun r => all_tags tags (res_tags r)) df)
          else Raise ValueError
      | _ => Raise ValueError
      end
  | None => Ok df
  end.

Definition exp_with_limit (q : exp_query) (limit : option Z) : exp_query :=
  {| q_limit := limit;
     q_device_components := q_device_components q;
     q_experiment_type := q_experiment_type q;
     q_backend_name := q_backend_name q;
     q_tags := q_tags q;
     q_parent_id := q_parent_id q;
     q_tags_operator := q_tags_operator q;
     q_start_datetime_before := q_start_datetime_before q;
     q_start_datetime_after := q_start_datetime_after q;
     q_sort_by := q_sort_by q |}.

Definition res_with_limit (q : res_query) (limit : option Z) : res_query :=
  {| rq_limit := limit;
     rq_marker := rq_marker q;
     rq_backend_name := rq_backend_name q;
     rq_device_components := rq_device_components q;
     rq_experiment_uuid := rq_experiment_uuid q;
     rq_result_type := rq_result_type q;
     rq_quality := rq_quality q;
     rq_verified := rq_verified q;
     rq_tags := rq_tags q;
     rq_created_at := rq_created_at q;
     rq_sort_by := rq_sort_by q |}.

Definition res_with_device_components (q : res_query)
  (device_components : option (list string)) : res_query :=
  {| rq_limit := rq_limit q;
     rq_marker := rq_marker q;
     rq_backend_name := rq_backend_name q;
     rq_device_components := device_components;
     rq_experiment_uuid := rq_experiment_uuid q;
     rq_result_type := rq_result_type q;
     rq_quality := rq_quality q;
     rq_verified := rq_verified q;
     rq_tags := rq_tags q;
     rq_created_at := rq_created_at q;
     rq_sort_by := rq_sort_by q |}.

(** Two (timestamp, uuid) keys in the order of a listing: the timestamps in
    the requested direction, rows without a timestamp after the others, and
    the uuids ascending where the timestamps agree. *)
Definition in_order (ascending : bool)
  (t1 : option Z) (u1 : string) (t2 : option Z) (u2 : string) : Prop :=
  match t1, t2 with
  | Some a, Some b =>
      (if ascending then a <= b else b <= a)
      /\ (a = b -> String.leb u1 u2 = true)
  | Some _, None => True
  | None, Some _ => False
  | None, None => String.leb u1 u2 = true
  end.

(** Every earlier entry of [out] is in order with every later one. *)
Definition listed_in_order {A} (time : A -> option Z) (ident : A -> string)
  (ascending : bool) (out : list A) : Prop :=
  forall (i j : nat) (r1 r2 : A),
    (i < j)%nat -> out !! i = Some r1 -> out !! j = Some r2 ->
    in_order ascending (time r1) (ident r1) (time r2) (ident r2).

(** [pat] occurs in [s]. *)
Definition substring (pat s : string) : Prop :=
  exists pre post : string, s = pre +:+ pat +:+ post.

(** The figure stored under (experiment identifier, plot name). *)
Definition plot_lookup (figures : gmap string (gmap string bytes))
  (experiment_id plot_name : string) : option bytes :=
  match figures !! experiment_id with
  | Some exp_figures => exp_figures !! plot_name
  | None => None
  end.

(** The directory holds what the client holds: both table files are the
    tables, and the figure files are the figures, one file each. *)
Definition flushed (self : client) (d : directory) : Prop :=
  experiments_file d = Some (_experiments self)
  /\ results_file d = Some (_results self)
  /\ figures_dir d = _save_figures (_figures self) ∅.

(** The client a fresh process builds over the directory. *)
Definition restart (d : directory) : client :=
  fst (LocalExperimentClient true d).

(** The parts of an outcome. *)
Definition value_of {A} (o : outcome A) : result A := fst (fst o).
Definition client_after {A} (o : outcome A) : client := snd (fst o).
Definition directory_after {A} (o : outcome A) : directory := snd o.

Definition exp_with_device_components (q : exp_query)
  (device_components : option string) : exp_query :=
  {| q_limit := q_limit q;
     q_device_components := device_components;
     q_experiment_type := q_experiment_type q;
     q_backend_name := q_backend_name q;
     q_tags := q_tags q;
     q_parent_id := q_parent_id q;
     q_tags_operator := q_tags_operator q;
     q_start_datetime_before := q_start_datetime_before q;
     q_start_datetime_after := q_start_datetime_after q;
     q_sort_by := q_sort_by q |}.

(** ** Sequences of calls *)

(** A call of one of the nine methods that change the client. *)
Inductive request : Type :=
| ExperimentUpload (fresh : string) (data : experiment_data)
| ExperimentUpdate (experiment_id : string) (new_data : list experiment_item)
| ExperimentDelete (experiment_id : string)
| PlotUpload (experiment_id : string) (plot : bytes) (plot_name : string)
| PlotUpdate (experiment_id : string) (plot : bytes) (plot_name : string)
| PlotDelete (experiment_id plot_name : string)
| ResultCreate (fresh : string) (data : result_data)
| ResultUpdate (result_id : string) (new_data : list result_item)
| ResultDelete (result_id : string).

Definition forget {A} (o : outcome A) : client * directory :=
  (client_after o, directory_after o).

(** The client and the directory after the call, whether it returned or
    raised. *)
Definition step (w : client * directory) (rq : request) : client * directory :=
  let (self, d) := w in
  match rq with
  | ExperimentUpload fresh data => forget (experiment_upload fresh data self d)
  | ExperimentUpdate id new_data => forget (experiment_update id new_data self d)
  | ExperimentDelete id => forget (experiment_delete id self d)
  | PlotUpload id plot name => forget (experiment_plot_upload id plot name self d)
  | PlotUpdate id plot name => forget (experiment_plot_update id plot name self d)
  | PlotDelete id name => forget (experiment_plot_delete id name self d)
  | ResultCreate fresh data => forget (analysis_result_create fresh data self d)
  | ResultUpdate id new_data => forget (analysis_result_update id new_data self d)
  | ResultDelete id => forget (analysis_result_delete id self d)
  end.

Definition run (w : client * directory) (rqs : list request)
  : client * directory :=
  fold_left step rqs w.

(** The update payload has no ["uuid"] key.  The key is written [Xuuid];
    together with [other_items_ok], which keeps the names of the field
    columns out of [Xother], this says that no item is for the uuid. *)
Definition no_uuid_item (new_data : list experiment_item) : bool :=
  forallb (fun item => match item with Xuuid _ => false | _ => true end)
    new_data.

(** ** Sample data *)

Definition sample_experiment (uuid type : string) (tags : list string)
  (start_time : Z) : experiment_data :=
  {| xd_uuid := Some uuid;
     xd_type := type;
     xd_device_name := "ibmq_lima";
     xd_parent_experiment_uuid := None;
     xd_tags := tags;
     xd_start_time := Some start_time;
     xd_other := [] |}.

Definition row_of (data : experiment_data) : experiment :=
  {| exp_type := xd_type data;
     exp_device_name := xd_device_name data;
     exp_uuid := default EmptyString (xd_uuid data);
     exp_parent_experiment_uuid := xd_parent_experiment_uuid data;
     exp_tags := xd_tags data;
     exp_start_time := xd_start_time data;
     exp_other := xd_other data |}.

Definition e1 : experiment_data := sample_experiment "e1" "T1" ["x"] 100.
Definition e2 : experiment_data := sample_experiment "e2" "StandardRB" ["y"] 200.

Definition fresh_client : client * directory :=
  LocalExperimentClient true empty_directory.

(** A saving client after the uploads of [e1] and [e2]. *)
Definition two_experiments : client * directory :=
  run fresh_client [ExperimentUpload "u1" e1; ExperimentUpload "u2" e2].

Definition sample_result (uuid : option string) (exp_id : option string)
  (tags : list string) : result_data :=
  {| rd_experiment_uuid := exp_id;
     rd_uuid := uuid;
     rd_type := "T1";
     rd_tags := tags;
     rd_quality := "good";
     rd_verified := false;
     rd_created_at := Some 300;
     rd_other := [] |}.

(** The two experiments and one analysis result of [e1], tagged ["a"]. *)
Definition one_result : client * directory :=
  run two_experiments
    [ResultCreate "u3" (sample_result (Some "r1") (Some "e1") ["a"])].

(** Eleven experiments, uuids ["a"] to ["k"], started at 0 to 10. *)
Definition numbered (n : nat) : experiment_data :=
  sample_experiment (String (ascii_of_nat (97 + n)) EmptyString) "T1" []
    (Z.of_nat n).

Definition eleven_experiments : client * directory :=
  run fresh_client (map (fun n => ExperimentUpload "u" (numbered n)) (seq 0 11)).

Definition png : bytes := [x89; x50; x4e; x47].

(** An experiment of type ["a"] and one of type ["xa:by"]. *)
Definition ea : experiment_data := sample_experiment "ea" "a" [] 1.
Definition eb : experiment_data := sample_experiment "eb" "xa:by" [] 2.

Definition colon_types : client * directory :=
  run fresh_client [ExperimentUpload "u1" ea; ExperimentUpload "u2" eb].

(** The call [experiments(limit=None, experiment_type=value)]. *)
Definition type_query (value : string) : exp_query :=
  ExpQuery None None (Some value) None None None (Some "OR") None None None.

(** The call [experiments(limit=None, tags=tags, tags_operator=operator)]. *)
Definition tags_query (tags : list string) (operator : option string)
  : exp_query :=
  ExpQuery None None None None (Some tags) None operator None None None.

(** The call [analysis_results(None, None, tags=tags)]. *)
Definition res_tags_query (tags : string) : res_query :=
  ResQuery None None None None None None None None (Some tags) None None.


(** With local saving on, the two table files are the two tables. *)
Definition tables_flushed (w : client * directory) : Prop :=
  _local_save (fst w) = true
  /\ experiments_file (snd w) = Some (_experiments (fst w))
  /\ results_file (snd w) = Some (_results (fst w)).

(** The uuid [experiment_upload] and [analysis_result_create] give the new
    row. *)
Definition uuid_or (fresh : string) (uuid : option string) : string :=
  match uuid with Some u => u | None => fresh end.

(** The experiment identifiers that have figures all have [n] characters,
    as the strings of [uuid.uuid4()] have. *)
Definition uniform_figure_ids (n : nat)
  (figures : gmap string (gmap string bytes)) : Prop :=
  forall id, is_Some (figures !! id) -> String.length id = n.

(** A call that is not a figure delete, and that stores figures only under
    identifiers of [n] characters. *)
Definition figure_request_ok (n : nat) (rq : request) : bool :=
  match rq with
  | PlotDelete _ _ => false
  | PlotUpload id _ _ => Nat.eqb (String.length id) n
  | _ => true
  end.

(** ** The vocabulary of the further properties *)

(** The row after the items of an update payload, applied in order. *)
Definition merged (new_data : list experiment_item) (r : experiment)
  : experiment :=
  fold_left (fun r item => set_experiment_item item r) new_data r.

(** The result row after the items of an update payload. *)
Definition merged_result (new_data : list result_item) (r : analysis_result)
  : analysis_result :=
  fold_left (fun r item => set_result_item item r) new_data r.

(** The update payload has no ["uuid"] key. *)
Definition no_result_uuid_item (new_data : list result_item) : bool :=
  forallb (fun item => match item with Ruuid _ => false | _ => true end)
    new_data.

(** [df.loc[test]] applied when the argument is given. *)
Definition loc_if {A B} (arg : option B) (test : B -> A -> bool)
  (df : list A) : list A :=
  match arg with
  | Some v => List.filter (test v) df
  | None => df
  end.

(** What the type filter asks of a type: to hold the pattern, the second
    piece of a value that starts with ["like:"], or else to be the value. *)
Definition type_matches (value type : string) : Prop :=
  if String.eqb (PyStr.take 5 value) "like:" then
    exists pat, nth_error (PyStr.split ":" value) 1 = Some pat
                /\ substring pat type
  else type = value.

(** What the tag filter of [experiments] asks of the tags of a row. *)
Definition tags_match (operator : option string) (tags dftags : list string)
  : Prop :=
  (operator = Some "OR" /\ exists t, In t tags /\ In t dftags)
  \/ (operator = Some "AND" /\ forall t, In t tags -> In t dftags).

(** A row passes every filter the query gives. *)
Definition exp_matches (q : exp_query) (r : experiment) : Prop :=
  (forall v, q_experiment_type q = Some v -> type_matches v (exp_type r))
  /\ (forall b, q_backend_name q = Some b -> exp_device_name r = b)
  /\ (forall p, q_parent_id q = Some p ->
        exp_parent_experiment_uuid r = Some p)
  /\ (forall tags, q_tags q = Some tags ->
        tags_match (q_tags_operator q) tags (exp_tags r))
  /\ (forall b, q_start_datetime_before q = Some b ->
        exists t, exp_start_time r = Some t /\ t <= b)
  /\ (forall a, q_start_datetime_after q = Some a ->
        exists t, exp_start_time r = Some t /\ a <= t).

(** What the tag filter of [analysis_results] asks: the string is
    [AND:tag,tag,...] and the row has every tag. *)
Definition res_tags_match (tags : string) (dftags : list string) : Prop :=
  exists ts, PyStr.split ":" tags = ["AND"; ts]
             /\ forall t, In t (PyStr.split "," ts) -> In t dftags.

(** A result row passes every filter the query gives. *)
Definition res_matches (q : res_query) (r : analysis_result) : Prop :=
  (forall e, rq_experiment_uuid q = Some e -> res_experiment_uuid r = e)
  /\ (forall v, rq_result_type q = Some v -> type_matches v (res_type r))
  /\ (forall v, rq_quality q = Some v -> res_quality r = v)
  /\ (forall b, rq_verified q = Some b -> res_verified r = b)
  /\ (forall tags, rq_tags q = Some tags -> res_tags_match tags (res_tags r)).

(** Two queries that differ at most in [marker], [device_components] and
    [created_at]. *)
Definition same_read_arguments (q q' : res_query) : Prop :=
  rq_limit q = rq_limit q'
  /\ rq_backend_name q = rq_backend_name q'
  /\ rq_experiment_uuid q = rq_experiment_uuid q'
  /\ rq_result_type q = rq_result_type q'
  /\ rq_quality q = rq_quality q'
  /\ rq_verified q = rq_verified q'
  /\ rq_tags q = rq_tags q'
  /\ rq_sort_by q = rq_sort_by q'.

(** Two tables with the same rows, the uuids pairwise distinct. *)
Definition same_rows {A} (uuid : A -> string) (df df' : list A) : Prop :=
  Permutation df df' /\ NoDup (map uuid df).

(** The columns of the two tables that the rows keep as opaque cells. *)
Definition experiment_opaque_columns : list string :=
  ["extra"; "hub_id"; "group_id"; "project_id"; "experiment_id";
   "visibility"; "jobs"; "notes"; "end_time"; "updated_at"].

Definition result_opaque_columns : list string :=
  ["device_components"; "fit"; "chisq"; "updated_at"].

(** The columns that are fields of the rows. *)
Definition experiment_field_columns : list string :=
  ["type"; "device_name"; "uuid"; "parent_experiment_uuid"; "tags";
   "start_time"].

Definition result_field_columns : list string :=
  ["experiment_uuid"; "type"; "tags"; "quality"; "verified"; "uuid";
   "device_name"; "created_at"].

(** The other keys of an upload payload are columns of the table
    ([DataFrame([data_dict], columns=...)] keeps no other key). *)
Definition opaque_cells (columns : list string)
  (cells : list (string * string)) : bool :=
  forallb (fun cell => PyStr.mem (fst cell) columns) cells.

(** The items of an update payload written to opaque cells are not items
    for a column that is a field of the rows. *)
Definition other_items_ok (new_data : list experiment_item) : bool :=
  forallb
    (fun item =>
       match item with
       | Xother key _ => negb (PyStr.mem key experiment_field_columns)
       | _ => true
       end) new_data.

Definition other_result_items_ok (new_data : list result_item) : bool :=
  forallb
    (fun item =>
       match item with
       | Rother key _ => negb (PyStr.mem key result_field_columns)
       | _ => true
       end) new_data.

(** The pattern of a ["like:"] filter holds no regular-expression
    metacharacter: [str.contains] looks for it as it is written. *)
Definition plain_type_filter (value : option string) : bool :=
  match value with
  | Some v =>
      if String.eqb (PyStr.take 5 v) "like:" then
        match nth_error (PyStr.split ":" v) 1 with
        | Some pat => PyStr.plain pat
        | None => true
        end
      else true
  | None => true
  end.

(** The type filter is absent or an exact value: no pattern is searched. *)
Definition exact_type_filter (value : option string) : bool :=
  match value with
  | Some v => negb (String.eqb (PyStr.take 5 v) "like:")
  | None => true
  end.

(** A call that is not an experiment update with an item for the uuid. *)
Definition keeps_experiment_uuids (rq : request) : bool :=
  match rq with
  | ExperimentUpdate _ new_data =>
      no_uuid_item new_data && other_items_ok new_data
  | _ => true
  end.

(** The payload of the call is one the rows describe: the keys of an upload
    are columns of the table, and an update writes to the field columns
    with items of their type. *)
Definition well_formed_request (rq : request) : bool :=
  match rq with
  | ExperimentUpload _ data =>
      opaque_cells experiment_opaque_columns (xd_other data)
  | ExperimentUpdate _ new_data => other_items_ok new_data
  | ResultCreate _ data => opaque_cells result_opaque_columns (rd_other data)
  | ResultUpdate _ new_data => other_result_items_ok new_data
  | _ => true
  end.

(** A call that is not an [analysis_result_update] with the key
    ["backend_name"], the one call that gives the results table a column of
    that name. *)
Definition adds_no_backend_name (rq : request) : bool :=
  match rq with
  | ResultUpdate _ new_data =>
      forallb
        (fun item =>
           match item with
           | Rother key _ => negb (String.eqb key "backend_name")
           | _ => true
           end) new_data
  | _ => true
  end.

(** The client after the calls [rqs], made on a new client over an empty
    directory: no table file was read on the way. *)
Definition reached (local_save : bool) (rqs : list request) : client :=
  fst (run (LocalExperimentClient local_save empty_directory) rqs).

(** The token [field:asc] or [field:desc]. *)
Definition sort_token (field : string) (ascending : bool) : string :=
  field +:+ ":" +:+ (if ascending then "asc" else "desc").

(** [sort_by] asks for the direction [ascending]: it is absent and the
    direction is descending, or it is the token of the direction, alone or
    as the one entry of a list. *)
Definition asks_direction (field : string) (sort_by : option sort_arg)
  (ascending : bool) : Prop :=
  (sort_by = None /\ ascending = false)
  \/ sort_by = Some (SortStr (sort_token field ascending))
  \/ sort_by = Some (SortList [sort_token field ascending]).

(** The tags argument of [experiments] is one the method takes: absent, or
    with the operator ["OR"] or ["AND"]. *)
Definition exp_tags_accepted (q : exp_query) : Prop :=
  q_tags q = None
  \/ q_tags_operator q = Some "OR" \/ q_tags_operator q = Some "AND".

(** The tags argument of [analysis_results] is one the method takes:
    absent, or [AND:tag,tag,...] with no further colon. *)
Definition res_tags_accepted (q : res_query) : Prop :=
  rq_tags q = None
  \/ exists ts, rq_tags q = Some ("AND:" +:+ ts)
                /\ PyStr.has_char ":" ts = false.

(** Letters that do not begin a Python number literal ([inf] and [nan]
    are literals of [float]), and letters that occur in none. *)
Definition word_initials : list ascii :=
  list_ascii_of_string "abcdefghjklmopqrstuvwxyzABCDEFGHJKLMOPQRSTUVWXYZ".

Definition word_letters : list ascii :=
  list_ascii_of_string "bcdghjklmopqrsuvwxzBCDGHJKLMOPQRSUVWXZ".

Fixpoint has_any (letters : list ascii) (s : string) : bool :=
  match s with
  | EmptyString => false
  | String c s' => existsb (Ascii.eqb c) letters || has_any letters s'
  end.

(** A string that Python reads neither as a [float] nor as an [int]: it
    begins with a letter no literal begins with, or holds a letter no
    literal holds.  A sufficient test, not an exact one. *)
Definition not_a_number (s : string) : bool :=
  match s with
  | String c _ => existsb (Ascii.eqb c) word_initials
  | EmptyString => false
  end
  || has_any word_letters s.

(** [pandas.read_json] gives the uuid column of the experiments file back
    as the strings that were written: no uuid reads as a number.  (A column
    of strings that all read as numbers comes back as numbers, and the
    figures are then keyed by numbers.) *)
Definition uuids_read_back (experiments_table : list experiment) : bool :=
  forallb (fun r => not_a_number (exp_uuid r)) experiments_table.

(** A second result of [e2], created later than the first (lines 590-591
    append it last). *)
Definition later_result (uuid : string) (created_at : Z) : result_data :=
  {| rd_experiment_uuid := Some "e2";
     rd_uuid := Some uuid;
     rd_type := "T1";
     rd_tags := ["a"; "b"];
     rd_quality := "good";
     rd_verified := true;
     rd_created_at := Some created_at;
     rd_other := [] |}.

(** The two experiments and three results: [r1] created at 300, then [r3]
    at 500 and [r2] at 400. *)
Definition three_results : list request :=
  [ExperimentUpload "u1" e1; ExperimentUpload "u2" e2;
   ResultCreate "u3" (sample_result (Some "r1") (Some "e1") ["a"]);
   ResultCreate "u4" (later_result "r3" 500);
   ResultCreate "u5" (later_result "r2" 400)].

(** Experiments with the uuids ["a"] and ["ab"], and one figure, ["p"], of
    the experiment ["ab"]. *)
Definition prefix_uuids : client * directory :=
  run fresh_client
    [ExperimentUpload "u1" (sample_experiment "a" "T1" [] 1);
     ExperimentUpload "u2" (sample_experiment "ab" "T1" [] 2);
     PlotUpload "ab" png "p"].

(** * Proofs *)

(** ** The order on uuids *)

Lemma string_leb_spec (a b : string) :
  String.leb a b = true <-> a = b \/ OrderedTypeEx.String_as_OT.lt a b.
Proof.
  unfold String.leb.
  pose proof (OrderedTypeEx.String_as_OT.cmp_eq a b) as Heq.
  pose proof (OrderedTypeEx.String_as_OT.cmp_lt a b) as Hlt.
  unfold OrderedTypeEx.String_as_OT.cmp in *.
  destruct (String.compare a b); split; intros H; auto.
  - left. now apply Heq.
  - right. now apply Hlt.
  - discriminate.
  - destruct H as [H | H].
    + apply Heq in H. discriminate.
    + apply Hlt in H. discriminate.
Qed.

Lemma string_leb_refl (a : string) : String.leb a a = true.
Proof. apply string_leb_spec. now left. Qed.

Lemma string_leb_trans (a b c : string) :
  String.leb a b = true -> String.leb b c = true -> String.leb a c = true.
Proof.
  rewrite !string_leb_spec.
  intros [-> | Hab] [-> | Hbc]; auto.
  right. eapply OrderedTypeEx.String_as_OT.lt_trans; eassumption.
Qed.

(** ** [sort_values] sorts, keeps the rows, and is stable *)

Section sort_values_facts.
Context {A : Type}.
Variable time : A -> option Z.
Variable ident : A -> string.
Variable ascending : bool.

Abbreviation le := (fun r1 r2 => row_le time ident ascending r1 r2 = true).
Abbreviation sort := (sort_values time ident ascending).
Abbreviation ins := (insert_row time ident ascending).

Lemma cmp_time_antisym (a b : option Z) :
  cmp_time ascending b a = CompOpp (cmp_time ascending a b).
Proof.
  destruct a as [x|], b as [y|]; simpl; auto.
  destruct ascending; apply Z.compare_antisym.
Qed.

Lemma cmp_time_eq (a b : option Z) :
  cmp_time ascending a b = Eq -> a = b.
Proof.
  destruct a as [x|], b as [y|]; simpl; try discriminate; auto.
  destruct ascending; intros H; apply Z.compare_eq in H; congruence.
Qed.

Lemma cmp_time_lt_trans (a b c : option Z) :
  cmp_time ascending a b = Lt -> cmp_time ascending b c = Lt ->
  cmp_time ascending a c = Lt.
Proof.
  destruct a as [x|], b as [y|], c as [z|]; simpl; try discriminate; auto.
  destruct ascending; rewrite ?Z.compare_lt_iff; lia.
Qed.

Lemma row_le_total (r1 r2 : A) :
  row_le time ident ascending r1 r2 = true
  \/ row_le time ident ascending r2 r1 = true.
Proof.
  unfold row_le. rewrite (cmp_time_antisym (time r1) (time r2)).
  destruct (cmp_time ascending (time r1) (time r2)); simpl; auto.
  apply String.leb_total.
Qed.

Lemma row_le_trans (r1 r2 r3 : A) :
  row_le time ident ascending r1 r2 = true ->
  row_le time ident ascending r2 r3 = true ->
  row_le time ident ascending r1 r3 = true.
Proof.
  unfold row_le.
  destruct (cmp_time ascending (time r1) (time r2)) eqn:H12;
    destruct (cmp_time ascending (time r2) (time r3)) eqn:H23;
    try discriminate.
  - apply cmp_time_eq in H12. rewrite H12, H23. apply string_leb_trans.
  - apply cmp_time_eq in H12. rewrite H12, H23. auto.
  - apply cmp_time_eq in H23. rewrite <- H23, H12. auto.
  - rewrite (cmp_time_lt_trans _ _ _ H12 H23). auto.
Qed.

Lemma insert_row_perm (r : A) (l : list A) : Permutation (ins r l) (r :: l).
Proof.
  induction l as [|r' l IH]; simpl; [reflexivity|].
  destruct (row_le time ident ascending r r'); [reflexivity|].
  rewrite IH. apply perm_swap.
Qed.

Lemma sort_values_perm (l : list A) : Permutation (sort l) l.
Proof.
  induction l as [|r l IH]; simpl; [reflexivity|].
  rewrite insert_row_perm. now constructor.
Qed.

Lemma insert_row_sorted (r : A) (l : list A) :
  StronglySorted le l -> StronglySorted le (ins r l).
Proof.
  induction 1 as [|r' l Hs IH Hall]; simpl.
  - repeat constructor.
  - destruct (row_le time ident ascending r r') eqn:Hle.
    + constructor; [now constructor|].
      constructor; [exact Hle|].
      eapply Forall_impl; [exact Hall|].
      intros r3 H3. simpl in *. eapply row_le_trans; eassumption.
    + constructor; [exact IH|].
      assert (Hr : row_le time ident ascending r' r = true).
      { destruct (row_le_total r r') as [H | H]; congruence. }
      eapply Permutation_Forall.
      * symmetry. apply insert_row_perm.
      * now constructor.
Qed.

Lemma sort_values_sorted (l : list A) : StronglySorted le (sort l).
Proof.
  induction l as [|r l IH]; simpl; [constructor|].
  now apply insert_row_sorted.
Qed.

Lemma row_le_in_order (r1 r2 : A) :
  row_le time ident ascending r1 r2 = true ->
  in_order ascending (time r1) (ident r1) (time r2) (ident r2).
Proof.
  unfold row_le, in_order, cmp_time.
  destruct (time r1) as [a|], (time r2) as [b|]; auto; try discriminate.
  destruct ascending.
  - destruct (Z.compare_spec a b); intros Hc; try discriminate;
      split; try lia; intros; auto; lia.
  - destruct (Z.compare_spec b a); intros Hc; try discriminate;
      split; try lia; intros; auto; lia.
Qed.

Lemma strongly_sorted_lookup (l : list A) :
  StronglySorted le l ->
  forall (i j : nat) (r1 r2 : A),
    (i < j)%nat -> l !! i = Some r1 -> l !! j = Some r2 ->
    row_le time ident ascending r1 r2 = true.
Proof.
  induction 1 as [|r l Hs IH Hall]; intros i j r1 r2 Hij H1 H2.
  - destruct i; discriminate.
  - destruct j as [|j]; [lia|]. simpl in H2.
    destruct i as [|i]; simpl in H1.
    + injection H1 as <-.
      rewrite Forall_forall in Hall. apply Hall.
      eapply list_elem_of_lookup_2. exact H2.
    + eapply (IH i j); eauto. lia.
Qed.

Lemma sort_values_listed (l : list A) :
  listed_in_order time ident ascending (sort l).
Proof.
  intros i j r1 r2 Hij H1 H2. apply row_le_in_order.
  eapply strongly_sorted_lookup; eauto using sort_values_sorted.
Qed.

Lemma listed_in_order_firstn (n : nat) (l : list A) :
  listed_in_order time ident ascending l ->
  listed_in_order time ident ascending (firstn n l).
Proof.
  intros H i j r1 r2 Hij H1 H2.
  change (firstn n l) with (take n l) in *.
  apply lookup_take_Some in H1 as [H1 _].
  apply lookup_take_Some in H2 as [H2 _].
  eauto.
Qed.

Lemma listed_in_order_iloc (limit : option Z) (l : list A) :
  listed_in_order time ident ascending l ->
  listed_in_order time ident ascending (iloc_upto limit l).
Proof.
  intros H. unfold iloc_upto. destruct limit as [n|]; [|exact H].
  destruct (0 <=? n); now apply listed_in_order_firstn.
Qed.
End sort_values_facts.

(** ** The list methods, stage by stage *)

Lemma experiments_stages (self : client) (q : exp_query) :
  experiments self q =
  (df <- experiments_select self q ;;
   ascending <- parse_sort_by "start_datetime" (q_sort_by q) ;;
   Ok (iloc_upto (q_limit q)
         (sort_values exp_start_time exp_uuid ascending df))).
Proof.
  unfold experiments, experiments_select.
  destruct (q_experiment_type q) as [ty|]; simpl;
    [destruct (type_filter exp_type ty (_experiments self)); simpl;
     [|reflexivity]|];
    (destruct (q_device_components q); simpl; [reflexivity|]);
    (destruct (q_tags q) as [tags|]; simpl; [|reflexivity]);
    (destruct (opt_eqb (q_tags_operator q) "OR"); simpl; [reflexivity|]);
    (destruct (opt_eqb (q_tags_operator q) "AND"); simpl; reflexivity).
Qed.

Lemma analysis_results_stages (self : client) (q : res_query) :
  analysis_results self q =
  (df <- analysis_results_select self q ;;
   ascending <- parse_sort_by "creation_datetime" (rq_sort_by q) ;;
   Ok (iloc_upto (rq_limit q)
         (sort_values res_created_at res_uuid ascending df))).
Proof.
  unfold analysis_results, analysis_results_select.
  set (df0 := match rq_experiment_uuid q with
              | Some u => _ | None => _ end).
  destruct (rq_result_type q) as [ty|]; simpl;
    [destruct (type_filter res_type ty df0); simpl; [|reflexivity]|];
    (destruct (rq_backend_name q); simpl; [reflexivity|]);
    (destruct (rq_tags q) as [tags|]; simpl; [|reflexivity]);
    (destruct (PyStr.split ":" tags) as [|op [|ts [|]]]; simpl;
     try reflexivity);
    (destruct (String.eqb op "any:"); simpl; [reflexivity|]);
    (destruct (String.eqb op "AND"); simpl; reflexivity).
Qed.

(** What a successful list call went through. *)
Lemma experiments_ok (self : client) (q : exp_query) (out : list experiment) :
  experiments self q = Ok out ->
  exists (df : list experiment) (ascending : bool),
    experiments_select self q = Ok df
    /\ parse_sort_by "start_datetime" (q_sort_by q) = Ok ascending
    /\ out = iloc_upto (q_limit q)
               (sort_values exp_start_time exp_uuid ascending df).
Proof.
  rewrite experiments_stages.
  destruct (experiments_select self q) as [df|]; simpl; [|discriminate].
  destruct (parse_sort_by "start_datetime" (q_sort_by q)) as [asc|];
    simpl; [|discriminate].
  intros [= <-]. eauto.
Qed.

Lemma analysis_results_ok (self : client) (q : res_query)
  (out : list analysis_result) :
  analysis_results self q = Ok out ->
  exists (df : list analysis_result) (ascending : bool),
    analysis_results_select self q = Ok df
    /\ parse_sort_by "creation_datetime" (rq_sort_by q) = Ok ascending
    /\ out = iloc_upto (rq_limit q)
               (sort_values res_created_at res_uuid ascending df).
Proof.
  rewrite analysis_results_stages.
  destruct (analysis_results_select self q) as [df|]; simpl; [|discriminate].
  destruct (parse_sort_by "creation_datetime" (rq_sort_by q)) as [asc|];
    simpl; [|discriminate].
  intros [= <-]. eauto.
Qed.

(** ** Python's [split], put back together *)

Lemma split_not_nil (sep : ascii) (s : string) : PyStr.split sep s <> [].
Proof.
  destruct s as [|c s]; simpl; [discriminate|].
  destruct (Ascii.eqb c sep); [discriminate|].
  destruct (PyStr.split sep s); discriminate.
Qed.

Lemma append_nil_l (s : string) : EmptyString +:+ s = s.
Proof. reflexivity. Qed.

Lemma append_cons (c : ascii) (a b : string) :
  String c a +:+ b = String c (a +:+ b).
Proof. reflexivity. Qed.

(** A string that does not split is its one piece. *)
Lemma split_one (sep : ascii) (s b : string) :
  PyStr.split sep s = [b] -> s = b.
Proof.
  revert b. induction s as [|c s IH]; intros b; simpl.
  - now intros [= <-].
  - destruct (Ascii.eqb c sep).
    + intros [= _ Hs]. now apply split_not_nil in Hs.
    + destruct (PyStr.split sep s) as [|p [|]] eqn:Hs;
        [now apply split_not_nil in Hs| |discriminate].
      intros [= <-]. f_equal. now apply IH.
Qed.

(** A string that splits in two is the two pieces around one separator. *)
Lemma split_two (sep : ascii) (s a b : string) :
  PyStr.split sep s = [a; b] -> s = a +:+ String sep b.
Proof.
  revert a b. induction s as [|c s IH]; intros a b; simpl; [discriminate|].
  destruct (Ascii.eqb c sep) eqn:Hc.
  - apply Ascii.eqb_eq in Hc. subst c. intros [= <- Hs].
    rewrite append_nil_l. f_equal. now apply split_one in Hs.
  - destruct (PyStr.split sep s) as [|p ps] eqn:Hs; [discriminate|].
    intros [= <- ->]. rewrite append_cons. f_equal. now apply IH.
Qed.

(** An accepted [sort_by] is exactly one token [field:asc] or
    [field:desc], and the direction read is the one written. *)
Lemma parse_sort_by_token (field : string) (sort_by : sort_arg)
  (ascending : bool) :
  parse_sort_by field (Some sort_by) = Ok ascending ->
  (sort_by = SortStr (field +:+ ":" +:+ (if ascending then "asc" else "desc"))
   \/ sort_by
      = SortList [field +:+ ":" +:+ (if ascending then "asc" else "desc")]).
Proof.
  unfold parse_sort_by.
  assert (Htok : forall token,
    match PyStr.split ":" token with
    | [name; direction] =>
        if negb (String.eqb name field)
           || (negb (String.eqb direction "asc")
               && negb (String.eqb direction "desc"))
        then Raise ValueError
        else Ok (String.eqb direction "asc")
    | _ => Raise ValueError
    end = Ok ascending ->
    token = field +:+ ":" +:+ (if ascending then "asc" else "desc")).
  { intros token.
    destruct (PyStr.split ":" token) as [|name [|direction [|]]] eqn:Hs;
      try discriminate.
    apply split_two in Hs. subst token.
    destruct (String.eqb name field) eqn:Hn; simpl; [|discriminate].
    apply String.eqb_eq in Hn. subst name.
    destruct (String.eqb direction "asc") eqn:Ha; simpl.
    - apply String.eqb_eq in Ha. subst. now intros [= <-].
    - destruct (String.eqb direction "desc") eqn:Hd; simpl; [|discriminate].
      apply String.eqb_eq in Hd. subst. now intros [= <-]. }
  destruct sort_by as [s | [|s [|]]]; try discriminate.
  - intros H. left. f_equal. now apply Htok.
  - intros H. right. do 2 f_equal. now apply Htok.
Qed.

(** ** C3: the order of a listing *)

Lemma NoDup_map_inj {A B} (f : A -> B) (l : list A) (x1 x2 : A) :
  NoDup (map f l) -> x1 ∈ l -> x2 ∈ l -> f x1 = f x2 -> x1 = x2.
Proof.
  induction l as [|r l IH]; intros Hnd Hx1 Hx2 Hf; [inversion Hx1|].
  simpl in Hnd. apply NoDup_cons in Hnd as [Hr Hnd].
  apply elem_of_cons in Hx1 as [-> | Hx1];
    apply elem_of_cons in Hx2 as [-> | Hx2]; auto.
  - exfalso. apply Hr. rewrite Hf. now apply list_elem_of_fmap_2.
  - exfalso. apply Hr. rewrite <- Hf. now apply list_elem_of_fmap_2.
Qed.

(** With pairwise distinct uuids the sorted sequence depends on the rows
    only, not on the order the table holds them in. *)
Lemma sort_values_order_free {A} (time : A -> option Z) (ident : A -> string)
  (ascending : bool) (l1 l2 : list A) :
  NoDup (map ident l1) -> Permutation l1 l2 ->
  sort_values time ident ascending l1 = sort_values time ident ascending l2.
Proof.
  intros Hnd Hperm.
  eapply (StronglySorted_unique_strong
            (fun r1 r2 => row_le time ident ascending r1 r2 = true)).
  - intros x1 x2 Hx1 Hx2 H12 H21.
    rewrite sort_values_perm in Hx1, Hx2. rewrite <- Hperm in Hx2.
    assert (Hid : ident x1 = ident x2).
    { unfold row_le in H12, H21.
      rewrite (cmp_time_antisym ascending (time x1) (time x2)) in H21.
      destruct (cmp_time ascending (time x1) (time x2)); simpl in *;
        try discriminate.
      now apply String.leb_antisym. }
    eapply NoDup_map_inj; eauto.
  - apply sort_values_sorted.
  - apply sort_values_sorted.
  - now rewrite !sort_values_perm.
Qed.

(** The example of the specification: [e1] at T1 tagged [x], [e2] at a later
    T2 tagged [y]. *)
Example list_ascending :
  experiments (fst two_experiments)
    (ExpQuery None None None None None None (Some "OR") None None
       (Some (SortStr "start_datetime:asc")))
  = Ok [row_of e1; row_of e2].
Proof. reflexivity. Qed.

Example list_default_descending :
  experiments (fst two_experiments) experiments_defaults
  = Ok [row_of e2; row_of e1].
Proof. reflexivity. Qed.

Example list_tag_x :
  experiments (fst two_experiments)
    (ExpQuery None None None None (Some ["x"]) None (Some "OR") None None None)
  = Ok [row_of e1].
Proof. reflexivity. Qed.

(** ** C5: the limit *)

Lemma experiments_select_limit (self : client) (q : exp_query)
  (limit : option Z) :
  experiments_select self (exp_with_limit q limit) = experiments_select self q.
Proof. reflexivity. Qed.

Lemma analysis_results_select_limit (self : client) (q : res_query)
  (limit : option Z) :
  analysis_results_select self (res_with_limit q limit)
  = analysis_results_select self q.
Proof. reflexivity. Qed.

Lemma experiments_limit (self : client) (q : exp_query) (limit : option Z)
  (full : list experiment) :
  experiments self (exp_with_limit q None) = Ok full ->
  experiments self (exp_with_limit q limit) = Ok (iloc_upto limit full).
Proof.
  intros Hfull.
  apply experiments_ok in Hfull as (df & asc & Hsel & Hparse & ->).
  rewrite experiments_stages, experiments_select_limit.
  rewrite experiments_select_limit in Hsel. rewrite Hsel. simpl.
  simpl in Hparse. rewrite Hparse. reflexivity.
Qed.

Lemma analysis_results_limit (self : client) (q : res_query)
  (limit : option Z) (full : list analysis_result) :
  analysis_results self (res_with_limit q None) = Ok full ->
  analysis_results self (res_with_limit q limit) = Ok (iloc_upto limit full).
Proof.
  intros Hfull.
  apply analysis_results_ok in Hfull as (df & asc & Hsel & Hparse & ->).
  rewrite analysis_results_stages, analysis_results_select_limit.
  rewrite analysis_results_select_limit in Hsel. rewrite Hsel. simpl.
  simpl in Hparse. rewrite Hparse. reflexivity.
Qed.

Lemma iloc_upto_nonneg {A} (n : Z) (l : list A) :
  0 <= n ->
  iloc_upto (Some n) l = firstn (Nat.min (Z.to_nat n) (length l)) l
  /\ (length (iloc_upto (Some n) l) <= Z.to_nat n)%nat.
Proof.
  intros Hn. unfold iloc_upto.
  destruct (0 <=? n) eqn:H0; [|apply Z.leb_gt in H0; lia].
  split.
  - destruct (Nat.le_ge_cases (Z.to_nat n) (length l)) as [H | H].
    + now rewrite Nat.min_l.
    + rewrite Nat.min_r by exact H.
      now rewrite !firstn_all2 by lia.
  - rewrite length_firstn. lia.
Qed.

(** The signature of [experiments] gives the limit a default; a call that
    leaves the limit out is cut at ten entries. *)
Lemma omitted_limit_truncates :
  q_limit experiments_defaults = Some 10
  /\ length (_experiments (fst eleven_experiments)) = 11%nat
  /\ experiments (fst eleven_experiments) experiments_defaults
     = Ok (firstn 10 (sort_values exp_start_time exp_uuid false
                        (_experiments (fst eleven_experiments))))
  /\ experiments (fst eleven_experiments) experiments_defaults
     <> Ok (sort_values exp_start_time exp_uuid false
              (_experiments (fst eleven_experiments))).
Proof.
  split; [reflexivity|]. split; [reflexivity|]. split; [reflexivity|].
  intros H.
  apply (f_equal (fun r => match r with
                           | Ok l => length l
                           | Raise _ => 0%nat
                           end)) in H.
  vm_compute in H. discriminate.
Qed.

(** C5, amended. On either table the limit [None] returns the whole sorted
    sequence of the selected rows, a limit [N >= 0] returns its first
    [min(N, length)] entries (at most [N] of them), and the limit 0 returns
    nothing.  [experiments] called without a limit
    uses its default, 10, and returns the first ten entries;
    [analysis_results] has no default for [limit]. *)
Theorem limit_takes_a_prefix (self : client) :
  (forall (q : exp_query) (full : list experiment),
      experiments self (exp_with_limit q None) = Ok full ->
      (exists (df : list experiment) (ascending : bool),
          experiments_select self q = Ok df
          /\ full = sort_values exp_start_time exp_uuid ascending df)
      /\ (forall n : Z, 0 <= n ->
           experiments self (exp_with_limit q (Some n))
           = Ok (firstn (Nat.min (Z.to_nat n) (length full)) full))
      /\ experiments self (exp_with_limit q (Some 0)) = Ok []
      /\ experiments self (exp_with_limit q (q_limit experiments_defaults))
         = Ok (firstn 10 full))
  /\ (forall (q : res_query) (full : list analysis_result),
      analysis_results self (res_with_limit q None) = Ok full ->
      (exists (df : list analysis_result) (ascending : bool),
          analysis_results_select self q = Ok df
          /\ full = sort_values res_created_at res_uuid ascending df)
      /\ (forall n : Z, 0 <= n ->
           analysis_results self (res_with_limit q (Some n))
           = Ok (firstn (Nat.min (Z.to_nat n) (length full)) full))
      /\ analysis_results self (res_with_limit q (Some 0)) = Ok []).
Proof.
  split.
  - intros q full Hfull. split; [|split; [|split]].
    + apply experiments_ok in Hfull as (df & asc & Hsel & _ & ->).
      rewrite experiments_select_limit in Hsel. now exists df, asc.
    + intros n Hn. rewrite (experiments_limit _ _ (Some n) _ Hfull).
      f_equal. now apply iloc_upto_nonneg.
    + now rewrite (experiments_limit _ _ (Some 0) _ Hfull).
    + now rewrite (experiments_limit _ _ _ _ Hfull).
  - intros q full Hfull. split; [|split].
    + apply analysis_results_ok in Hfull as (df & asc & Hsel & _ & ->).
      rewrite analysis_results_select_limit in Hsel. now exists df, asc.
    + intros n Hn. rewrite (analysis_results_limit _ _ (Some n) _ Hfull).
      f_equal. now apply iloc_upto_nonneg.
    + now rewrite (analysis_results_limit _ _ (Some 0) _ Hfull).
Qed.

(** The two sample experiments, listed with limit 1. *)
Lemma limit_takes_a_prefix_witness :
  experiments (fst two_experiments) (exp_with_limit experiments_defaults None)
  = Ok [row_of e2; row_of e1]
  /\ experiments (fst two_experiments)
       (exp_with_limit experiments_defaults (Some 1))
     = Ok [row_of e2].
Proof.
  split; [reflexivity|].
  exact (proj1 (proj2 (proj1 (limit_takes_a_prefix (fst two_experiments))
                         experiments_defaults [row_of e2; row_of e1] eq_refl))
           1 ltac:(lia)).
Defined.

(** ** Membership, substrings and pieces *)

Lemma mem_spec (x : string) (xs : list string) :
  PyStr.mem x xs = true <-> In x xs.
Proof.
  unfold PyStr.mem. rewrite existsb_exists. split.
  - intros (y & Hy & Heq). apply String.eqb_eq in Heq. now subst.
  - intros Hx. exists x. split; [exact Hx|]. apply String.eqb_refl.
Qed.

Lemma any_tag_spec (tags dftags : list string) :
  any_tag tags dftags = true <-> exists t, In t tags /\ In t dftags.
Proof.
  unfold any_tag. rewrite existsb_exists.
  split; intros (t & Ht & Hm); exists t; split; auto; now apply mem_spec.
Qed.

Lemma all_tags_spec (tags dftags : list string) :
  all_tags tags dftags = true <-> forall t, In t tags -> In t dftags.
Proof.
  unfold all_tags. rewrite forallb_forall.
  split; intros H t Ht; apply mem_spec; auto.
Qed.

Lemma startswith_spec (p s : string) :
  PyStr.startswith p s = true <-> exists post, s = p +:+ post.
Proof.
  revert s. induction p as [|a p IH]; intros s; simpl.
  - split; [intros _; now exists s | reflexivity].
  - destruct s as [|b s].
    + split; [discriminate | intros [post H]; discriminate].
    + rewrite andb_true_iff, Ascii.eqb_eq, IH. split.
      * intros [-> [post ->]]. now exists post.
      * intros [post H]. rewrite append_cons in H.
        injection H as -> ->. split; [reflexivity | now exists post].
Qed.

Lemma contains_spec (pat s : string) :
  PyStr.contains pat s = true <-> substring pat s.
Proof.
  unfold substring. induction s as [|c s IH].
  - simpl. rewrite orb_false_r, startswith_spec. split.
    + intros [post H]. now exists EmptyString, post.
    + intros ([|a pre] & post & H); [now exists post | discriminate].
  - simpl. rewrite orb_true_iff, startswith_spec, IH. split.
    + intros [[post H] | (pre & post & H)].
      * now exists EmptyString, post.
      * exists (String c pre), post. rewrite append_cons. now f_equal.
    + intros ([|a pre] & post & H).
      * left. now exists post.
      * right. rewrite append_cons in H. injection H as -> ->.
        now exists pre, post.
Qed.

Lemma split_no_sep (sep : ascii) (s : string) :
  PyStr.has_char sep s = false -> PyStr.split sep s = [s].
Proof.
  induction s as [|c s IH]; simpl; [reflexivity|].
  rewrite orb_false_iff. intros [Hc Hs]. rewrite Hc, (IH Hs). reflexivity.
Qed.

(** No piece of a split holds the separator. *)
Lemma split_pieces (sep : ascii) (s : string) :
  Forall (fun piece => PyStr.has_char sep piece = false) (PyStr.split sep s).
Proof.
  induction s as [|c s IH]; simpl.
  - now repeat constructor.
  - destruct (Ascii.eqb c sep) eqn:Hc.
    + now constructor.
    + destruct (PyStr.split sep s) as [|p ps];
        [repeat constructor; simpl; now rewrite Hc|].
      apply Forall_cons in IH as [Hp Hps].
      constructor; [|exact Hps]. simpl. now rewrite Hc.
Qed.

(** ** The type filter *)

(** The filter never raises: a value that starts with ["like:"] has a
    second piece. *)
Lemma type_filter_total {A} (type : A -> string) (value : string)
  (df : list A) :
  exists df', type_filter type value df = Ok df'.
Proof.
  unfold type_filter.
  destruct (String.eqb (PyStr.take 5 value) "like:") eqn:Hlike; [|eauto].
  apply String.eqb_eq in Hlike.
  destruct value as [|c1 [|c2 [|c3 [|c4 [|c5 rest]]]]]; try discriminate.
  simpl in Hlike. injection Hlike as -> -> -> -> ->.
  simpl. pose proof (split_not_nil ":" rest) as Hne.
  destruct (PyStr.split ":" rest) as [|p ps]; [congruence|]. simpl. eauto.
Qed.

(** A plain value keeps the rows whose type is the value. *)
Lemma type_filter_exact {A} (type : A -> string) (value : string)
  (df : list A) :
  PyStr.take 5 value <> "like:" ->
  type_filter type value df
  = Ok (List.filter (fun r => String.eqb (type r) value) df).
Proof.
  intros Hne. unfold type_filter.
  destruct (String.eqb (PyStr.take 5 value) "like:") eqn:Hlike; [|reflexivity].
  now apply String.eqb_eq in Hlike.
Qed.

(** With the prefix, and a rest [s] that holds no further colon and no
    regular-expression metacharacter, the rows kept are those whose type
    holds [s]. *)
Lemma type_filter_like {A} (type : A -> string) (s : string) (df : list A) :
  PyStr.has_char ":" s = false -> PyStr.plain s = true ->
  type_filter type ("like:" +:+ s) df
  = Ok (List.filter (fun r => PyStr.contains s (type r)) df).
Proof.
  intros Hs _. unfold type_filter.
  change ("like:" +:+ s)
    with (String "l" (String "i" (String "k" (String "e" (String ":" s))))).
  simpl. now rewrite (split_no_sep ":" s Hs).
Qed.

Lemma type_filter_like_In {A} (type : A -> string) (s : string) (df : list A) :
  PyStr.has_char ":" s = false -> PyStr.plain s = true ->
  exists out, type_filter type ("like:" +:+ s) df = Ok out
    /\ forall r, In r out <-> In r df /\ substring s (type r).
Proof.
  intros Hs Hplain. eexists. split; [now apply type_filter_like|].
  intros r. now rewrite filter_In, contains_spec.
Qed.

(** C6: the filter [like:a:b] over a table with the types ["a"] and
    ["xa:by"].  The pattern the code looks for is the piece between the
    first two colons, ["a"]: both rows come back, although the type ["a"]
    does not contain ["a:b"], the value with the prefix removed. *)
Theorem like_filter_cut_at_second_colon :
  experiments (fst colon_types) (type_query "like:a:b")
  = Ok [row_of eb; row_of ea]
  /\ PyStr.contains "a:b" (exp_type (row_of ea)) = false
  /\ PyStr.contains "a:b" (exp_type (row_of eb)) = true
  /\ experiments (fst colon_types) (type_query "like:a")
     = experiments (fst colon_types) (type_query "like:a:b").
Proof. repeat split; reflexivity. Qed.

(** ** C4: the tag filter *)

Lemma parse_sort_by_default_experiments :
  parse_sort_by "start_datetime" None = Ok false.
Proof. reflexivity. Qed.

Lemma parse_sort_by_default_results :
  parse_sort_by "creation_datetime" None = Ok false.
Proof. reflexivity. Qed.

(** On the experiments table the two operators select as their names say,
    and any other operator is refused. *)
Lemma experiments_tags_or (self : client) (tags : list string) :
  exists out,
    experiments self (tags_query tags (Some "OR")) = Ok out
    /\ forall r, In r out <->
         In r (_experiments self)
         /\ exists t, In t tags /\ In t (exp_tags r).
Proof.
  eexists. split; [reflexivity|].
  intros r. simpl.
  rewrite <- any_tag_spec,
    <- (filter_In (fun r => any_tag tags (exp_tags r))).
  split; apply Permutation_in;
    [|symmetry]; apply sort_values_perm.
Qed.

Lemma experiments_tags_and (self : client) (tags : list string) :
  exists out,
    experiments self (tags_query tags (Some "AND")) = Ok out
    /\ forall r, In r out <->
         In r (_experiments self)
         /\ forall t, In t tags -> In t (exp_tags r).
Proof.
  eexists. split; [reflexivity|].
  intros r. simpl.
  rewrite <- all_tags_spec,
    <- (filter_In (fun r => all_tags tags (exp_tags r))).
  split; apply Permutation_in;
    [|symmetry]; apply sort_values_perm.
Qed.

Lemma experiments_tags_other (self : client) (tags : list string)
  (operator : option string) :
  operator <> Some "OR" -> operator <> Some "AND" ->
  experiments self (tags_query tags operator) = Raise ValueError.
Proof.
  intros Hor Hand. unfold experiments. simpl.
  destruct operator as [op|]; simpl; [|reflexivity].
  destruct (String.eqb op "OR") eqn:H1;
    [apply String.eqb_eq in H1; congruence|].
  destruct (String.eqb op "AND") eqn:H2;
    [apply String.eqb_eq in H2; congruence|].
  reflexivity.
Qed.

(** On the results table the operator is a piece of a split at colons and is
    compared with ["any:"]: no tag string reaches the any-of branch, and the
    only accepted operator is ["AND"]. *)
Lemma analysis_results_tags_only_and (self : client) (q : res_query)
  (tags : string) (out : list analysis_result) :
  rq_tags q = Some tags ->
  analysis_results self q = Ok out ->
  exists ts, PyStr.split ":" tags = ["AND"; ts].
Proof.
  intros Htags Hout.
  apply analysis_results_ok in Hout as (df & asc & Hsel & _ & _).
  unfold analysis_results_select in Hsel. rewrite Htags in Hsel.
  destruct (rq_result_type q) as [ty|]; simpl in Hsel;
    [destruct (type_filter res_type ty _); simpl in Hsel; [|discriminate]|];
    (destruct (rq_backend_name q); simpl in Hsel; [discriminate|]);
    pose proof (split_pieces ":" tags) as Hpieces;
    (destruct (PyStr.split ":" tags) as [|op [|ts [|]]]; try discriminate);
    apply Forall_cons in Hpieces as [Hop _];
    (destruct (String.eqb op "any:") eqn:Hany;
     [apply String.eqb_eq in Hany; subst op; discriminate|]);
    (destruct (String.eqb op "AND") eqn:Hand; [|discriminate]);
    apply String.eqb_eq in Hand; subst op; eauto.
Qed.

(** C4: the any-of tag filter on the results table.  The table holds one
    result tagged ["a"]; asking for the results with any of the tags [a],
    as [any:a] or as [OR:a], raises [ValueError] instead of returning that
    result; the all-of filter [AND:a] returns it. *)
Theorem analysis_results_any_of_tags_raises :
  map res_tags (_results (fst one_result)) = [["a"]]
  /\ analysis_results (fst one_result) (res_tags_query "any:a")
     = Raise ValueError
  /\ analysis_results (fst one_result) (res_tags_query "OR:a")
     = Raise ValueError
  /\ analysis_results (fst one_result) (res_tags_query "AND:a")
     = Ok (_results (fst one_result)).
Proof. repeat split; reflexivity. Qed.

(** ** C9: device components *)

(** The experiments list refuses the filter whatever else is asked. *)
Lemma experiments_device_components (self : client) (q : exp_query)
  (device_components : string) :
  experiments self (exp_with_device_components q (Some device_components))
  = Raise ValueError.
Proof.
  unfold experiments. simpl.
  destruct (q_experiment_type q) as [ty|]; simpl; [|reflexivity].
  destruct (type_filter_total exp_type ty (_experiments self)) as [df ->].
  reflexivity.
Qed.

(** The results list does not read the argument. *)
Lemma analysis_results_device_components (self : client) (q : res_query)
  (device_components : option (list string)) :
  analysis_results self (res_with_device_components q device_components)
  = analysis_results self q.
Proof. reflexivity. Qed.

(** A results listing with a device-components filter returns records. *)
Lemma analysis_results_accepts_device_components :
  analysis_results (fst one_result)
    (res_with_device_components (analysis_results_defaults None None)
       (Some ["Q0"]))
  = Ok (_results (fst one_result))
  /\ _results (fst one_result) <> [].
Proof. split; [reflexivity | discriminate]. Qed.

(** C9, amended. A list query on the experiments table with a non-null
    [device_components] returns no record: it raises.  What it raises is
    [ValueError] when the type filter is absent or an exact value; a
    ["like:"] filter is evaluated first (lines 203-208 come before the
    check of line 221), and a failure of its own comes first.  A list query
    on the results table ignores [device_components]: it answers as it does
    without the argument. *)
Theorem device_components_refused_for_experiments_only (self : client) :
  (forall (q : exp_query) (device_components : string),
      is_ok (experiments self
               (exp_with_device_components q (Some device_components)))
      = false)
  /\ (forall (q : exp_query) (device_components : string),
      exact_type_filter (q_experiment_type q) = true ->
      experiments self (exp_with_device_components q (Some device_components))
      = Raise ValueError)
  /\ (forall (q : res_query) (device_components : option (list string)),
      analysis_results self (res_with_device_components q device_components)
      = analysis_results self (res_with_device_components q None)).
Proof.
  split; [|split].
  - intros q dc. now rewrite experiments_device_components.
  - intros q dc _. apply experiments_device_components.
  - intros q dc. now rewrite !analysis_results_device_components.
Qed.

(** The two experiments, asked for with the type [T1], a tag and device
    components: refused; the results of [e1], asked for with device
    components: listed. *)
Lemma device_components_refused_witness :
  experiments (fst two_experiments)
    (ExpQuery None (Some "Q0") (Some "T1") None (Some ["x"]) None (Some "OR")
       None None None)
  = Raise ValueError
  /\ analysis_results (fst one_result)
       (ResQuery None None None (Some ["Q0"]) (Some "e1") None None None None
          None None)
     = Ok (_results (fst one_result)).
Proof.
  split.
  - exact (proj1 (proj2 (device_components_refused_for_experiments_only
                           (fst two_experiments)))
             (ExpQuery None None (Some "T1") None (Some ["x"]) None
                (Some "OR") None None None) "Q0" eq_refl).
  - exact (eq_trans
             (proj2 (proj2 (device_components_refused_for_experiments_only
                              (fst one_result)))
                (ResQuery None None None None (Some "e1") None None None None
                   None None) (Some ["Q0"]))
             eq_refl).
Defined.

(** ** C10: the figure methods *)

(** Upload stores a figure under a free key and refuses a taken one. *)
Lemma plot_upload_free (experiment_id plot_name : string) (plot : bytes)
  (self : client) (d : directory) :
  plot_lookup (_figures self) experiment_id plot_name = None ->
  value_of (experiment_plot_upload experiment_id plot plot_name self d)
  = Ok true
  /\ plot_lookup
       (_figures (client_after
          (experiment_plot_upload experiment_id plot plot_name self d)))
       experiment_id plot_name = Some plot.
Proof.
  unfold plot_lookup, experiment_plot_upload. intros Hfree.
  destruct (_figures self !! experiment_id) as [exp_figures|] eqn:Hexp; simpl.
  - rewrite Hexp, Hfree. simpl. rewrite lookup_insert_eq.
    split; [reflexivity | apply lookup_insert_eq].
  - rewrite lookup_insert_eq, lookup_empty. simpl.
    rewrite lookup_insert_eq. split; [reflexivity | apply lookup_insert_eq].
Qed.

Lemma plot_upload_taken (experiment_id plot_name : string) (plot old : bytes)
  (self : client) (d : directory) :
  plot_lookup (_figures self) experiment_id plot_name = Some old ->
  experiment_plot_upload experiment_id plot plot_name self d
  = (Raise (RequestsApiError (Some 409)), self, d).
Proof.
  unfold plot_lookup, experiment_plot_upload. intros Htaken.
  destruct (_figures self !! experiment_id) as [exp_figures|] eqn:Hexp;
    [|discriminate].
  now rewrite Hexp, Htaken.
Qed.

(** Where the experiment has a dictionary of figures, get, update and
    delete succeed on a stored name and answer 404 on a missing one. *)
Lemma plot_methods_known_experiment (experiment_id plot_name : string)
  (plot : bytes) (exp_figures : gmap string bytes) (self : client)
  (d : directory) :
  _figures self !! experiment_id = Some exp_figures ->
  match exp_figures !! plot_name with
  | Some old =>
      experiment_plot_get self experiment_id plot_name = Ok old
      /\ value_of (experiment_plot_update experiment_id plot plot_name self d)
         = Ok (plot_name, length plot)
      /\ value_of (experiment_plot_delete experiment_id plot_name self d)
         = Ok tt
  | None =>
      experiment_plot_get self experiment_id plot_name
      = Raise (RequestsApiError (Some 404))
      /\ experiment_plot_update experiment_id plot plot_name self d
         = (Raise (RequestsApiError (Some 404)), self, d)
      /\ experiment_plot_delete experiment_id plot_name self d
         = (Raise (RequestsApiError (Some 404)), self, d)
  end.
Proof.
  intros Hexp.
  unfold experiment_plot_get, experiment_plot_update, experiment_plot_delete.
  rewrite Hexp. destruct (exp_figures !! plot_name); repeat split.
Qed.

(** Where the experiment has none, the subscript [self._figures[id]]
    raises. *)
Lemma plot_methods_unknown_experiment (experiment_id plot_name : string)
  (plot : bytes) (self : client) (d : directory) :
  _figures self !! experiment_id = None ->
  experiment_plot_get self experiment_id plot_name = Raise KeyError
  /\ experiment_plot_update experiment_id plot plot_name self d
     = (Raise KeyError, self, d)
  /\ experiment_plot_delete experiment_id plot_name self d
     = (Raise KeyError, self, d).
Proof.
  intros Hexp.
  unfold experiment_plot_get, experiment_plot_update, experiment_plot_delete.
  rewrite Hexp. repeat split.
Qed.

(** C10: get, update and delete of a figure of an experiment that has no
    figure at all.  On a new client the three calls for ("e1", "p") raise
    [KeyError], not the [RequestsApiError] with status 404 that their
    docstrings announce and that they raise once the experiment has some
    other figure. *)
Theorem plot_of_unknown_experiment_raises_KeyError :
  _figures (fst fresh_client) !! "e1" = None
  /\ experiment_plot_get (fst fresh_client) "e1" "p" = Raise KeyError
  /\ value_of (experiment_plot_update "e1" png "p"
                 (fst fresh_client) (snd fresh_client)) = Raise KeyError
  /\ value_of (experiment_plot_delete "e1" "p"
                 (fst fresh_client) (snd fresh_client)) = Raise KeyError
  /\ experiment_plot_get
       (fst (run fresh_client [PlotUpload "e1" png "other"])) "e1" "p"
     = Raise (RequestsApiError (Some 404)).
Proof. repeat split; reflexivity. Qed.

(** ** C8: creating an analysis result *)

Lemma experiment_get_loc (self : client) (experiment_id : string) :
  experiment_get self experiment_id =
  match loc_uuid exp_uuid experiment_id (_experiments self) with
  | [] => Raise IBMExperimentEntryNotFound
  | exp :: _ => Ok exp
  end.
Proof.
  unfold experiment_get.
  now destruct (loc_uuid exp_uuid experiment_id (_experiments self)).
Qed.





(** The device name of the result is a copy: renaming the device of the
    experiment afterwards leaves it. *)
Example device_name_is_a_snapshot :
  map res_device_name
    (_results (fst (run one_result
                      [ExperimentUpdate "e1" [Xdevice_name "ibmq_quito"]])))
  = ["ibmq_lima"]
  /\ map exp_device_name
       (_experiments (fst (run one_result
                      [ExperimentUpdate "e1" [Xdevice_name "ibmq_quito"]])))
     = ["ibmq_quito"; "ibmq_lima"].
Proof. split; reflexivity. Qed.

(** ** C7: the uuids of the experiments table *)

Lemma loc_uuid_nil {A} (uuid : A -> string) (id : string) (df : list A) :
  loc_uuid uuid id df = [] <-> ~ In id (map uuid df).
Proof.
  unfold loc_uuid. induction df as [|r df IH]; simpl; [tauto|].
  destruct (String.eqb (uuid r) id) eqn:Heq.
  - apply String.eqb_eq in Heq. split; [discriminate | tauto].
  - apply String.eqb_neq in Heq. rewrite IH. tauto.
Qed.

Lemma drop_uuid_NoDup {A} (uuid : A -> string) (id : string) (df : list A) :
  NoDup (map uuid df) -> NoDup (map uuid (drop_uuid uuid id df)).
Proof.
  unfold drop_uuid. induction df as [|r df IH]; simpl; [auto|].
  rewrite NoDup_cons. intros [Hr Hnd].
  destruct (negb (String.eqb (uuid r) id)); simpl; [|auto].
  apply NoDup_cons. split; [|auto].
  rewrite list_elem_of_In in *. intros Hin. apply Hr.
  apply in_map_iff in Hin as (r' & Heq & Hin).
  apply filter_In in Hin as [Hin _].
  apply in_map_iff. eauto.
Qed.

Lemma at_first_uuids {A} (uuid : A -> string) (id : string) (set : A -> A)
  (df : list A) :
  (forall r, uuid (set r) = uuid r) ->
  map uuid (at_first uuid id set df) = map uuid df.
Proof.
  intros Hset. induction df as [|r df IH]; simpl; [reflexivity|].
  destruct (String.eqb (uuid r) id); simpl; [now rewrite Hset|].
  now rewrite IH.
Qed.

Lemma set_items_uuid (new_data : list experiment_item) (r : experiment) :
  no_uuid_item new_data = true ->
  exp_uuid (fold_left (fun r item => set_experiment_item item r) new_data r)
  = exp_uuid r.
Proof.
  revert r. induction new_data as [|item items IH]; intros r; simpl;
    [reflexivity|].
  rewrite andb_true_iff. intros [Hitem Hitems].
  rewrite (IH _ Hitems). now destruct item.
Qed.

(** Re-inserting a stored uuid is refused and changes nothing. *)
Lemma experiment_upload_exists (fresh : string) (data : experiment_data)
  (self : client) (d : directory) :
  In (uuid_or fresh (xd_uuid data)) (map exp_uuid (_experiments self)) ->
  experiment_upload fresh data self d
  = (Raise IBMExperimentEntryExists, self, d).
Proof.
  intros Hin. unfold experiment_upload. fold (uuid_or fresh (xd_uuid data)).
  destruct (loc_uuid exp_uuid (uuid_or fresh (xd_uuid data))
              (_experiments self)) eqn:Hloc; [|reflexivity].
  now apply loc_uuid_nil in Hloc.
Qed.

(** An update without a ["uuid"] key leaves every uuid where it is. *)
Lemma experiment_update_uuids (experiment_id : string)
  (new_data : list experiment_item) (self : client) (d : directory) :
  no_uuid_item new_data = true ->
  map exp_uuid
    (_experiments (client_after
       (experiment_update experiment_id new_data self d)))
  = map exp_uuid (_experiments self).
Proof.
  intros Hitems. unfold experiment_update.
  destruct (df_empty (loc_uuid exp_uuid experiment_id (_experiments self)));
    [reflexivity|].
  simpl. apply at_first_uuids. intros r. now apply set_items_uuid.
Qed.

Lemma step_keeps_distinct (w : client * directory) (rq : request) :
  keeps_experiment_uuids rq = true ->
  NoDup (map exp_uuid (_experiments (fst w))) ->
  NoDup (map exp_uuid (_experiments (fst (step w rq)))).
Proof.
  destruct w as [self d]. intros Hrq Hnd.
  destruct rq; simpl in *.
  - unfold experiment_upload.
    destruct (loc_uuid exp_uuid _ (_experiments self)) eqn:Hloc; simpl;
      [|exact Hnd].
    apply loc_uuid_nil in Hloc.
    rewrite map_app. simpl. apply NoDup_app. split; [exact Hnd|].
    split; [|apply NoDup_singleton].
    intros u Hu Hu'. apply list_elem_of_singleton in Hu'. subst u.
    now apply list_elem_of_In in Hu.
  - apply andb_true_iff in Hrq as [Hrq _].
    change (NoDup (map exp_uuid (_experiments (client_after
              (experiment_update experiment_id new_data self d))))).
    now rewrite experiment_update_uuids.
  - unfold experiment_delete.
    destruct (df_empty (loc_uuid exp_uuid _ (_experiments self))); simpl;
      [exact Hnd|].
    now apply drop_uuid_NoDup.
  - unfold experiment_plot_upload.
    destruct (_figures self !! experiment_id) as [fs|] eqn:Hfs; simpl.
    + rewrite Hfs. now destruct (fs !! plot_name).
    + rewrite lookup_insert_eq, lookup_empty. exact Hnd.
  - unfold experiment_plot_update.
    destruct (_figures self !! experiment_id) as [fs|]; [|exact Hnd].
    now destruct (fs !! plot_name).
  - unfold experiment_plot_delete.
    destruct (_figures self !! experiment_id) as [fs|]; [|exact Hnd].
    now destruct (fs !! plot_name).
  - unfold analysis_result_create.
    destruct (rd_experiment_uuid data); [|exact Hnd].
    now destruct (loc_uuid exp_uuid _ (_experiments self)).
  - unfold analysis_result_update.
    now destruct (df_empty (loc_uuid res_uuid _ (_results self))).
  - unfold analysis_result_delete.
    now destruct (df_empty (loc_uuid res_uuid _ (_results self))).
Qed.

(** C7: the uuid of a stored experiment is overwritten, with the uuid of
    another one.  A new client takes the uploads of [e1] and [e2]; the
    table holds the two uuids, pairwise distinct.  The call
    [experiment_update("e1", {"uuid": "e2"})] then assigns the key as any
    other (lines 336-337), saves, and raises [IndexError] when it looks the
    row up again under the old uuid (lines 339-340): it leaves the uuid
    ["e2"] twice in the table, in memory and in the table file, no row
    with the uuid ["e1"], and a look-up of ["e2"] that answers with the row
    uploaded as [e1]. *)
Theorem update_overwrites_uuid :
  let w :=
    run fresh_client
      [ExperimentUpload "u1" e1; ExperimentUpload "u2" e2;
       ExperimentUpdate "e1" [Xuuid "e2"]] in
  map exp_uuid (_experiments (fst two_experiments)) = ["e1"; "e2"]
  /\ value_of (experiment_update "e1" [Xuuid "e2"]
                 (fst two_experiments) (snd two_experiments))
     = Raise IndexError
  /\ map exp_uuid (_experiments (fst w)) = ["e2"; "e2"]
  /\ option_map (map exp_uuid) (experiments_file (snd w))
     = Some ["e2"; "e2"]
  /\ ~ NoDup (map exp_uuid (_experiments (fst w)))
  /\ experiment_get (fst w) "e1" = Raise IBMExperimentEntryNotFound
  /\ experiment_get (fst w) "e2"
     = Ok (Experiment "T1" "ibmq_lima" "e2" None ["x"] (Some 100) []).
Proof.
  repeat split; try reflexivity.
  change (~ NoDup ["e2"; "e2"]).
  rewrite NoDup_cons. intros [Hnotin _]. apply Hnotin. now left.
Qed.

(** The results table takes a second row with a uuid it already holds, and
    an update of one of the two then returns with the uuid changed. *)
Example result_create_accepts_stored_uuid :
  let w :=
    run one_result
      [ResultCreate "u4" (sample_result (Some "r1") (Some "e2") [])] in
  map res_uuid (_results (fst w)) = ["r1"; "r1"]
  /\ is_ok (value_of (analysis_result_update "r1" [Ruuid "r2"]
                        (fst w) (snd w))) = true
  /\ map res_uuid
       (_results (client_after (analysis_result_update "r1" [Ruuid "r2"]
                                  (fst w) (snd w))))
     = ["r2"; "r1"].
Proof. repeat split; reflexivity. Qed.

(** Without an item for the uuid in any update, the uuids stay pairwise
    distinct: upload refuses a stored uuid, update leaves the uuids, delete
    removes rows. *)
Lemma run_keeps_distinct (w : client * directory) (rqs : list request) :
  NoDup (map exp_uuid (_experiments (fst w))) ->
  forallb keeps_experiment_uuids rqs = true ->
  NoDup (map exp_uuid (_experiments (fst (run w rqs)))).
Proof.
  revert w.
  induction rqs as [|rq rqs IH]; intros w Hnd; [now intros _|].
  simpl forallb. rewrite andb_true_iff. intros [Hrq Hrqs].
  change (run w (rq :: rqs)) with (run (step w rq) rqs).
  apply IH; [|exact Hrqs]. now apply step_keeps_distinct.
Qed.

(** ** C1 and C2: what reaches the directory, and what comes back *)

Lemma save_tables (self : client) (d : directory) :
  _local_save self = true -> tables_flushed (self, save self d).
Proof. intros Hsave. unfold tables_flushed, save. now rewrite Hsave. Qed.

(** The constructor leaves the table files equal to the tables. *)
Lemma new_client_tables_flushed (d : directory) :
  tables_flushed (LocalExperimentClient true d).
Proof. unfold LocalExperimentClient, init_db. now apply save_tables. Qed.

(** Every call keeps them equal: the eight methods that change a table or
    store a figure end with [save], and the figure delete changes no
    table. *)
Lemma step_tables_flushed (w : client * directory) (rq : request) :
  tables_flushed w -> tables_flushed (step w rq).
Proof.
  destruct w as [self d]. intros Hw. pose proof Hw as (Hsave & _ & _).
  simpl in Hsave. destruct rq; simpl.
  - unfold experiment_upload.
    destruct (negb (df_empty (loc_uuid exp_uuid _ (_experiments self))));
      [exact Hw | now apply save_tables].
  - unfold experiment_update.
    destruct (df_empty (loc_uuid exp_uuid _ (_experiments self)));
      [exact Hw | now apply save_tables].
  - unfold experiment_delete.
    destruct (df_empty (loc_uuid exp_uuid _ (_experiments self)));
      [exact Hw | now apply save_tables].
  - unfold experiment_plot_upload.
    destruct (_figures self !! experiment_id) as [fs|] eqn:Hfs; simpl.
    + rewrite Hfs. destruct (fs !! plot_name);
        [exact Hw | now apply save_tables].
    + rewrite lookup_insert_eq, lookup_empty. now apply save_tables.
  - unfold experiment_plot_update.
    destruct (_figures self !! experiment_id) as [fs|]; [|exact Hw].
    destruct (fs !! plot_name); [now apply save_tables | exact Hw].
  - unfold experiment_plot_delete.
    destruct (_figures self !! experiment_id) as [fs|]; [|exact Hw].
    destruct (fs !! plot_name); exact Hw.
  - unfold analysis_result_create.
    destruct (rd_experiment_uuid data); [|exact Hw].
    destruct (loc_uuid exp_uuid _ (_experiments self));
      [exact Hw | now apply save_tables].
  - unfold analysis_result_update.
    destruct (df_empty (loc_uuid res_uuid _ (_results self)));
      [exact Hw | now apply save_tables].
  - unfold analysis_result_delete.
    destruct (df_empty (loc_uuid res_uuid _ (_results self)));
      [exact Hw | now apply save_tables].
Qed.

Lemma run_tables_flushed (rqs : list request) (w : client * directory) :
  tables_flushed w -> tables_flushed (run w rqs).
Proof.
  revert w. induction rqs as [|rq rqs IH]; intros w Hw; [exact Hw|].
  change (run w (rq :: rqs)) with (run (step w rq) rqs).
  now apply IH, step_tables_flushed.
Qed.

(** The two table files hold the tables as they are, and [init_db] takes
    them from there (as far as [pandas.read_json] re-types no column). *)
Lemma tables_survive_restart (d : directory) (rqs : list request) :
  let w := run (LocalExperimentClient true d) rqs in
  _experiments (restart (snd w)) = _experiments (fst w)
  /\ _results (restart (snd w)) = _results (fst w).
Proof.
  intros w.
  destruct (run_tables_flushed rqs _ (new_client_tables_flushed d))
    as (_ & Hexp & Hres).
  fold w in Hexp, Hres.
  unfold restart, LocalExperimentClient, init_db. simpl.
  now rewrite Hexp, Hres.
Qed.

(** *** File names and figures *)

(** The file name is the identifier, an underscore and the figure name: for
    identifiers of one length it tells the two apart. *)
Lemma figure_filename_cons (c : ascii) (id name : string) :
  figure_filename (String c id) name = String c (figure_filename id name).
Proof. reflexivity. Qed.

Lemma figure_filename_nil (name : string) :
  figure_filename EmptyString name = String "_" name.
Proof. reflexivity. Qed.

Lemma figure_filename_inj (id1 id2 name1 name2 : string) :
  String.length id1 = String.length id2 ->
  figure_filename id1 name1 = figure_filename id2 name2 ->
  id1 = id2 /\ name1 = name2.
Proof.
  revert id2. induction id1 as [|c id1 IH]; intros [|c' id2]; try discriminate.
  - rewrite !figure_filename_nil. now intros _ [= ->].
  - rewrite !figure_filename_cons. simpl. intros [= Hlen] [= -> Hf].
    destruct (IH _ Hlen Hf) as [-> ->]. auto.
Qed.

Lemma startswith_figure_filename (id name : string) :
  PyStr.startswith id (figure_filename id name) = true.
Proof.
  induction id as [|c id IH]; [reflexivity|].
  rewrite figure_filename_cons. simpl. now rewrite Ascii.eqb_refl.
Qed.

Lemma startswith_same_length (id id' name : string) :
  String.length id = String.length id' ->
  PyStr.startswith id (figure_filename id' name) = true -> id = id'.
Proof.
  revert id'. induction id as [|c id IH]; intros [|c' id']; try discriminate;
    [reflexivity|].
  rewrite figure_filename_cons. simpl. intros [= Hlen].
  rewrite andb_true_iff, Ascii.eqb_eq. intros [-> Hs]. f_equal. eauto.
Qed.

Lemma drop_figure_filename (id name : string) :
  PyStr.drop (String.length id + 1) (figure_filename id name) = name.
Proof.
  induction id as [|c id IH]; [reflexivity|].
  rewrite figure_filename_cons. exact IH.
Qed.

(** The files of one experiment, written over [dir]. *)
Lemma save_one_lookup (id : string) (fs : gmap string bytes)
  (dir : gmap string bytes) :
  let dir' :=
    map_fold (fun name data dir => <[figure_filename id name := data]> dir)
      dir fs in
  (forall name,
     dir' !! figure_filename id name
     = match fs !! name with
       | Some data => Some data
       | None => dir !! figure_filename id name
       end)
  /\ (forall f, (forall name, f <> figure_filename id name) ->
        dir' !! f = dir !! f).
Proof.
  simpl.
  apply (map_fold_weak_ind
    (fun dir' (fs : gmap string bytes) =>
       (forall name,
          dir' !! figure_filename id name
          = match fs !! name with
            | Some data => Some data
            | None => dir !! figure_filename id name
            end)
       /\ (forall f, (forall name, f <> figure_filename id name) ->
             dir' !! f = dir !! f))).
  - split; [intros name; now rewrite lookup_empty | reflexivity].
  - intros name data m r Hm [IH1 IH2]. split.
    + intros name'. destruct (decide (name = name')) as [<- | Hne].
      * now rewrite !lookup_insert_eq.
      * rewrite !lookup_insert_ne; auto.
        intros Heq. apply figure_filename_inj in Heq; [tauto | reflexivity].
    + intros f Hf. rewrite lookup_insert_ne; auto.
Qed.

Lemma not_figure_filename (id f : string) :
  f <> figure_filename id (PyStr.drop (String.length id + 1) f) ->
  forall name, f <> figure_filename id name.
Proof.
  intros Hne name ->. apply Hne. now rewrite drop_figure_filename.
Qed.

(** All the files [_save_figures] writes, over [dir], when the experiment
    identifiers have one length. *)
Lemma save_figures_lookup (n : nat) (figs : gmap string (gmap string bytes))
  (dir : gmap string bytes) :
  (forall id, is_Some (figs !! id) -> String.length id = n) ->
  (forall id name, String.length id = n ->
     _save_figures figs dir !! figure_filename id name
     = match plot_lookup figs id name with
       | Some data => Some data
       | None => dir !! figure_filename id name
       end)
  /\ (forall f, is_Some (_save_figures figs dir !! f) ->
        is_Some (dir !! f)
        \/ exists id name, String.length id = n /\ f = figure_filename id name).
Proof.
  unfold _save_figures.
  apply (map_fold_weak_ind
    (fun dir' (figs : gmap string (gmap string bytes)) =>
       (forall id, is_Some (figs !! id) -> String.length id = n) ->
       (forall id name, String.length id = n ->
          dir' !! figure_filename id name
          = match plot_lookup figs id name with
            | Some data => Some data
            | None => dir !! figure_filename id name
            end)
       /\ (forall f, is_Some (dir' !! f) ->
             is_Some (dir !! f)
             \/ exists id name,
                 String.length id = n /\ f = figure_filename id name))).
  - intros _. split; [|auto].
    intros id name _. unfold plot_lookup. now rewrite lookup_empty.
  - intros i x m r Hi IH Hkeys.
    assert (Hlen : String.length i = n).
    { apply Hkeys. rewrite lookup_insert_eq. eauto. }
    destruct IH as [IH1 IH2].
    { intros id Hid. apply Hkeys.
      destruct (decide (i = id)) as [-> | Hne];
        [rewrite lookup_insert_eq; eauto | now rewrite lookup_insert_ne]. }
    destruct (save_one_lookup i x r) as [H1 H2]. split.
    + intros id name Hid. unfold plot_lookup.
      destruct (decide (i = id)) as [<- | Hne].
      * rewrite H1, lookup_insert_eq.
        destruct (x !! name); [reflexivity|].
        rewrite IH1 by exact Hlen. unfold plot_lookup. now rewrite Hi.
      * rewrite lookup_insert_ne by exact Hne.
        rewrite H2; [now apply IH1|].
        intros name' Heq. apply figure_filename_inj in Heq; [|congruence].
        destruct Heq as [-> _]. now apply Hne.
    + intros f Hf.
      destruct (decide
        (f = figure_filename i (PyStr.drop (String.length i + 1) f)))
        as [Heq | Hne].
      * right. eauto.
      * rewrite H2 in Hf by now apply not_figure_filename.
        now apply IH2.
Qed.

(** The figures [_get_figure_list] reads for one experiment. *)
Lemma load_one_lookup (n : nat) (id : string) (dir : gmap string bytes) :
  String.length id = n ->
  (forall f, is_Some (dir !! f) ->
     exists id' name', String.length id' = n /\ f = figure_filename id' name') ->
  forall name,
    map_fold
      (fun filename figure_data (figures_for_exp : gmap string bytes) =>
         if PyStr.startswith id filename then
           <[PyStr.drop (String.length id + 1) filename := figure_data]>
             figures_for_exp
         else figures_for_exp)
      (∅ : gmap string bytes) dir !! name
    = dir !! figure_filename id name.
Proof.
  intros Hlen.
  apply (map_fold_weak_ind
    (fun (acc : gmap string bytes) (dir : gmap string bytes) =>
       (forall f, is_Some (dir !! f) ->
          exists id' name',
            String.length id' = n /\ f = figure_filename id' name') ->
       forall name, acc !! name = dir !! figure_filename id name)).
  - intros _ name. now rewrite !lookup_empty.
  - intros f x m acc Hf IH Hkeys name.
    destruct (Hkeys f) as (id' & name' & Hlen' & ->).
    { rewrite lookup_insert_eq. eauto. }
    assert (IH' : forall name, acc !! name = m !! figure_filename id name).
    { apply IH. intros f' Hf'. apply Hkeys.
      destruct (decide (figure_filename id' name' = f')) as [<- | Hne];
        [rewrite lookup_insert_eq; eauto | now rewrite lookup_insert_ne]. }
    destruct (PyStr.startswith id (figure_filename id' name')) eqn:Hstart.
    + apply startswith_same_length in Hstart; [|congruence]. subst id'.
      rewrite drop_figure_filename.
      destruct (decide (name' = name)) as [-> | Hne].
      * now rewrite !lookup_insert_eq.
      * rewrite !lookup_insert_ne; auto.
        intros Heq. apply figure_filename_inj in Heq; [tauto | reflexivity].
    + rewrite lookup_insert_ne; [apply IH'|].
      intros Heq. apply figure_filename_inj in Heq; [|congruence].
      destruct Heq as [-> _].
      now rewrite startswith_figure_filename in Hstart.
Qed.

(** [_get_figure_list] has an entry for every uuid of the table. *)
Lemma get_figure_list_lookup (table : list experiment)
  (dir : gmap string bytes) (id : string) :
  In id (map exp_uuid table) ->
  _get_figure_list table dir !! id
  = Some (map_fold
      (fun filename figure_data (figures_for_exp : gmap string bytes) =>
         if PyStr.startswith id filename then
           <[PyStr.drop (String.length id + 1) filename := figure_data]>
             figures_for_exp
         else figures_for_exp)
      (∅ : gmap string bytes) dir).
Proof.
  unfold _get_figure_list.
  generalize (∅ : gmap string (gmap string bytes)) as acc.
  induction (map exp_uuid table) as [|u us IH]; intros acc Hin; [destruct Hin|].
  simpl. destruct (in_dec string_dec id us) as [Hus | Hus].
  - now apply IH.
  - destruct Hin as [-> | Hin]; [|contradiction].
    clear IH. revert acc.
    assert (Hkeep : forall acc : gmap string (gmap string bytes),
      fold_left
        (fun figures exp_id =>
           <[exp_id := map_fold
               (fun filename figure_data
                    (figures_for_exp : gmap string bytes) =>
                  if PyStr.startswith exp_id filename then
                    <[PyStr.drop (String.length exp_id + 1) filename
                        := figure_data]> figures_for_exp
                  else figures_for_exp)
               (∅ : gmap string bytes) dir]> figures)
        us acc !! id = acc !! id).
    { induction us as [|u us IH]; intros acc; [reflexivity|].
      simpl. rewrite IH by (intros H; apply Hus; now right).
      apply lookup_insert_ne. intros ->. apply Hus. now left. }
    intros acc. rewrite Hkeep. apply lookup_insert_eq.
Qed.

(** From a directory equal to the client, a restart gives back the figures
    of every experiment of the table. *)
Lemma figures_survive_restart (n : nat) (self : client) (d : directory) :
  flushed self d ->
  (forall id, is_Some (_figures self !! id) -> String.length id = n) ->
  forall id name,
    In id (map exp_uuid (_experiments self)) -> String.length id = n ->
    plot_lookup (_figures (restart d)) id name
    = plot_lookup (_figures self) id name.
Proof.
  intros (Hexp & _ & Hdir) Hkeys id name Hin Hlen.
  unfold restart, LocalExperimentClient, init_db. simpl.
  rewrite Hexp. simpl. unfold plot_lookup at 1.
  rewrite (get_figure_list_lookup _ _ _ Hin).
  destruct (save_figures_lookup n (_figures self) ∅ Hkeys) as [H1 H2].
  rewrite (load_one_lookup n id (figures_dir d) Hlen).
  - rewrite Hdir, H1 by exact Hlen.
    destruct (plot_lookup (_figures self) id name); [reflexivity|].
    apply lookup_empty.
  - intros f Hf. rewrite Hdir in Hf. apply H2 in Hf as [Hf | Hf]; [|exact Hf].
    rewrite lookup_empty in Hf. now destruct Hf.
Qed.

(** Saving over the files of an earlier save that had no other figure
    gives the files of the figures held now. *)
Lemma save_figures_again (n : nat)
  (figs figs' : gmap string (gmap string bytes)) :
  uniform_figure_ids n figs -> uniform_figure_ids n figs' ->
  (forall id name,
     plot_lookup figs' id name = None -> plot_lookup figs id name = None) ->
  _save_figures figs' (_save_figures figs ∅) = _save_figures figs' ∅.
Proof.
  intros Hfigs Hfigs' Hincl.
  destruct (save_figures_lookup n figs ∅ Hfigs) as [A0 B0].
  destruct (save_figures_lookup n figs' ∅ Hfigs') as [A1 B1].
  destruct (save_figures_lookup n figs' (_save_figures figs ∅) Hfigs')
    as [A2 B2].
  assert (Hform : forall id name, String.length id = n ->
    _save_figures figs' (_save_figures figs ∅) !! figure_filename id name
    = _save_figures figs' ∅ !! figure_filename id name).
  { intros id name Hlen. rewrite A1, A2 by exact Hlen.
    destruct (plot_lookup figs' id name) eqn:Hl; [reflexivity|].
    rewrite A0 by exact Hlen. now rewrite (Hincl _ _ Hl). }
  apply map_eq. intros f.
  destruct (_save_figures figs' (_save_figures figs ∅) !! f) as [v|] eqn:H2.
  - destruct (B2 f) as [Hf | (id & name & Hlen & ->)]; [eauto| |].
    + destruct (B0 f Hf) as [Hf0 | (id & name & Hlen & ->)].
      * rewrite lookup_empty in Hf0. now destruct Hf0.
      * rewrite <- H2. now apply Hform.
    + rewrite <- H2. now apply Hform.
  - destruct (_save_figures figs' ∅ !! f) as [v|] eqn:H1; [|reflexivity].
    destruct (B1 f) as [Hf | (id & name & Hlen & ->)]; [eauto| |].
    + rewrite lookup_empty in Hf. now destruct Hf.
    + rewrite <- H1, <- H2. now apply Hform.
Qed.

Lemma save_flushed (n : nat) (self self' : client) (d : directory) :
  flushed self d -> _local_save self' = true ->
  uniform_figure_ids n (_figures self) ->
  uniform_figure_ids n (_figures self') ->
  (forall id name,
     plot_lookup (_figures self') id name = None ->
     plot_lookup (_figures self) id name = None) ->
  flushed self' (save self' d).
Proof.
  intros (_ & _ & Hdir) Hsave Hu Hu' Hincl.
  unfold flushed, save. rewrite Hsave. simpl.
  split; [reflexivity|]. split; [reflexivity|].
  rewrite Hdir. now apply (save_figures_again n).
Qed.

Lemma plot_lookup_insert (figs : gmap string (gmap string bytes))
  (id name id' name' : string) (fs : gmap string bytes) (plot : bytes) :
  plot_lookup (<[id := <[name := plot]> fs]> figs) id' name'
  = if decide (id = id') then
      if decide (name = name') then Some plot else fs !! name'
    else plot_lookup figs id' name'.
Proof.
  unfold plot_lookup. destruct (decide (id = id')) as [<- | Hne].
  - rewrite lookup_insert_eq. destruct (decide (name = name')) as [<- | Hne].
    + apply lookup_insert_eq.
    + now apply lookup_insert_ne.
  - now rewrite lookup_insert_ne.
Qed.

Lemma uniform_insert (n : nat) (figs : gmap string (gmap string bytes))
  (id : string) (fs : gmap string bytes) :
  String.length id = n -> uniform_figure_ids n figs ->
  uniform_figure_ids n (<[id := fs]> figs).
Proof.
  intros Hlen Hu id' Hid'. destruct (decide (id = id')) as [<- | Hne];
    [exact Hlen|]. apply Hu. now rewrite lookup_insert_ne in Hid'.
Qed.

(** Every call but the figure delete leaves the directory equal to the
    client. *)
Lemma step_flushed (n : nat) (w : client * directory) (rq : request) :
  _local_save (fst w) = true -> flushed (fst w) (snd w) ->
  uniform_figure_ids n (_figures (fst w)) ->
  figure_request_ok n rq = true ->
  _local_save (fst (step w rq)) = true
  /\ flushed (fst (step w rq)) (snd (step w rq))
  /\ uniform_figure_ids n (_figures (fst (step w rq))).
Proof.
  destruct w as [self d]. simpl. intros Hsave Hfl Hu Hrq.
  assert (Hkeep : forall self' : client,
             _local_save self' = true -> _figures self' = _figures self ->
             _local_save self' = true
             /\ flushed self' (save self' d)
             /\ uniform_figure_ids n (_figures self')).
  { intros self' Hs Hf. split; [exact Hs|]. split.
    - apply (save_flushed n self); auto; rewrite Hf; auto.
    - now rewrite Hf. }
  destruct rq; simpl in *; try discriminate.
  - unfold experiment_upload.
    destruct (negb (df_empty (loc_uuid exp_uuid _ (_experiments self))));
      [auto | now apply Hkeep].
  - unfold experiment_update.
    destruct (df_empty (loc_uuid exp_uuid _ (_experiments self)));
      [auto | now apply Hkeep].
  - unfold experiment_delete.
    destruct (df_empty (loc_uuid exp_uuid _ (_experiments self)));
      [auto | now apply Hkeep].
  - apply Nat.eqb_eq in Hrq. unfold experiment_plot_upload.
    destruct (_figures self !! experiment_id) as [fs|] eqn:Hfs; simpl.
    + rewrite Hfs. destruct (fs !! plot_name) eqn:Hname; [auto|]. simpl.
      split; [exact Hsave|]. split; [|now apply uniform_insert].
      apply (save_flushed n self); auto; simpl; [now apply uniform_insert|].
      intros id name. rewrite plot_lookup_insert.
      destruct (decide (experiment_id = id)) as [<- | Hne]; [|auto].
      destruct (decide (plot_name = name)) as [<- | Hne]; [discriminate|].
      unfold plot_lookup. now rewrite Hfs.
    + rewrite lookup_insert_eq, lookup_empty. simpl.
      split; [exact Hsave|].
      split; [|now apply uniform_insert, uniform_insert].
      apply (save_flushed n self); auto; simpl;
        [now apply uniform_insert, uniform_insert|].
      intros id name. rewrite plot_lookup_insert.
      destruct (decide (experiment_id = id)) as [<- | Hne].
      * intros _. unfold plot_lookup. now rewrite Hfs.
      * unfold plot_lookup. now rewrite lookup_insert_ne.
  - unfold experiment_plot_update.
    destruct (_figures self !! experiment_id) as [fs|] eqn:Hfs; [|auto].
    destruct (fs !! plot_name) eqn:Hname; [|auto]. simpl.
    assert (Hlen : String.length experiment_id = n) by (apply Hu; eauto).
    split; [exact Hsave|]. split; [|now apply uniform_insert].
    apply (save_flushed n self); auto; simpl; [now apply uniform_insert|].
    intros id name. rewrite plot_lookup_insert.
    destruct (decide (experiment_id = id)) as [<- | Hne]; [|auto].
    destruct (decide (plot_name = name)) as [<- | Hne]; [discriminate|].
    unfold plot_lookup. now rewrite Hfs.
  - unfold analysis_result_create.
    destruct (rd_experiment_uuid data); [|auto].
    destruct (loc_uuid exp_uuid _ (_experiments self));
      [auto | now apply Hkeep].
  - unfold analysis_result_update.
    destruct (df_empty (loc_uuid res_uuid _ (_results self)));
      [auto | now apply Hkeep].
  - unfold analysis_result_delete.
    destruct (df_empty (loc_uuid res_uuid _ (_results self)));
      [auto | now apply Hkeep].
Qed.

Lemma new_client_flushed :
  _local_save (fst fresh_client) = true
  /\ flushed (fst fresh_client) (snd fresh_client)
  /\ forall n, uniform_figure_ids n (_figures (fst fresh_client)).
Proof.
  split; [reflexivity|]. split; [repeat split|].
  intros n id Hid.
  change (_figures (fst fresh_client))
    with (∅ : gmap string (gmap string bytes)) in Hid.
  rewrite lookup_empty in Hid. now destruct Hid.
Qed.

(** So does every sequence of calls without a figure delete. *)
Lemma run_flushed (n : nat) (rqs : list request) (w : client * directory) :
  _local_save (fst w) = true -> flushed (fst w) (snd w) ->
  uniform_figure_ids n (_figures (fst w)) ->
  forallb (figure_request_ok n) rqs = true ->
  _local_save (fst (run w rqs)) = true
  /\ flushed (fst (run w rqs)) (snd (run w rqs))
  /\ uniform_figure_ids n (_figures (fst (run w rqs))).
Proof.
  revert w. induction rqs as [|rq rqs IH]; intros w Hs Hf Hu; [now intros _|].
  simpl forallb. rewrite andb_true_iff. intros [Hrq Hrqs].
  change (run w (rq :: rqs)) with (run (step w rq) rqs).
  destruct (step_flushed n w rq Hs Hf Hu Hrq) as (Hs' & Hf' & Hu').
  now apply IH.
Qed.

(** After any calls without a figure delete, a restart gives back the
    figures of every experiment of the table. *)
Lemma figures_survive_restart_after (n : nat) (rqs : list request) :
  forallb (figure_request_ok n) rqs = true ->
  let w := run fresh_client rqs in
  forall id name,
    In id (map exp_uuid (_experiments (fst w))) -> String.length id = n ->
    plot_lookup (_figures (restart (snd w))) id name
    = plot_lookup (_figures (fst w)) id name.
Proof.
  intros Hrqs w id name Hin Hlen.
  destruct new_client_flushed as (Hs & Hf & Hu).
  destruct (run_flushed n rqs fresh_client Hs Hf (Hu n) Hrqs)
    as (_ & Hf' & Hu').
  now apply (figures_survive_restart n).
Qed.

(** C1: the figure delete.  A saving client stores the figure ("e1", "p")
    and deletes it again; both calls return.  The delete does not call
    [save], and [save] removes no file: the client holds no figure, the
    directory still holds the file [e1_p], so the directory is not the
    state of the client. *)
Theorem plot_delete_is_not_flushed :
  let w1 := run fresh_client [PlotUpload "e1" png "p"] in
  let w2 := run w1 [PlotDelete "e1" "p"] in
  _local_save (fst w2) = true
  /\ value_of (experiment_plot_delete "e1" "p" (fst w1) (snd w1)) = Ok tt
  /\ flushed (fst w1) (snd w1)
  /\ plot_lookup (_figures (fst w2)) "e1" "p" = None
  /\ figures_dir (snd w2) !! "e1_p" = Some png
  /\ figures_dir (snd (step w2 (ExperimentUpload "u1" e1))) !! "e1_p"
     = Some png
  /\ ~ flushed (fst w2) (snd w2).
Proof.
  repeat split; try reflexivity.
  intros (_ & _ & Hfig).
  apply (f_equal (fun dir : gmap string bytes => dir !! "e1_p")) in Hfig.
  vm_compute in Hfig. discriminate.
Qed.

(** C2: a restart after a figure delete, and after an upload for an
    identifier that is not in the experiments table.  In the first case the
    deleted figure is back after the restart; in the second the figure is
    held before the restart and gone after it, because figures are read
    back for the uuids of the experiments table only. *)
Theorem restart_does_not_reproduce_the_figures :
  (let w := run two_experiments [PlotUpload "e1" png "p"; PlotDelete "e1" "p"]
   in plot_lookup (_figures (fst w)) "e1" "p" = None
      /\ plot_lookup (_figures (restart (snd w))) "e1" "p" = Some png)
  /\ (let w := run two_experiments [PlotUpload "x" png "p"]
      in plot_lookup (_figures (fst w)) "x" "p" = Some png
         /\ plot_lookup (_figures (restart (snd w))) "x" "p" = None).
Proof. repeat split; reflexivity. Qed.

(** * Further properties of the client *)

(** ** The record store: look-up, removal and assignment by uuid *)

Lemma loc_uuid_In {A} (uuid : A -> string) (id : string) (df : list A)
  (r : A) :
  In r (loc_uuid uuid id df) <-> In r df /\ uuid r = id.
Proof.
  unfold loc_uuid. rewrite filter_In. now rewrite String.eqb_eq.
Qed.

Lemma loc_uuid_app {A} (uuid : A -> string) (id : string) (df1 df2 : list A) :
  loc_uuid uuid id (df1 ++ df2)%list
  = (loc_uuid uuid id df1 ++ loc_uuid uuid id df2)%list.
Proof. unfold loc_uuid. apply List.filter_app. Qed.

Lemma loc_uuid_drop_same {A} (uuid : A -> string) (id : string)
  (df : list A) :
  loc_uuid uuid id (drop_uuid uuid id df) = [].
Proof.
  unfold loc_uuid, drop_uuid. induction df as [|r df IH]; [reflexivity|].
  simpl. destruct (String.eqb (uuid r) id) eqn:Heq; simpl; [exact IH|].
  now rewrite Heq.
Qed.

Lemma loc_uuid_drop_other {A} (uuid : A -> string) (id id' : string)
  (df : list A) :
  id' <> id ->
  loc_uuid uuid id' (drop_uuid uuid id df) = loc_uuid uuid id' df.
Proof.
  intros Hne. unfold loc_uuid, drop_uuid.
  induction df as [|r df IH]; [reflexivity|]. simpl.
  destruct (String.eqb (uuid r) id) eqn:Heq; simpl.
  - apply String.eqb_eq in Heq.
    destruct (String.eqb (uuid r) id') eqn:Heq'; [|exact IH].
    apply String.eqb_eq in Heq'. congruence.
  - now rewrite IH.
Qed.

Lemma loc_uuid_at_first_other {A} (uuid : A -> string) (id id' : string)
  (set : A -> A) (df : list A) :
  id' <> id ->
  (forall r, uuid r = id -> uuid (set r) <> id') ->
  loc_uuid uuid id' (at_first uuid id set df) = loc_uuid uuid id' df.
Proof.
  intros Hne Hset. unfold loc_uuid.
  induction df as [|r df IH]; [reflexivity|]. simpl.
  destruct (String.eqb (uuid r) id) eqn:Heq; simpl.
  - apply String.eqb_eq in Heq.
    destruct (String.eqb (uuid (set r)) id') eqn:H1.
    { apply String.eqb_eq in H1. now apply Hset in H1. }
    destruct (String.eqb (uuid r) id') eqn:H2; [|reflexivity].
    apply String.eqb_eq in H2. congruence.
  - now rewrite IH.
Qed.

Lemma loc_uuid_at_first_same {A} (uuid : A -> string) (id : string)
  (set : A -> A) (df : list A) (r : A) (rest : list A) :
  loc_uuid uuid id df = r :: rest ->
  loc_uuid uuid id (at_first uuid id set df)
  = (if String.eqb (uuid (set r)) id then set r :: rest else rest).
Proof.
  unfold loc_uuid. induction df as [|r0 df IH]; [discriminate|]. simpl.
  destruct (String.eqb (uuid r0) id) eqn:Heq; simpl.
  - intros [= -> <-]. reflexivity.
  - rewrite Heq. exact IH.
Qed.

Lemma at_first_length {A} (uuid : A -> string) (id : string) (set : A -> A)
  (df : list A) :
  length (at_first uuid id set df) = length df.
Proof.
  induction df as [|r df IH]; [reflexivity|]. simpl.
  destruct (String.eqb (uuid r) id); simpl; [reflexivity | now rewrite IH].
Qed.

Lemma loc_uuid_NoDup {A} (uuid : A -> string) (id : string) (df : list A)
  (r : A) (rest : list A) :
  NoDup (map uuid df) -> loc_uuid uuid id df = r :: rest -> rest = [].
Proof.
  unfold loc_uuid. induction df as [|r0 df IH]; [discriminate|]. simpl.
  rewrite NoDup_cons. intros [Hr0 Hnd].
  destruct (String.eqb (uuid r0) id) eqn:Heq; [|now apply IH].
  apply String.eqb_eq in Heq. intros [= -> <-].
  destruct (List.filter (fun r => String.eqb (uuid r) id) df) as [|r' l] eqn:Hf;
    [reflexivity|].
  exfalso. apply Hr0.
  assert (Hin : In r' (List.filter (fun r => String.eqb (uuid r) id) df))
    by (rewrite Hf; now left).
  apply filter_In in Hin as [Hin Hid]. apply String.eqb_eq in Hid.
  rewrite Heq, <- Hid. apply list_elem_of_In. now apply in_map.
Qed.

Lemma get_of_loc {A} (uuid : A -> string) (id : string) (df : list A) :
  (if df_empty (loc_uuid uuid id df) then Raise IBMExperimentEntryNotFound
   else serialize (loc_uuid uuid id df))
  = match loc_uuid uuid id df with
    | [] => Raise IBMExperimentEntryNotFound
    | r :: _ => Ok r
    end.
Proof. now destruct (loc_uuid uuid id df). Qed.

Lemma analysis_result_get_loc (self : client) (result_id : string) :
  analysis_result_get self result_id =
  match loc_uuid res_uuid result_id (_results self) with
  | [] => Raise IBMExperimentEntryNotFound
  | r :: _ => Ok r
  end.
Proof. apply get_of_loc. Qed.

(** X1. [experiment_get] and [analysis_result_get] raise
    [IBMExperimentEntryNotFound] exactly when no row of their table has the
    uuid; otherwise they return the first row of the table with that
    uuid. *)
Theorem get_finds_the_first_row_or_raises (self : client) (id : string) :
  (experiment_get self id = Raise IBMExperimentEntryNotFound
   <-> ~ In id (map exp_uuid (_experiments self)))
  /\ (forall r, experiment_get self id = Ok r ->
        exists before after,
          _experiments self = (before ++ r :: after)%list
          /\ exp_uuid r = id
          /\ ~ In id (map exp_uuid before))
  /\ (analysis_result_get self id = Raise IBMExperimentEntryNotFound
      <-> ~ In id (map res_uuid (_results self)))
  /\ (forall r, analysis_result_get self id = Ok r ->
        exists before after,
          _results self = (before ++ r :: after)%list
          /\ res_uuid r = id
          /\ ~ In id (map res_uuid before)).
Proof.
  assert (Hfirst : forall A (uuid : A -> string) (df : list A) r rest,
    loc_uuid uuid id df = r :: rest ->
    exists before after, df = (before ++ r :: after)%list /\ uuid r = id
                         /\ ~ In id (map uuid before)).
  { intros A uuid df r rest. unfold loc_uuid.
    induction df as [|r0 df IH]; [discriminate|]. simpl.
    destruct (String.eqb (uuid r0) id) eqn:Heq.
    - apply String.eqb_eq in Heq. intros [= -> <-].
      exists [], df. simpl. tauto.
    - apply String.eqb_neq in Heq. intros H.
      destruct (IH H) as (before & after & -> & Hid & Hnot).
      exists (r0 :: before), after. simpl. split; [reflexivity|].
      split; [exact Hid|]. tauto. }
  rewrite experiment_get_loc, analysis_result_get_loc.
  split; [|split; [|split]].
  - rewrite <- loc_uuid_nil.
    destruct (loc_uuid exp_uuid id (_experiments self)); split;
      congruence.
  - intros r.
    destruct (loc_uuid exp_uuid id (_experiments self)) eqn:Hloc;
      [discriminate|].
    intros [= ->]. eapply Hfirst; eauto.
  - rewrite <- loc_uuid_nil.
    destruct (loc_uuid res_uuid id (_results self)); split; congruence.
  - intros r.
    destruct (loc_uuid res_uuid id (_results self)) eqn:Hloc;
      [discriminate|].
    intros [= ->]. eapply Hfirst; eauto.
Qed.

Lemma get_finds_the_first_row_or_raises_witness :
  exists before after,
    _experiments (fst two_experiments) = (before ++ row_of e2 :: after)%list
    /\ exp_uuid (row_of e2) = "e2"
    /\ ~ In "e2" (map exp_uuid before).
Proof.
  exact (proj1 (proj2 (get_finds_the_first_row_or_raises
                         (fst two_experiments) "e2"))
           (row_of e2) eq_refl).
Defined.

(** X2. After an [experiment_upload] that returned a row: the uuid of the
    row is the payload's, or the generated one when the payload has none;
    it was not in the table before; the row is the last of the table;
    [experiment_get] finds it under its uuid; and the look-up of every
    other uuid answers as before.  (The payload has no key that is not a
    column of the table.) *)
Theorem experiment_upload_then_get (fresh : string) (data : experiment_data)
  (self : client) (d : directory) (row : experiment) :
  opaque_cells experiment_opaque_columns (xd_other data) = true ->
  value_of (experiment_upload fresh data self d) = Ok row ->
  let self' := client_after (experiment_upload fresh data self d) in
  exp_uuid row = uuid_or fresh (xd_uuid data)
  /\ ~ In (exp_uuid row) (map exp_uuid (_experiments self))
  /\ _experiments self' = (_experiments self ++ [row])%list
  /\ experiment_get self' (exp_uuid row) = Ok row
  /\ forall id, id <> exp_uuid row ->
       experiment_get self' id = experiment_get self id.
Proof.
  intros _. unfold experiment_upload. fold (uuid_or fresh (xd_uuid data)).
  destruct (loc_uuid exp_uuid (uuid_or fresh (xd_uuid data))
              (_experiments self)) eqn:Hloc; [|discriminate].
  simpl. intros [= <-]. simpl.
  split; [reflexivity|]. split; [now apply loc_uuid_nil|].
  split; [reflexivity|]. split.
  - rewrite experiment_get_loc. simpl. rewrite loc_uuid_app, Hloc. simpl.
    now rewrite String.eqb_refl.
  - intros id Hne. rewrite !experiment_get_loc. simpl.
    rewrite loc_uuid_app. simpl.
    destruct (String.eqb (uuid_or fresh (xd_uuid data)) id) eqn:Heq.
    + apply String.eqb_eq in Heq. congruence.
    + now rewrite app_nil_r.
Qed.

Lemma experiment_upload_then_get_witness :
  experiment_get
    (client_after (experiment_upload "u1" e1 (fst fresh_client)
                     (snd fresh_client))) "e1"
  = Ok (row_of e1).
Proof.
  exact (proj1 (proj2 (proj2 (proj2
    (experiment_upload_then_get "u1" e1 (fst fresh_client) (snd fresh_client)
       (row_of e1) eq_refl eq_refl))))).
Defined.

(** X3. [experiment_delete] of a uuid that is not in the table raises
    [IBMExperimentEntryNotFound] and changes nothing.  Otherwise it returns
    what [experiment_get] returned before, no row with the uuid is left (a
    look-up raises [IBMExperimentEntryNotFound]), the look-up of every
    other uuid answers as before, and the results table and the figures
    are untouched: nothing cascades. *)
Theorem experiment_delete_removes (experiment_id : string) (self : client)
  (d : directory) :
  let o := experiment_delete experiment_id self d in
  (~ In experiment_id (map exp_uuid (_experiments self)) ->
   o = (Raise IBMExperimentEntryNotFound, self, d))
  /\ (In experiment_id (map exp_uuid (_experiments self)) ->
      value_of o = experiment_get self experiment_id
      /\ is_ok (value_of o) = true
      /\ ~ In experiment_id (map exp_uuid (_experiments (client_after o)))
      /\ experiment_get (client_after o) experiment_id
         = Raise IBMExperimentEntryNotFound
      /\ (forall id, id <> experiment_id ->
            experiment_get (client_after o) id = experiment_get self id)
      /\ _results (client_after o) = _results self
      /\ _figures (client_after o) = _figures self).
Proof.
  simpl. unfold experiment_delete. split.
  - intros Hnot. apply loc_uuid_nil in Hnot. now rewrite Hnot.
  - intros Hin. rewrite experiment_get_loc.
    destruct (loc_uuid exp_uuid experiment_id (_experiments self)) eqn:Hloc.
    { apply loc_uuid_nil in Hloc. contradiction. }
    simpl. split; [reflexivity|]. split; [reflexivity|].
    assert (Hnil := loc_uuid_drop_same exp_uuid experiment_id
                      (_experiments self)).
    split; [now apply loc_uuid_nil|]. split.
    + rewrite experiment_get_loc. simpl. now rewrite Hnil.
    + split; [|split; reflexivity].
      intros id Hne. rewrite !experiment_get_loc. simpl.
      now rewrite loc_uuid_drop_other.
Qed.

Lemma experiment_delete_removes_witness :
  experiment_get
    (client_after (experiment_delete "e1" (fst two_experiments)
                     (snd two_experiments))) "e1"
  = Raise IBMExperimentEntryNotFound.
Proof.
  refine (proj1 (proj2 (proj2 (proj2
    (proj2 (experiment_delete_removes "e1" (fst two_experiments)
              (snd two_experiments)) _))))).
  vm_compute. now left.
Defined.

(** X4. [experiment_update] of a uuid that is not in the table raises
    [IBMExperimentEntryNotFound] and changes nothing.  With a payload
    without a uuid key it returns the stored row with the items of the
    payload assigned in their order; [experiment_get] returns that row
    afterwards; the look-up of every other uuid, the number of rows, the
    results table and the figures are as before.  (The items of the
    payload for the columns [type], [device_name], [uuid],
    [parent_experiment_uuid], [tags] and [start_time] are the typed
    ones.) *)
Theorem experiment_update_merges (experiment_id : string)
  (new_data : list experiment_item) (self : client) (d : directory) :
  other_items_ok new_data = true ->
  let o := experiment_update experiment_id new_data self d in
  (~ In experiment_id (map exp_uuid (_experiments self)) ->
   o = (Raise IBMExperimentEntryNotFound, self, d))
  /\ (forall r, experiment_get self experiment_id = Ok r ->
      no_uuid_item new_data = true ->
      value_of o = Ok (merged new_data r)
      /\ experiment_get (client_after o) experiment_id
         = Ok (merged new_data r)
      /\ (forall id, id <> experiment_id ->
            experiment_get (client_after o) id = experiment_get self id)
      /\ length (_experiments (client_after o)) = length (_experiments self)
      /\ _results (client_after o) = _results self
      /\ _figures (client_after o) = _figures self).
Proof.
  intros _. simpl. unfold experiment_update. split.
  - intros Hnot. apply loc_uuid_nil in Hnot. now rewrite Hnot.
  - intros r. rewrite experiment_get_loc.
    destruct (loc_uuid exp_uuid experiment_id (_experiments self))
      as [|r0 rest] eqn:Hloc; [discriminate|].
    intros [= ->] Hitems. simpl.
    pose proof (loc_uuid_In exp_uuid experiment_id (_experiments self) r)
      as Hr. rewrite Hloc in Hr. destruct (proj1 Hr) as [_ Hid]; [now left|].
    assert (Hsame : String.eqb (exp_uuid (merged new_data r)) experiment_id
                    = true).
    { unfold merged. rewrite set_items_uuid by exact Hitems.
      now apply String.eqb_eq. }
    rewrite (loc_uuid_at_first_same _ _ _ _ _ _ Hloc).
    fold (merged new_data r). rewrite Hsame. simpl.
    split; [reflexivity|]. split.
    + rewrite experiment_get_loc. simpl.
      rewrite (loc_uuid_at_first_same _ _ _ _ _ _ Hloc).
      fold (merged new_data r). now rewrite Hsame.
    + split; [|split; [apply at_first_length | split; reflexivity]].
      intros id Hne. rewrite !experiment_get_loc. simpl.
      rewrite loc_uuid_at_first_other; auto.
      intros r' Hr'. rewrite set_items_uuid by exact Hitems. congruence.
Qed.

Lemma experiment_update_merges_witness :
  value_of (experiment_update "e1" [Xtags ["z"]; Xdevice_name "ibmq_quito"]
              (fst two_experiments) (snd two_experiments))
  = Ok (Experiment "T1" "ibmq_quito" "e1" None ["z"] (Some 100) []).
Proof.
  exact (proj1 (proj2 (experiment_update_merges "e1"
                         [Xtags ["z"]; Xdevice_name "ibmq_quito"]
                         (fst two_experiments) (snd two_experiments)
                         eq_refl)
                  (row_of e1) eq_refl eq_refl)).
Defined.

(** X5. An [experiment_update] whose payload leaves the row with another
    uuid, on a table with pairwise distinct uuids: the call raises
    [IndexError], after the assignment and the save.  The changed row is in
    the table, no row has the old uuid, and the directory is the one [save]
    leaves for the changed client.  (Payload items as in X4.) *)
Theorem experiment_update_of_uuid_raises_after_saving
  (experiment_id : string) (new_data : list experiment_item) (self : client)
  (d : directory) (r : experiment) :
  other_items_ok new_data = true ->
  NoDup (map exp_uuid (_experiments self)) ->
  experiment_get self experiment_id = Ok r ->
  exp_uuid (merged new_data r) <> experiment_id ->
  let o := experiment_update experiment_id new_data self d in
  value_of o = Raise IndexError
  /\ In (merged new_data r) (_experiments (client_after o))
  /\ ~ In experiment_id (map exp_uuid (_experiments (client_after o)))
  /\ directory_after o = save (client_after o) d.
Proof.
  intros _ Hnd Hget Hne. simpl. unfold experiment_update.
  rewrite experiment_get_loc in Hget.
  destruct (loc_uuid exp_uuid experiment_id (_experiments self))
    as [|r0 rest] eqn:Hloc; [discriminate|].
  injection Hget as ->. simpl.
  pose proof (loc_uuid_NoDup _ _ _ _ _ Hnd Hloc) as ->.
  apply String.eqb_neq in Hne.
  assert (Hafter : loc_uuid exp_uuid experiment_id
            (at_first exp_uuid experiment_id
               (fun r => fold_left (fun r item => set_experiment_item item r)
                           new_data r) (_experiments self)) = []).
  { rewrite (loc_uuid_at_first_same _ _ _ _ _ _ Hloc).
    fold (merged new_data r). now rewrite Hne. }
  rewrite Hafter. simpl. split; [reflexivity|].
  split; [|split; [now apply loc_uuid_nil | reflexivity]].
  clear Hafter Hnd.
  unfold loc_uuid in Hloc.
  induction (_experiments self) as [|r0 df IH]; [discriminate|].
  simpl in *. destruct (String.eqb (exp_uuid r0) experiment_id).
  - injection Hloc as -> _. now left.
  - right. now apply IH.
Qed.

Lemma experiment_update_of_uuid_raises_witness :
  value_of (experiment_update "e1" [Xuuid "e9"]
              (fst two_experiments) (snd two_experiments))
  = Raise IndexError.
Proof.
  refine (proj1 (experiment_update_of_uuid_raises_after_saving "e1"
                   [Xuuid "e9"] (fst two_experiments) (snd two_experiments)
                   (row_of e1) eq_refl _ eq_refl _)).
  - change (NoDup ["e1"; "e2"]). apply (bool_decide_unpack _).
    vm_compute. exact I.
  - vm_compute. discriminate.
Defined.

Lemma at_first_split {A} (uuid : A -> string) (id : string) (set : A -> A)
  (before after : list A) (r : A) :
  ~ In id (map uuid before) -> uuid r = id ->
  at_first uuid id set (before ++ r :: after)
  = (before ++ set r :: after)%list.
Proof.
  intros Hnot Hr. induction before as [|r0 before IH]; simpl.
  - apply String.eqb_eq in Hr. now rewrite Hr.
  - simpl in Hnot.
    destruct (String.eqb (uuid r0) id) eqn:Heq.
    + apply String.eqb_eq in Heq. tauto.
    + rewrite IH by tauto. reflexivity.
Qed.

Lemma set_result_items_uuid (new_data : list result_item)
  (r : analysis_result) :
  no_result_uuid_item new_data = true ->
  res_uuid (merged_result new_data r) = res_uuid r.
Proof.
  unfold merged_result. revert r.
  induction new_data as [|item items IH]; intros r; simpl; [reflexivity|].
  rewrite andb_true_iff. intros [Hitem Hitems].
  rewrite (IH _ Hitems). now destruct item.
Qed.

(** X6. [analysis_result_delete] of a uuid that is not in the table raises
    [IBMExperimentEntryNotFound] and changes nothing.  Otherwise it returns
    what [analysis_result_get] returned before and removes every row with
    that uuid, however many there are: the rows left are the rows with
    another uuid, the look-ups of other uuids answer as before, and the
    experiments table and the figures are untouched. *)
Theorem analysis_result_delete_removes_every_copy (result_id : string)
  (self : client) (d : directory) :
  let o := analysis_result_delete result_id self d in
  (~ In result_id (map res_uuid (_results self)) ->
   o = (Raise IBMExperimentEntryNotFound, self, d))
  /\ (In result_id (map res_uuid (_results self)) ->
      value_of o = analysis_result_get self result_id
      /\ is_ok (value_of o) = true
      /\ (forall r, In r (_results (client_after o)) <->
                    In r (_results self) /\ res_uuid r <> result_id)
      /\ analysis_result_get (client_after o) result_id
         = Raise IBMExperimentEntryNotFound
      /\ (forall id, id <> result_id ->
            analysis_result_get (client_after o) id
            = analysis_result_get self id)
      /\ _experiments (client_after o) = _experiments self
      /\ _figures (client_after o) = _figures self).
Proof.
  simpl. unfold analysis_result_delete. split.
  - intros Hnot. apply loc_uuid_nil in Hnot. now rewrite Hnot.
  - intros Hin. rewrite analysis_result_get_loc.
    destruct (loc_uuid res_uuid result_id (_results self)) eqn:Hloc.
    { apply loc_uuid_nil in Hloc. contradiction. }
    simpl. split; [reflexivity|]. split; [reflexivity|]. split.
    { intros r. unfold drop_uuid. rewrite filter_In, negb_true_iff.
      now rewrite String.eqb_neq. }
    assert (Hnil := loc_uuid_drop_same res_uuid result_id (_results self)).
    split.
    + rewrite analysis_result_get_loc. simpl. now rewrite Hnil.
    + split; [|split; reflexivity].
      intros id Hne. rewrite !analysis_result_get_loc. simpl.
      now rewrite loc_uuid_drop_other.
Qed.

(** X7. [analysis_result_update] of a uuid that is not in the table raises
    [IBMExperimentEntryNotFound] and changes nothing.  Otherwise the items
    of the payload are assigned, in their order, to the first row with the
    uuid and to no other row (later rows with the same uuid stay), the
    directory is saved and the experiments table untouched; with a payload
    without a uuid key the call returns the changed row, and so does
    [analysis_result_get] afterwards.  (The items of the payload for the
    columns that are fields of the rows are the typed ones.) *)
Theorem analysis_result_update_merges_first (result_id : string)
  (new_data : list result_item) (self : client) (d : directory) :
  other_result_items_ok new_data = true ->
  let o := analysis_result_update result_id new_data self d in
  (~ In result_id (map res_uuid (_results self)) ->
   o = (Raise IBMExperimentEntryNotFound, self, d))
  /\ (forall before r after,
      _results self = (before ++ r :: after)%list ->
      res_uuid r = result_id ->
      ~ In result_id (map res_uuid before) ->
      _results (client_after o)
      = (before ++ merged_result new_data r :: after)%list
      /\ directory_after o = save (client_after o) d
      /\ _experiments (client_after o) = _experiments self
      /\ (no_result_uuid_item new_data = true ->
          value_of o = Ok (merged_result new_data r)
          /\ analysis_result_get (client_after o) result_id
             = Ok (merged_result new_data r))).
Proof.
  intros _. simpl. unfold analysis_result_update. split.
  - intros Hnot. apply loc_uuid_nil in Hnot. now rewrite Hnot.
  - intros before r after Htable Hr Hnot.
    assert (Hloc : loc_uuid res_uuid result_id (_results self)
                   = r :: loc_uuid res_uuid result_id after).
    { rewrite Htable, loc_uuid_app.
      apply loc_uuid_nil in Hnot. rewrite Hnot. simpl.
      apply String.eqb_eq in Hr. now rewrite Hr. }
    rewrite Hloc. simpl.
    assert (Hat : at_first res_uuid result_id
              (fun r => fold_left (fun r item => set_result_item item r)
                          new_data r) (_results self)
            = (before ++ merged_result new_data r :: after)%list).
    { rewrite Htable. now apply at_first_split. }
    rewrite Hat. split; [reflexivity|]. split; [reflexivity|].
    split; [reflexivity|]. intros Hitems.
    assert (Hloc' : loc_uuid res_uuid result_id
              (before ++ merged_result new_data r :: after)
            = merged_result new_data r :: loc_uuid res_uuid result_id after).
    { rewrite loc_uuid_app. apply loc_uuid_nil in Hnot. rewrite Hnot. simpl.
      rewrite set_result_items_uuid by exact Hitems.
      apply String.eqb_eq in Hr. now rewrite Hr. }
    split.
    + now rewrite Hloc'.
    + rewrite analysis_result_get_loc. simpl. now rewrite Hloc'.
Qed.

(** X8. After an [analysis_result_create] that returned a row: the uuid of
    the row is the payload's, or the generated one; the row is the last of
    the table.  When the uuid was not in the table, [analysis_result_get]
    finds the new row; when it was, the call still succeeds and
    [analysis_result_get] keeps returning the older row.  The look-up of
    every other uuid answers as before.  (The payload has no key that is
    not a column of the table.) *)
Theorem analysis_result_create_then_get (fresh : string) (data : result_data)
  (self : client) (d : directory) (row : analysis_result) :
  opaque_cells result_opaque_columns (rd_other data) = true ->
  value_of (analysis_result_create fresh data self d) = Ok row ->
  let self' := client_after (analysis_result_create fresh data self d) in
  res_uuid row = uuid_or fresh (rd_uuid data)
  /\ _results self' = (_results self ++ [row])%list
  /\ (~ In (res_uuid row) (map res_uuid (_results self)) ->
      analysis_result_get self' (res_uuid row) = Ok row)
  /\ (forall old, analysis_result_get self (res_uuid row) = Ok old ->
        analysis_result_get self' (res_uuid row) = Ok old)
  /\ (forall id, id <> res_uuid row ->
        analysis_result_get self' id = analysis_result_get self id).
Proof.
  intros _. unfold analysis_result_create.
  destruct (rd_experiment_uuid data) as [exp_id|]; [|discriminate].
  destruct (loc_uuid exp_uuid exp_id (_experiments self)) as [|exp rest];
    [discriminate|].
  simpl. intros [= <-]. simpl.
  fold (uuid_or fresh (rd_uuid data)).
  split; [reflexivity|]. split; [reflexivity|].
  split; [|split].
  - intros Hnot. rewrite analysis_result_get_loc. simpl.
    rewrite loc_uuid_app. apply loc_uuid_nil in Hnot. rewrite Hnot. simpl.
    now rewrite String.eqb_refl.
  - intros old. rewrite !analysis_result_get_loc. simpl.
    rewrite loc_uuid_app.
    destruct (loc_uuid res_uuid (uuid_or fresh (rd_uuid data))
                (_results self)); [discriminate | auto].
  - intros id Hne. rewrite !analysis_result_get_loc. simpl.
    rewrite loc_uuid_app. simpl.
    destruct (String.eqb (uuid_or fresh (rd_uuid data)) id) eqn:Heq.
    + apply String.eqb_eq in Heq. congruence.
    + now rewrite app_nil_r.
Qed.

Lemma analysis_result_delete_removes_witness :
  analysis_result_get
    (client_after (analysis_result_delete "r1" (fst one_result)
                     (snd one_result))) "r1"
  = Raise IBMExperimentEntryNotFound.
Proof.
  refine (proj1 (proj2 (proj2 (proj2
    (proj2 (analysis_result_delete_removes_every_copy "r1" (fst one_result)
              (snd one_result)) _))))).
  vm_compute. now left.
Defined.

Lemma analysis_result_update_merges_witness :
  value_of (analysis_result_update "r1" [Rquality "bad"; Rverified true]
              (fst one_result) (snd one_result))
  = Ok (AnalysisResult "e1" "T1" ["a"] "bad" true "r1" "ibmq_lima"
          (Some 300) []).
Proof.
  refine (proj1 (proj2 (proj2 (proj2
    (proj2 (analysis_result_update_merges_first "r1"
              [Rquality "bad"; Rverified true]
              (fst one_result) (snd one_result) eq_refl)
       [] _ [] eq_refl eq_refl _))) eq_refl)).
  intros [].
Defined.

(** The second result with the uuid ["r1"] is stored, and a look-up by that
    uuid still gives the first. *)
Lemma analysis_result_create_then_get_witness :
  analysis_result_get
    (client_after
       (analysis_result_create "u4"
          (sample_result (Some "r1") (Some "e2") [])
          (fst one_result) (snd one_result))) "r1"
  = Ok (AnalysisResult "e1" "T1" ["a"] "good" false "r1" "ibmq_lima"
          (Some 300) []).
Proof.
  exact (proj1 (proj2 (proj2 (proj2
    (analysis_result_create_then_get "u4"
       (sample_result (Some "r1") (Some "e2") [])
       (fst one_result) (snd one_result)
       (AnalysisResult "e2" "T1" [] "good" false "r1" "ibmq_lima"
          (Some 300) []) eq_refl eq_refl))))
    _ eq_refl).
Defined.

(** ** The figure store *)

(** X9. [experiment_plot_upload] on a key (experiment uuid, plot name) that
    holds a figure raises [RequestsApiError] with status 409 and changes
    nothing.  On a free key, for any experiment uuid, known to the client
    or not, it returns [True], [experiment_plot_get] returns the plot
    afterwards, the figure under every other key and the two tables are as
    before, and the directory is saved. *)
Theorem plot_upload_then_get (experiment_id plot_name : string) (plot : bytes)
  (self : client) (d : directory) :
  let o := experiment_plot_upload experiment_id plot plot_name self d in
  (forall old, plot_lookup (_figures self) experiment_id plot_name = Some old ->
     o = (Raise (RequestsApiError (Some 409)), self, d))
  /\ (plot_lookup (_figures self) experiment_id plot_name = None ->
      value_of o = Ok true
      /\ experiment_plot_get (client_after o) experiment_id plot_name
         = Ok plot
      /\ (forall id name, (id, name) <> (experiment_id, plot_name) ->
            plot_lookup (_figures (client_after o)) id name
            = plot_lookup (_figures self) id name)
      /\ _experiments (client_after o) = _experiments self
      /\ _results (client_after o) = _results self
      /\ directory_after o = save (client_after o) d).
Proof.
  simpl. split; [intros old; apply plot_upload_taken|].
  unfold plot_lookup, experiment_plot_upload, experiment_plot_get.
  intros Hfree.
  destruct (_figures self !! experiment_id) as [fs|] eqn:Hfs; simpl.
  - rewrite Hfs, Hfree. simpl. rewrite !lookup_insert_eq.
    split; [reflexivity|]. split; [reflexivity|].
    split; [|repeat split].
    intros id name Hne.
    destruct (decide (experiment_id = id)) as [<- | Hid].
    + rewrite lookup_insert_eq, Hfs. apply lookup_insert_ne. congruence.
    + now rewrite lookup_insert_ne.
  - rewrite lookup_insert_eq, lookup_empty. simpl.
    rewrite !lookup_insert_eq.
    split; [reflexivity|]. split; [reflexivity|].
    split; [|repeat split].
    intros id name Hne.
    destruct (decide (experiment_id = id)) as [<- | Hid].
    + rewrite lookup_insert_eq, Hfs. rewrite lookup_insert_ne by congruence.
      apply lookup_empty.
    + now rewrite !lookup_insert_ne.
Qed.

Lemma plot_upload_then_get_witness :
  experiment_plot_get
    (client_after (experiment_plot_upload "e1" png "p" (fst two_experiments)
                     (snd two_experiments))) "e1" "p"
  = Ok png.
Proof.
  exact (proj1 (proj2 (proj2 (plot_upload_then_get "e1" "p" png
           (fst two_experiments) (snd two_experiments)) eq_refl))).
Defined.

(** X10. On a key that holds a figure, [experiment_plot_update] returns the
    plot name and the size of the new plot, [experiment_plot_get] returns
    the new plot afterwards, and the directory is saved;
    [experiment_plot_delete] returns, after it [experiment_plot_get] raises
    [RequestsApiError] with status 404 and an upload under the key succeeds
    again, and the directory is left as it was.  Both leave the figure
    under every other key as before. *)
Theorem plot_update_and_delete_then_get (experiment_id plot_name : string)
  (plot old : bytes) (self : client) (d : directory) :
  plot_lookup (_figures self) experiment_id plot_name = Some old ->
  let u := experiment_plot_update experiment_id plot plot_name self d in
  let x := experiment_plot_delete experiment_id plot_name self d in
  (value_of u = Ok (plot_name, length plot)
   /\ experiment_plot_get (client_after u) experiment_id plot_name = Ok plot
   /\ (forall id name, (id, name) <> (experiment_id, plot_name) ->
         plot_lookup (_figures (client_after u)) id name
         = plot_lookup (_figures self) id name)
   /\ directory_after u = save (client_after u) d)
  /\ (value_of x = Ok tt
      /\ experiment_plot_get (client_after x) experiment_id plot_name
         = Raise (RequestsApiError (Some 404))
      /\ (forall id name, (id, name) <> (experiment_id, plot_name) ->
            plot_lookup (_figures (client_after x)) id name
            = plot_lookup (_figures self) id name)
      /\ directory_after x = d
      /\ value_of (experiment_plot_upload experiment_id plot plot_name
                     (client_after x) d) = Ok true).
Proof.
  unfold plot_lookup. intros Hold.
  destruct (_figures self !! experiment_id) as [fs|] eqn:Hfs; [|discriminate].
  simpl.
  unfold experiment_plot_update, experiment_plot_delete, experiment_plot_get,
    experiment_plot_upload.
  rewrite Hfs, Hold. simpl. rewrite !lookup_insert_eq. simpl.
  rewrite !lookup_insert_eq, lookup_delete_eq. simpl.
  split; (split; [reflexivity|]); (split; [reflexivity|]).
  - split; [|reflexivity]. intros id name Hne.
    destruct (decide (experiment_id = id)) as [<- | Hid].
    + rewrite lookup_insert_eq, Hfs. apply lookup_insert_ne. congruence.
    + now rewrite lookup_insert_ne.
  - split; [|split; reflexivity]. intros id name Hne.
    destruct (decide (experiment_id = id)) as [<- | Hid].
    + rewrite lookup_insert_eq, Hfs. apply lookup_delete_ne. congruence.
    + now rewrite lookup_insert_ne.
Qed.

Lemma plot_update_and_delete_then_get_witness :
  experiment_plot_get
    (client_after
       (experiment_plot_delete "e1" "p"
          (fst (run two_experiments [PlotUpload "e1" png "p"]))
          (snd (run two_experiments [PlotUpload "e1" png "p"]))))
    "e1" "p"
  = Raise (RequestsApiError (Some 404)).
Proof.
  exact (proj1 (proj2 (proj2 (plot_update_and_delete_then_get "e1" "p" [] png
           (fst (run two_experiments [PlotUpload "e1" png "p"]))
           (snd (run two_experiments [PlotUpload "e1" png "p"]))
           eq_refl)))).
Defined.

(** ** What a call does to the directory *)

(** A call leaves the directory alone or ends with [save]; the saving flag
    never changes. *)
Lemma step_directory (w : client * directory) (rq : request) :
  _local_save (fst (step w rq)) = _local_save (fst w)
  /\ (snd (step w rq) = snd w
      \/ snd (step w rq) = save (fst (step w rq)) (snd w)).
Proof.
  destruct w as [self d], rq; simpl.
  - unfold experiment_upload.
    destruct (negb (df_empty (loc_uuid exp_uuid _ (_experiments self))));
      simpl; auto.
  - unfold experiment_update.
    destruct (df_empty (loc_uuid exp_uuid _ (_experiments self)));
      simpl; auto.
  - unfold experiment_delete.
    destruct (df_empty (loc_uuid exp_uuid _ (_experiments self)));
      simpl; auto.
  - unfold experiment_plot_upload.
    destruct (_figures self !! experiment_id) as [fs|] eqn:Hfs; simpl.
    + rewrite Hfs. destruct (fs !! plot_name); simpl; auto.
    + rewrite lookup_insert_eq, lookup_empty. simpl. auto.
  - unfold experiment_plot_update.
    destruct (_figures self !! experiment_id) as [fs|]; simpl; auto.
    destruct (fs !! plot_name); simpl; auto.
  - unfold experiment_plot_delete.
    destruct (_figures self !! experiment_id) as [fs|]; simpl; auto.
    destruct (fs !! plot_name); simpl; auto.
  - unfold analysis_result_create.
    destruct (rd_experiment_uuid data); simpl; auto.
    destruct (loc_uuid exp_uuid _ (_experiments self)); simpl; auto.
  - unfold analysis_result_update.
    destruct (df_empty (loc_uuid res_uuid _ (_results self))); simpl; auto.
  - unfold analysis_result_delete.
    destruct (df_empty (loc_uuid res_uuid _ (_results self))); simpl; auto.
Qed.

(** X11. A client built without local saving never writes: whatever calls
    are made, the directory stays as it was and the client stays
    non-saving. *)
Theorem client_without_local_save_keeps_the_directory
  (w : client * directory) (rqs : list request) :
  _local_save (fst w) = false ->
  snd (run w rqs) = snd w /\ _local_save (fst (run w rqs)) = false.
Proof.
  revert w. induction rqs as [|rq rqs IH]; intros w Hw; [auto|].
  change (run w (rq :: rqs)) with (run (step w rq) rqs).
  destruct (step_directory w rq) as [Hflag Hdir].
  rewrite Hw in Hflag.
  destruct (IH (step w rq) Hflag) as [Hd Hs]. split; [|exact Hs].
  rewrite Hd. destruct Hdir as [Hdir | Hdir]; [exact Hdir|].
  rewrite Hdir. unfold save. now rewrite Hflag.
Qed.

Lemma client_without_local_save_witness :
  snd (run (LocalExperimentClient false empty_directory)
         [ExperimentUpload "u1" e1; PlotUpload "e1" png "p";
          ExperimentDelete "e1"])
  = empty_directory.
Proof.
  exact (proj1 (client_without_local_save_keeps_the_directory
                  (LocalExperimentClient false empty_directory)
                  [ExperimentUpload "u1" e1; PlotUpload "e1" png "p";
                   ExperimentDelete "e1"] eq_refl)).
Defined.

Lemma save_figures_keeps (figures : gmap string (gmap string bytes))
  (dir : gmap string bytes) (f : string) :
  is_Some (dir !! f) -> is_Some (_save_figures figures dir !! f).
Proof.
  intros Hf. unfold _save_figures.
  apply (map_fold_weak_ind
           (fun (r : gmap string bytes) (_ : gmap string (gmap string bytes))
            => is_Some (r !! f))); [exact Hf|].
  intros id fs _ r _ Hr.
  apply (map_fold_weak_ind
           (fun (r : gmap string bytes) (_ : gmap string bytes)
            => is_Some (r !! f))); [exact Hr|].
  intros name data _ r' _ Hr'.
  destruct (decide (figure_filename id name = f)) as [<- | Hne].
  - rewrite lookup_insert_eq. eauto.
  - now rewrite lookup_insert_ne.
Qed.

(** X12. No call removes a file: a file of the figures directory, and each
    of the two table files, once there, is there after any sequence of
    calls. *)
Theorem no_call_removes_a_file (w : client * directory)
  (rqs : list request) :
  (forall f, is_Some (figures_dir (snd w) !! f) ->
             is_Some (figures_dir (snd (run w rqs)) !! f))
  /\ (is_Some (experiments_file (snd w)) ->
      is_Some (experiments_file (snd (run w rqs))))
  /\ (is_Some (results_file (snd w)) ->
      is_Some (results_file (snd (run w rqs)))).
Proof.
  revert w. induction rqs as [|rq rqs IH]; intros w; [auto|].
  change (run w (rq :: rqs)) with (run (step w rq) rqs).
  destruct (IH (step w rq)) as (IHf & IHe & IHr).
  destruct (step_directory w rq) as [_ Hdir].
  assert (Hstep :
    (forall f, is_Some (figures_dir (snd w) !! f) ->
               is_Some (figures_dir (snd (step w rq)) !! f))
    /\ (is_Some (experiments_file (snd w)) ->
        is_Some (experiments_file (snd (step w rq))))
    /\ (is_Some (results_file (snd w)) ->
        is_Some (results_file (snd (step w rq))))).
  { destruct Hdir as [-> | ->]; [auto|].
    unfold save. destruct (_local_save (fst (step w rq))); [|auto]. simpl.
    split; [|split; eauto].
    intros f. apply save_figures_keeps. }
  destruct Hstep as (Hf & He & Hr). auto.
Qed.

Lemma get_figure_list_unknown (table : list experiment)
  (dir : gmap string bytes) (id : string) :
  ~ In id (map exp_uuid table) -> _get_figure_list table dir !! id = None.
Proof.
  unfold _get_figure_list.
  assert (H : forall acc : gmap string (gmap string bytes),
    ~ In id (map exp_uuid table) -> acc !! id = None ->
    fold_left
      (fun figures exp_id =>
         <[exp_id := map_fold
             (fun filename figure_data (figures_for_exp : gmap string bytes) =>
                if PyStr.startswith exp_id filename then
                  <[PyStr.drop (String.length exp_id + 1) filename
                      := figure_data]> figures_for_exp
                else figures_for_exp)
             (∅ : gmap string bytes) dir]> figures)
      (map exp_uuid table) acc !! id = None).
  { induction (map exp_uuid table) as [|u us IH]; intros acc Hnot Hacc;
      [exact Hacc|].
    simpl. apply IH; [intros Hin; apply Hnot; now right|].
    rewrite lookup_insert_ne; [exact Hacc|].
    intros ->. apply Hnot. now left. }
  intros Hnot. apply H; [exact Hnot | apply lookup_empty].
Qed.

(** X13. After a restart every experiment of the table file has a
    dictionary of figures, so [experiment_plot_get] for it returns the
    figure or raises [RequestsApiError] with status 404; for a uuid that is
    not in the table file it raises [KeyError], whatever files the figures
    directory holds.  (The uuids of the table file are read back as the
    strings written: none of them reads as a number.) *)
Theorem restart_gives_figures_to_table_experiments_only (d : directory)
  (experiment_id plot_name : string) :
  let table := default [] (experiments_file d) in
  uuids_read_back table = true ->
  (In experiment_id (map exp_uuid table) ->
   experiment_plot_get (restart d) experiment_id plot_name
   = match plot_lookup (_figures (restart d)) experiment_id plot_name with
     | Some plot => Ok plot
     | None => Raise (RequestsApiError (Some 404))
     end)
  /\ (~ In experiment_id (map exp_uuid table) ->
      experiment_plot_get (restart d) experiment_id plot_name
      = Raise KeyError).
Proof.
  simpl. intros _.
  unfold restart, LocalExperimentClient, init_db, experiment_plot_get,
    plot_lookup. simpl. split.
  - intros Hin. rewrite (get_figure_list_lookup _ _ _ Hin).
    now destruct (_ !! plot_name).
  - intros Hnot. now rewrite (get_figure_list_unknown _ _ _ Hnot).
Qed.

Lemma restart_gives_figures_witness :
  experiment_plot_get (restart (snd two_experiments)) "e1" "p"
  = Raise (RequestsApiError (Some 404))
  /\ experiment_plot_get (restart (snd two_experiments)) "e3" "p"
     = Raise KeyError.
Proof.
  split.
  - refine (proj1 (restart_gives_figures_to_table_experiments_only
                     (snd two_experiments) "e1" "p" eq_refl) _).
    vm_compute. now left.
  - refine (proj2 (restart_gives_figures_to_table_experiments_only
                     (snd two_experiments) "e3" "p" eq_refl) _).
    vm_compute. intros [H | [H | []]]; discriminate.
Defined.

Lemma loc_if_In {A B} (arg : option B) (test : B -> A -> bool)
  (df : list A) (r : A) :
  In r (loc_if arg test df)
  <-> In r df /\ forall v, arg = Some v -> test v r = true.
Proof.
  unfold loc_if. destruct arg as [v|].
  - rewrite filter_In. split.
    + intros [Hin Ht]. split; [exact Hin|]. now intros v' [= <-].
    + intros [Hin Ht]. auto.
  - split; [|tauto]. intros Hin. split; [exact Hin | discriminate].
Qed.

Lemma type_filter_In {A} (type : A -> string) (value : string)
  (df out : list A) :
  type_filter type value df = Ok out ->
  forall r, In r out <-> In r df /\ type_matches value (type r).
Proof.
  unfold type_filter, type_matches.
  destruct (String.eqb (PyStr.take 5 value) "like:").
  - destruct (nth_error (PyStr.split ":" value) 1) as [pat|];
      [|discriminate].
    intros [= <-] r. rewrite filter_In, contains_spec. split.
    + intros [Hin Hs]. eauto.
    + intros [Hin (pat' & [= <-] & Hs)]. auto.
  - intros [= <-] r. rewrite filter_In. now rewrite String.eqb_eq.
Qed.

Lemma opt_eqb_spec (cell : option string) (v : string) :
  opt_eqb cell v = true <-> cell = Some v.
Proof.
  destruct cell as [s|]; simpl; [|split; discriminate].
  rewrite String.eqb_eq. split; congruence.
Qed.

Lemma time_le_bound_spec (t : option Z) (bound : Z) :
  time_le_bound t bound = true <-> exists x, t = Some x /\ x <= bound.
Proof.
  destruct t as [x|]; simpl.
  - rewrite Z.leb_le. split; [eauto | now intros (y & [= <-] & H)].
  - split; [discriminate | now intros (y & H & _)].
Qed.

Lemma time_ge_bound_spec (t : option Z) (bound : Z) :
  time_ge_bound t bound = true <-> exists x, t = Some x /\ bound <= x.
Proof.
  destruct t as [x|]; simpl.
  - rewrite Z.leb_le. split; [eauto | now intros (y & [= <-] & H)].
  - split; [discriminate | now intros (y & H & _)].
Qed.

Lemma experiments_select_In (self : client) (q : exp_query)
  (df : list experiment) :
  experiments_select self q = Ok df ->
  forall r, In r df <-> In r (_experiments self) /\ exp_matches q r.
Proof.
  unfold experiments_select.
  change (
    (df1 <- match q_experiment_type q with
            | Some v => type_filter exp_type v (_experiments self)
            | None => Ok (_experiments self)
            end ;;
     _ <- match q_device_components q with
          | Some _ => Raise ValueError
          | None => Ok tt
          end ;;
     df2 <- match q_tags q with
            | Some tags =>
                let df' :=
                  loc_if (q_parent_id q)
                    (fun p r => opt_eqb (exp_parent_experiment_uuid r) p)
                    (loc_if (q_backend_name q)
                       (fun b r => String.eqb (exp_device_name r) b) df1) in
                if opt_eqb (q_tags_operator q) "OR" then
                  Ok (List.filter (fun r => any_tag tags (exp_tags r)) df')
                else if opt_eqb (q_tags_operator q) "AND" then
                  Ok (List.filter (fun r => all_tags tags (exp_tags r)) df')
                else Raise ValueError
            | None =>
                Ok (loc_if (q_parent_id q)
                      (fun p r => opt_eqb (exp_parent_experiment_uuid r) p)
                      (loc_if (q_backend_name q)
                         (fun b r => String.eqb (exp_device_name r) b) df1))
            end ;;
     Ok (loc_if (q_start_datetime_after q)
           (fun b r => time_ge_bound (exp_start_time r) b)
           (loc_if (q_start_datetime_before q)
              (fun b r => time_le_bound (exp_start_time r) b) df2)))
    = Ok df -> forall r, In r df <-> In r (_experiments self) /\ exp_matches q r).
  intros Hsel r.
  assert (H1 : exists df1,
    match q_experiment_type q with
    | Some v => type_filter exp_type v (_experiments self)
    | None => Ok (_experiments self)
    end = Ok df1
    /\ (In r df1 <-> In r (_experiments self)
        /\ forall v, q_experiment_type q = Some v ->
                     type_matches v (exp_type r))).
  { destruct (q_experiment_type q) as [v|].
    - destruct (type_filter_total exp_type v (_experiments self))
        as [df1 Hdf1].
      exists df1. split; [exact Hdf1|].
      rewrite (type_filter_In _ _ _ _ Hdf1 r). split.
      + intros [Hin Hm]. split; [exact Hin|]. now intros v' [= <-].
      + intros [Hin Hm]. auto.
    - eexists. split; [reflexivity|]. split; [|tauto].
      intros Hin. split; [exact Hin | discriminate]. }
  destruct H1 as (df1 & Hdf1 & Hin1). rewrite Hdf1 in Hsel. simpl in Hsel.
  destruct (q_device_components q); [discriminate|]. simpl in Hsel.
  set (df' := loc_if (q_parent_id q) _ _) in Hsel.
  assert (Hin' : In r df' <-> In r df1
            /\ (forall b, q_backend_name q = Some b -> exp_device_name r = b)
            /\ (forall p, q_parent_id q = Some p ->
                  exp_parent_experiment_uuid r = Some p)).
  { unfold df'. rewrite !loc_if_In. split.
    - intros [[Hin Hb] Hp]. split; [exact Hin|]. split.
      + intros b Hq. apply String.eqb_eq. auto.
      + intros p Hq. apply opt_eqb_spec. auto.
    - intros (Hin & Hb & Hp). split; [split; [exact Hin|]|].
      + intros b Hq. apply String.eqb_eq. auto.
      + intros p Hq. apply opt_eqb_spec. auto. }
  assert (H2 : exists df2,
    Ok (loc_if (q_start_datetime_after q)
          (fun b r => time_ge_bound (exp_start_time r) b)
          (loc_if (q_start_datetime_before q)
             (fun b r => time_le_bound (exp_start_time r) b) df2)) = Ok df
    /\ (In r df2 <-> In r df'
        /\ forall tags, q_tags q = Some tags ->
             tags_match (q_tags_operator q) tags (exp_tags r))).
  { unfold tags_match. destruct (q_tags q) as [tags|].
    - destruct (opt_eqb (q_tags_operator q) "OR") eqn:Hor.
      + simpl in Hsel. eexists. split; [exact Hsel|].
        apply opt_eqb_spec in Hor.
        rewrite filter_In, any_tag_spec. split.
        * intros [Hin Hany]. split; [exact Hin|]. intros ? [= <-]. auto.
        * intros [Hin Hm]. split; [exact Hin|].
          destruct (Hm _ eq_refl) as [[_ H] | [H _]]; [exact H|].
          rewrite Hor in H. discriminate.
      + destruct (opt_eqb (q_tags_operator q) "AND") eqn:Hand;
          [|discriminate].
        simpl in Hsel. eexists. split; [exact Hsel|].
        apply opt_eqb_spec in Hand.
        rewrite filter_In, all_tags_spec. split.
        * intros [Hin Hall]. split; [exact Hin|]. intros ? [= <-]. auto.
        * intros [Hin Hm]. split; [exact Hin|].
          destruct (Hm _ eq_refl) as [[H _] | [_ H]]; [|exact H].
          rewrite Hand in H. discriminate.
    - simpl in Hsel. eexists. split; [exact Hsel|]. split; [|tauto].
      intros Hin. split; [exact Hin | discriminate]. }
  destruct H2 as (df2 & Hdf & Hin2). injection Hdf as <-.
  rewrite !loc_if_In, Hin2, Hin', Hin1. unfold exp_matches.
  split.
  - intros [[Hin Hb] Ha]. destruct Hin as [[[Hin Hty] [Hbk Hp]] Htags].
    split; [exact Hin|]. repeat split; auto.
    + intros b Hq. apply time_le_bound_spec. auto.
    + intros a Hq. apply time_ge_bound_spec. auto.
  - intros (Hin & Hty & Hbk & Hp & Htags & Hb & Ha). repeat split; auto.
    + intros b Hq. apply time_le_bound_spec. auto.
    + intros a Hq. apply time_ge_bound_spec. auto.
Qed.

Lemma firstn_In {A} (n : nat) (l : list A) (x : A) :
  In x (firstn n l) -> In x l.
Proof.
  revert l. induction n as [|n IH]; intros [|y l]; simpl; try tauto.
  intros [-> | Hin]; auto.
Qed.

Lemma iloc_upto_In {A} (limit : option Z) (l : list A) (x : A) :
  In x (iloc_upto limit l) -> In x l.
Proof.
  unfold iloc_upto. destruct limit as [n|]; [|auto].
  destruct (0 <=? n); apply firstn_In.
Qed.

(** X14. The rows [experiments] returns are rows of the table that pass
    every filter given: type (by equality, or with ["like:"] by
    containing the pattern), backend name, parent uuid (a row without a
    parent never passes), tags with the operator, and the two inclusive
    bounds on the start time (a row without a start time never passes).
    Without a limit, every such row is returned.  (The pattern of a
    ["like:"] filter has no regular-expression metacharacter.) *)
Theorem experiments_returns_the_matching_rows (self : client)
  (q : exp_query) (out : list experiment) :
  plain_type_filter (q_experiment_type q) = true ->
  experiments self q = Ok out ->
  (forall r, In r out -> In r (_experiments self) /\ exp_matches q r)
  /\ (q_limit q = None ->
      forall r, In r (_experiments self) -> exp_matches q r -> In r out).
Proof.
  intros _ Hout.
  apply experiments_ok in Hout as (df & asc & Hsel & _ & ->).
  pose proof (experiments_select_In self q df Hsel) as Hin.
  split.
  - intros r Hr. apply Hin. apply iloc_upto_In in Hr.
    eapply Permutation_in; [apply sort_values_perm | exact Hr].
  - intros Hlim r Hr Hm. rewrite Hlim. simpl.
    eapply Permutation_in; [symmetry; apply sort_values_perm|].
    apply Hin. auto.
Qed.

Lemma experiments_returns_witness :
  In (row_of e1) (_experiments (fst two_experiments))
  /\ exp_matches (tags_query ["x"] (Some "OR")) (row_of e1).
Proof.
  exact (proj1 (experiments_returns_the_matching_rows
                  (fst two_experiments) (tags_query ["x"] (Some "OR"))
                  [row_of e1] eq_refl eq_refl)
           _ (or_introl eq_refl)).
Defined.

Lemma analysis_results_select_In (self : client) (q : res_query)
  (df : list analysis_result) :
  analysis_results_select self q = Ok df ->
  rq_backend_name q = None
  /\ forall r, In r df <-> In r (_results self) /\ res_matches q r.
Proof.
  unfold analysis_results_select.
  change (
    (df1 <- match rq_result_type q with
            | Some v =>
                type_filter res_type v
                  (loc_if (rq_experiment_uuid q)
                     (fun e r => String.eqb (res_experiment_uuid r) e)
                     (_results self))
            | None =>
                Ok (loc_if (rq_experiment_uuid q)
                      (fun e r => String.eqb (res_experiment_uuid r) e)
                      (_results self))
            end ;;
     df2 <- match rq_backend_name q with
            | Some _ => Raise AttributeError
            | None => Ok df1
            end ;;
     match rq_tags q with
     | Some tags =>
         match PyStr.split ":" tags with
         | [operator; ts] =>
             if String.eqb operator "any:" then
               Ok (List.filter
                     (fun r => any_tag (PyStr.split "," ts) (res_tags r))
                     (loc_if (rq_verified q)
                        (fun b r => Bool.eqb (res_verified r) b)
                        (loc_if (rq_quality q)
                           (fun v r => String.eqb (res_quality r) v) df2)))
             else if String.eqb operator "AND" then
               Ok (List.filter
                     (fun r => all_tags (PyStr.split "," ts) (res_tags r))
                     (loc_if (rq_verified q)
                        (fun b r => Bool.eqb (res_verified r) b)
                        (loc_if (rq_quality q)
                           (fun v r => String.eqb (res_quality r) v) df2)))
             else Raise ValueError
         | _ => Raise ValueError
         end
     | None =>
         Ok (loc_if (rq_verified q)
               (fun b r => Bool.eqb (res_verified r) b)
               (loc_if (rq_quality q)
                  (fun v r => String.eqb (res_quality r) v) df2))
     end) = Ok df ->
    rq_backend_name q = None
    /\ forall r, In r df <-> In r (_results self) /\ res_matches q r).
  intros Hsel.
  set (df0 := loc_if (rq_experiment_uuid q) _ _) in Hsel.
  assert (H1 : exists df1,
    match rq_result_type q with
    | Some v => type_filter res_type v df0
    | None => Ok df0
    end = Ok df1
    /\ forall r, In r df1 <-> In r df0
        /\ forall v, rq_result_type q = Some v ->
                     type_matches v (res_type r)).
  { destruct (rq_result_type q) as [v|].
    - destruct (type_filter_total res_type v df0) as [df1 Hdf1].
      exists df1. split; [exact Hdf1|]. intros r.
      rewrite (type_filter_In _ _ _ _ Hdf1 r). split.
      + intros [Hin Hm]. split; [exact Hin|]. now intros v' [= <-].
      + intros [Hin Hm]. auto.
    - eexists. split; [reflexivity|]. intros r. split; [|tauto].
      intros Hin. split; [exact Hin | discriminate]. }
  destruct H1 as (df1 & Hdf1 & Hin1). rewrite Hdf1 in Hsel. simpl in Hsel.
  destruct (rq_backend_name q); [discriminate|]. simpl in Hsel.
  split; [reflexivity|]. intros r.
  set (df' := loc_if (rq_verified q) _ _) in Hsel.
  assert (Hin' : In r df' <-> In r (_results self)
            /\ (forall e, rq_experiment_uuid q = Some e ->
                  res_experiment_uuid r = e)
            /\ (forall v, rq_result_type q = Some v ->
                  type_matches v (res_type r))
            /\ (forall v, rq_quality q = Some v -> res_quality r = v)
            /\ (forall b, rq_verified q = Some b -> res_verified r = b)).
  { unfold df'. rewrite !loc_if_In, Hin1. unfold df0. rewrite loc_if_In.
    split.
    - intros [[[[Hin He] Hty] Hq] Hv]. split; [exact Hin|].
      repeat split; auto.
      + intros e Hqe. apply String.eqb_eq. auto.
      + intros v Hqq. apply String.eqb_eq. auto.
      + intros b Hqv. apply Bool.eqb_prop. auto.
    - intros (Hin & He & Hty & Hq & Hv). repeat split; auto.
      + intros e Hqe. apply String.eqb_eq. auto.
      + intros v Hqq. apply String.eqb_eq. auto.
      + intros b Hqv. rewrite (Hv _ Hqv). apply Bool.eqb_reflx. }
  unfold res_matches, res_tags_match.
  destruct (rq_tags q) as [tags|].
  - destruct (PyStr.split ":" tags) as [|op [|ts [|]]] eqn:Hsplit;
      try discriminate.
    destruct (String.eqb op "any:") eqn:Hany.
    { apply String.eqb_eq in Hany. subst op.
      pose proof (split_pieces ":" tags) as Hp. rewrite Hsplit in Hp.
      apply Forall_cons in Hp as [Hp _]. discriminate. }
    destruct (String.eqb op "AND") eqn:Hand; [|discriminate].
    apply String.eqb_eq in Hand. subst op. injection Hsel as <-.
    rewrite filter_In, all_tags_spec, Hin'. split.
    + intros [(Hin & He & Hty & Hq & Hv) Hall]. split; [exact Hin|].
      repeat split; auto. intros ? [= <-]. eauto.
    + intros (Hin & He & Hty & Hq & Hv & Ht).
      split; [tauto|].
      destruct (Ht _ eq_refl) as (ts' & Hs' & Hall).
      rewrite Hsplit in Hs'. injection Hs' as <-. exact Hall.
  - injection Hsel as <-. rewrite Hin'. split.
    + intros (Hin & He & Hty & Hq & Hv). split; [exact Hin|].
      repeat split; auto. discriminate.
    + intros (Hin & He & Hty & Hq & Hv & _). tauto.
Qed.

(** X15. The rows [analysis_results] returns, when it is called without a
    backend name and returns, are rows of the table that pass every filter
    given: experiment uuid, type, quality, verified, and the tags, which
    must come as [AND:tag,tag,...] and must all be tags of the row.
    Without a limit, every such row is returned.  (The pattern of a
    ["like:"] filter has no regular-expression metacharacter.) *)
Theorem analysis_results_returns_the_matching_rows (self : client)
  (q : res_query) (out : list analysis_result) :
  plain_type_filter (rq_result_type q) = true ->
  rq_backend_name q = None ->
  analysis_results self q = Ok out ->
  (forall r, In r out -> In r (_results self) /\ res_matches q r)
  /\ (rq_limit q = None ->
      forall r, In r (_results self) -> res_matches q r -> In r out).
Proof.
  intros _ _ Hout.
  apply analysis_results_ok in Hout as (df & asc & Hsel & _ & ->).
  destruct (analysis_results_select_In self q df Hsel) as [_ Hin].
  split.
  - intros r Hr. apply Hin. apply iloc_upto_In in Hr.
    eapply Permutation_in; [apply sort_values_perm | exact Hr].
  - intros Hlim r Hr Hm. rewrite Hlim. simpl.
    eapply Permutation_in; [symmetry; apply sort_values_perm|].
    apply Hin. auto.
Qed.

(** Of the three results, the two tagged [a] and [b] are listed for
    [AND:a,b], and the one tagged [a] only is not. *)
Lemma analysis_results_returns_witness :
  (In (AnalysisResult "e2" "T1" ["a"; "b"] "good" true "r2" "ibmq_lima"
         (Some 400) []) (_results (reached true three_results))
   /\ res_matches (res_tags_query "AND:a,b")
        (AnalysisResult "e2" "T1" ["a"; "b"] "good" true "r2" "ibmq_lima"
           (Some 400) []))
  /\ ~ In (AnalysisResult "e1" "T1" ["a"] "good" false "r1" "ibmq_lima"
            (Some 300) [])
         [AnalysisResult "e2" "T1" ["a"; "b"] "good" true "r3" "ibmq_lima"
            (Some 500) [];
          AnalysisResult "e2" "T1" ["a"; "b"] "good" true "r2" "ibmq_lima"
            (Some 400) []].
Proof.
  split.
  - refine (proj1 (analysis_results_returns_the_matching_rows
                     (reached true three_results) (res_tags_query "AND:a,b")
                     [AnalysisResult "e2" "T1" ["a"; "b"] "good" true "r3"
                        "ibmq_lima" (Some 500) [];
                      AnalysisResult "e2" "T1" ["a"; "b"] "good" true "r2"
                        "ibmq_lima" (Some 400) []]
                     eq_refl eq_refl eq_refl)
              _ (or_intror (or_introl eq_refl))).
  - intros [H | [H | []]]; discriminate.
Defined.

(** X16. From a new client, as long as no [analysis_result_update] was
    given the key ["backend_name"], the results table has no column of
    that name, and [analysis_results] with a backend name raises
    [AttributeError] (the type filter being absent or an exact value, which
    is evaluated before and does not raise).  And in every state the answer
    of [analysis_results] does not depend on [marker], [device_components]
    and [created_at]: two queries that agree on the other arguments are
    answered alike. *)
Theorem analysis_results_backend_name_and_unread_arguments :
  (forall (local_save : bool) (rqs : list request) (q : res_query)
          (backend_name : string),
      forallb adds_no_backend_name rqs = true ->
      exact_type_filter (rq_result_type q) = true ->
      rq_backend_name q = Some backend_name ->
      analysis_results (reached local_save rqs) q = Raise AttributeError)
  /\ (forall (self : client) (q q' : res_query),
      same_read_arguments q q' ->
      analysis_results self q = analysis_results self q').
Proof.
  split.
  - intros ls rqs q b _ _ Hb. unfold analysis_results. rewrite Hb.
    destruct (rq_result_type q) as [ty|]; simpl; [|reflexivity].
    destruct (type_filter_total res_type ty
                (match rq_experiment_uuid q with
                 | Some experiment_uuid =>
                     List.filter
                       (fun r => String.eqb (res_experiment_uuid r)
                                   experiment_uuid)
                       (_results (reached ls rqs))
                 | None => _results (reached ls rqs)
                 end)) as [df ->].
    reflexivity.
  - intros self [] [] (H1 & H2 & H3 & H4 & H5 & H6 & H7 & H8). simpl in *.
    subst. reflexivity.
Qed.

Lemma analysis_results_backend_name_witness :
  analysis_results (reached true three_results)
    (ResQuery None None (Some "ibmq_lima") None (Some "e2") (Some "T1") None
       None None None None)
  = Raise AttributeError
  /\ analysis_results (reached true three_results)
       (ResQuery (Some 1) (Some "m") None (Some ["Q0"]) None None None None
          None (Some [0; 1]) None)
     = analysis_results (reached true three_results)
         (analysis_results_defaults (Some 1) None).
Proof.
  split.
  - exact (proj1 analysis_results_backend_name_and_unread_arguments
             true three_results
             (ResQuery None None (Some "ibmq_lima") None (Some "e2")
                (Some "T1") None None None None None)
             "ibmq_lima" eq_refl eq_refl eq_refl).
  - apply (proj2 analysis_results_backend_name_and_unread_arguments).
    repeat split.
Defined.

(** ** When a list call fails *)

Lemma parse_sort_by_raises (field : string) (sort_by : option sort_arg)
  (e : exn) :
  parse_sort_by field sort_by = Raise e -> e = ValueError.
Proof.
  unfold parse_sort_by.
  destruct (match match sort_by with
                  | Some s => s
                  | None => SortStr (field +:+ ":desc")
                  end with
            | SortStr s => [s]
            | SortList l => l
            end) as [|token [|]]; try now intros [= <-].
  destruct (PyStr.split ":" token) as [|name [|direction [|]]];
    try now intros [= <-].
  destruct (negb (String.eqb name field)
            || negb (String.eqb direction "asc")
               && negb (String.eqb direction "desc"));
    [now intros [= <-] | discriminate].
Qed.

Lemma split_prefix (sep : ascii) (a b : string) :
  PyStr.has_char sep a = false ->
  PyStr.split sep (a +:+ String sep b) = a :: PyStr.split sep b.
Proof.
  induction a as [|c a IH]; simpl.
  - intros _. rewrite ?append_nil_l. simpl. now rewrite Ascii.eqb_refl.
  - rewrite orb_false_iff. intros [Hc Ha]. rewrite ?append_cons. simpl.
    now rewrite Hc, (IH Ha).
Qed.

(** The token read back: [field:asc] gives ascending, [field:desc]
    descending. *)
Lemma parse_sort_by_accepts (field : string) (ascending : bool) :
  PyStr.has_char ":" field = false ->
  let token := field +:+ ":" +:+ (if ascending then "asc" else "desc") in
  parse_sort_by field (Some (SortStr token)) = Ok ascending
  /\ parse_sort_by field (Some (SortList [token])) = Ok ascending.
Proof.
  intros Hfield. simpl.
  assert (Hsplit : PyStr.split ":"
            (field +:+ ":" +:+ (if ascending then "asc" else "desc"))
          = [field; if ascending then "asc" else "desc"]).
  { change (field +:+ ":" +:+ (if ascending then "asc" else "desc"))
      with (field +:+ String ":" (if ascending then "asc" else "desc")).
    rewrite split_prefix by exact Hfield. now destruct ascending. }
  unfold parse_sort_by. rewrite Hsplit, String.eqb_refl.
  now destruct ascending.
Qed.

(** X17. The sort specification is accepted exactly when it is absent
    (descending), or is the string [field:asc] or [field:desc], or a list
    of that one string; the direction read is the one written.  Anything
    else raises [ValueError].  ([field] is a name without a colon, as the
    two fields of the client are.) *)
Theorem sort_by_accepted_exactly_as_one_token (field : string)
  (sort_by : option sort_arg) :
  PyStr.has_char ":" field = false ->
  (forall ascending : bool,
      parse_sort_by field sort_by = Ok ascending <->
      (sort_by = None /\ ascending = false)
      \/ sort_by
         = Some (SortStr
                   (field +:+ ":" +:+ (if ascending then "asc" else "desc")))
      \/ sort_by
         = Some (SortList
                   [field +:+ ":" +:+ (if ascending then "asc" else "desc")]))
  /\ (forall e, parse_sort_by field sort_by = Raise e -> e = ValueError).
Proof.
  intros Hfield. split; [|apply parse_sort_by_raises].
  intros ascending. split.
  - destruct sort_by as [s|].
    + intros H. right. apply parse_sort_by_token in H as [-> | ->]; auto.
    + intros H. left. split; [reflexivity|].
      change (parse_sort_by field (Some (SortStr (field +:+ ":desc")))
              = Ok ascending) in H.
      destruct (parse_sort_by_accepts field false Hfield) as [Hd _].
      change (parse_sort_by field (Some (SortStr (field +:+ ":desc")))
              = Ok false) in Hd.
      rewrite Hd in H. now injection H.
  - intros [[-> ->] | [-> | ->]].
    + apply (parse_sort_by_accepts field false Hfield).
    + apply (parse_sort_by_accepts field ascending Hfield).
    + apply (parse_sort_by_accepts field ascending Hfield).
Qed.

Lemma sort_by_accepted_witness :
  parse_sort_by "start_datetime" (Some (SortList ["start_datetime:asc"]))
  = Ok true.
Proof.
  exact (proj2 (proj1 (sort_by_accepted_exactly_as_one_token
                         "start_datetime"
                         (Some (SortList ["start_datetime:asc"])) eq_refl)
                  true)
           (or_intror (or_intror eq_refl))).
Defined.

(** On rows that hold a value in every field column, no filter of
    [experiments] raises on a cell: the call returns exactly when no device
    components are given, the tags operator is ["OR"] or ["AND"] if tags
    are given, and the sort specification is accepted; when it raises, it
    raises [ValueError]. *)
Lemma experiments_returns_iff (self : client) (q : exp_query) :
  (is_ok (experiments self q) = true <->
   q_device_components q = None
   /\ (q_tags q = None
       \/ q_tags_operator q = Some "OR" \/ q_tags_operator q = Some "AND")
   /\ is_ok (parse_sort_by "start_datetime" (q_sort_by q)) = true)
  /\ (forall e, experiments self q = Raise e -> e = ValueError).
Proof.
  rewrite experiments_stages. unfold experiments_select.
  assert (H1 : exists df1,
    match q_experiment_type q with
    | Some v => type_filter exp_type v (_experiments self)
    | None => Ok (_experiments self)
    end = Ok df1).
  { destruct (q_experiment_type q) as [v|]; [|eauto].
    apply type_filter_total. }
  destruct H1 as [df1 ->]. simpl.
  destruct (q_device_components q) as [dc|]; simpl.
  { split; [|now intros e [= <-]].
    split; [discriminate | now intros [[=] _]]. }
  destruct (q_tags q) as [tags|]; simpl.
  - destruct (opt_eqb (q_tags_operator q) "OR") eqn:Hor; simpl.
    + apply opt_eqb_spec in Hor.
      destruct (parse_sort_by "start_datetime" (q_sort_by q)) eqn:Hp; simpl.
      * split; [|discriminate]. split; auto.
      * split; [|intros e' [= <-]; now apply parse_sort_by_raises in Hp].
        split; [discriminate | now intros (_ & _ & [=])].
    + destruct (opt_eqb (q_tags_operator q) "AND") eqn:Hand; simpl.
      * apply opt_eqb_spec in Hand.
        destruct (parse_sort_by "start_datetime" (q_sort_by q)) eqn:Hp;
          simpl.
        -- split; [|discriminate]. split; auto.
        -- split; [|intros e' [= <-]; now apply parse_sort_by_raises in Hp].
           split; [discriminate | now intros (_ & _ & [=])].
      * split; [|now intros e [= <-]].
        split; [discriminate|].
        intros (_ & [H | [H | H]] & _); [discriminate| |].
        -- apply opt_eqb_spec in H. congruence.
        -- apply opt_eqb_spec in H. congruence.
  - destruct (parse_sort_by "start_datetime" (q_sort_by q)) eqn:Hp; simpl.
    + split; [|discriminate]. split; auto.
    + split; [|intros e' [= <-]; now apply parse_sort_by_raises in Hp].
      split; [discriminate | now intros (_ & _ & [=])].
Qed.

(** ** The listing does not depend on the order of the table *)

Lemma List_filter_perm {A} (test : A -> bool) (l l' : list A) :
  Permutation l l' -> Permutation (List.filter test l) (List.filter test l').
Proof.
  induction 1 as [|x l l' _ IH|x y l|l1 l2 l3 _ IH1 _ IH2]; simpl.
  - reflexivity.
  - destruct (test x); [now constructor | exact IH].
  - destruct (test x), (test y); try reflexivity. apply perm_swap.
  - now rewrite IH1.
Qed.

Lemma List_filter_NoDup {A} (uuid : A -> string) (test : A -> bool)
  (l : list A) :
  NoDup (map uuid l) -> NoDup (map uuid (List.filter test l)).
Proof.
  induction l as [|r l IH]; simpl; [auto|].
  rewrite NoDup_cons. intros [Hr Hnd].
  destruct (test r); simpl; [|auto].
  apply NoDup_cons. split; [|auto].
  rewrite list_elem_of_In in *. intros Hin. apply Hr.
  apply in_map_iff in Hin as (r' & Heq & Hin).
  apply filter_In in Hin as [Hin _]. apply in_map_iff. eauto.
Qed.

Lemma same_rows_filter {A} (uuid : A -> string) (test : A -> bool)
  (df df' : list A) :
  same_rows uuid df df' ->
  same_rows uuid (List.filter test df) (List.filter test df').
Proof.
  intros [Hp Hnd]. split;
    [now apply List_filter_perm | now apply List_filter_NoDup].
Qed.

Lemma same_rows_loc_if {A B} (uuid : A -> string) (arg : option B)
  (test : B -> A -> bool) (df df' : list A) :
  same_rows uuid df df' ->
  same_rows uuid (loc_if arg test df) (loc_if arg test df').
Proof.
  intros H. unfold loc_if. destruct arg; [now apply same_rows_filter | exact H].
Qed.

Lemma type_filter_as_filter {A} (type : A -> string) (value : string) :
  exists test, forall df,
    type_filter type value df = Ok (List.filter test df).
Proof.
  unfold type_filter.
  destruct (String.eqb (PyStr.take 5 value) "like:") eqn:Hlike; [|eauto].
  destruct (nth_error (PyStr.split ":" value) 1) as [pat|] eqn:Hpat; [eauto|].
  exfalso.
  destruct (type_filter_total type value []) as [df Hdf].
  unfold type_filter in Hdf. rewrite Hlike, Hpat in Hdf. discriminate.
Qed.

Lemma experiments_select_same_rows (self self' : client) (q : exp_query) :
  same_rows exp_uuid (_experiments self) (_experiments self') ->
  match experiments_select self q, experiments_select self' q with
  | Ok df, Ok df' => same_rows exp_uuid df df'
  | Raise e, Raise e' => e = e'
  | _, _ => False
  end.
Proof.
  intros Hrows. unfold experiments_select.
  assert (H1 : exists df1 df1',
    match q_experiment_type q with
    | Some v => type_filter exp_type v (_experiments self)
    | None => Ok (_experiments self)
    end = Ok df1
    /\ match q_experiment_type q with
       | Some v => type_filter exp_type v (_experiments self')
       | None => Ok (_experiments self')
       end = Ok df1'
    /\ same_rows exp_uuid df1 df1').
  { destruct (q_experiment_type q) as [v|]; [|eauto].
    destruct (type_filter_as_filter exp_type v) as [test Htest].
    rewrite !Htest. do 2 eexists. split; [reflexivity|].
    split; [reflexivity|]. now apply same_rows_filter. }
  destruct H1 as (df1 & df1' & -> & -> & H1). simpl.
  destruct (q_device_components q); simpl; [reflexivity|].
  pose proof (same_rows_loc_if exp_uuid (q_parent_id q)
                (fun p r => opt_eqb (exp_parent_experiment_uuid r) p) _ _
                (same_rows_loc_if exp_uuid (q_backend_name q)
                   (fun b r => String.eqb (exp_device_name r) b) _ _ H1))
    as H2.
  unfold loc_if in H2.
  assert (Htail : forall df2 df2',
    same_rows exp_uuid df2 df2' ->
    same_rows exp_uuid
      (loc_if (q_start_datetime_after q)
         (fun b r => time_ge_bound (exp_start_time r) b)
         (loc_if (q_start_datetime_before q)
            (fun b r => time_le_bound (exp_start_time r) b) df2))
      (loc_if (q_start_datetime_after q)
         (fun b r => time_ge_bound (exp_start_time r) b)
         (loc_if (q_start_datetime_before q)
            (fun b r => time_le_bound (exp_start_time r) b) df2'))).
  { intros df2 df2' H. now apply same_rows_loc_if, same_rows_loc_if. }
  unfold loc_if in Htail.
  destruct (q_tags q) as [tags|]; simpl.
  - destruct (opt_eqb (q_tags_operator q) "OR"); simpl.
    + apply Htail. now apply same_rows_filter.
    + destruct (opt_eqb (q_tags_operator q) "AND"); simpl; [|reflexivity].
      apply Htail. now apply same_rows_filter.
  - now apply Htail.
Qed.

(** X19. With pairwise distinct uuids, [experiments] gives the same answer
    for two tables that hold the same rows in a different order. *)
Theorem experiments_listing_is_free_of_the_table_order (self self' : client)
  (q : exp_query) :
  NoDup (map exp_uuid (_experiments self)) ->
  Permutation (_experiments self) (_experiments self') ->
  experiments self q = experiments self' q.
Proof.
  intros Hnd Hperm. rewrite !experiments_stages.
  pose proof (experiments_select_same_rows self self' q (conj Hperm Hnd))
    as Hsel.
  destruct (experiments_select self q) as [df|e],
           (experiments_select self' q) as [df'|e']; try contradiction.
  - simpl. destruct (parse_sort_by "start_datetime" (q_sort_by q)); simpl;
      [|reflexivity].
    destruct Hsel as [Hp Hn].
    now rewrite (sort_values_order_free _ _ _ df df' Hn Hp).
  - simpl. now subst.
Qed.

(** The listing after [e1] was deleted and uploaded again: the table holds
    [e2] before [e1], the listing answers as before. *)
Lemma experiments_listing_order_witness :
  experiments (fst two_experiments) experiments_defaults
  = experiments
      (fst (run two_experiments
              [ExperimentDelete "e1"; ExperimentUpload "u3" e1]))
      experiments_defaults.
Proof.
  apply experiments_listing_is_free_of_the_table_order.
  - change (NoDup ["e1"; "e2"]). apply (bool_decide_unpack _).
    vm_compute. exact I.
  - apply perm_swap.
Defined.

(** X20. A negative limit [-k] cuts from the end: both list methods return
    the listing without its last [k] entries (nothing when it has no more
    than [k]). *)
Theorem negative_limit_drops_the_last_entries (self : client) (n : Z) :
  n < 0 ->
  (forall (q : exp_query) (full : list experiment),
      experiments self (exp_with_limit q None) = Ok full ->
      experiments self (exp_with_limit q (Some n))
      = Ok (firstn (length full - Z.to_nat (- n)) full))
  /\ (forall (q : res_query) (full : list analysis_result),
      analysis_results self (res_with_limit q None) = Ok full ->
      analysis_results self (res_with_limit q (Some n))
      = Ok (firstn (length full - Z.to_nat (- n)) full)).
Proof.
  intros Hn. apply Z.leb_gt in Hn. split.
  - intros q full Hfull. rewrite (experiments_limit _ _ (Some n) _ Hfull).
    unfold iloc_upto. now rewrite Hn.
  - intros q full Hfull.
    rewrite (analysis_results_limit _ _ (Some n) _ Hfull).
    unfold iloc_upto. now rewrite Hn.
Qed.

Lemma negative_limit_witness :
  experiments (fst two_experiments)
    (exp_with_limit experiments_defaults (Some (-1)))
  = Ok [row_of e2].
Proof.
  exact (proj1 (negative_limit_drops_the_last_entries
                  (fst two_experiments) (-1) eq_refl)
           experiments_defaults [row_of e2; row_of e1] eq_refl).
Defined.

(** ** Restart *)



(** X23. Under the same conditions a restart gives back, for every
    experiment of the table, the figures the client held for it.  (The
    uuids of the table are read back as the strings written: none of them
    reads as a number.) *)
Theorem restart_gives_back_the_figures (n : nat) (rqs : list request)
  (experiment_id plot_name : string) :
  forallb (figure_request_ok n) rqs = true ->
  uuids_read_back (_experiments (fst (run fresh_client rqs))) = true ->
  In experiment_id
    (map exp_uuid (_experiments (fst (run fresh_client rqs)))) ->
  String.length experiment_id = n ->
  plot_lookup (_figures (restart (snd (run fresh_client rqs))))
    experiment_id plot_name
  = plot_lookup (_figures (fst (run fresh_client rqs)))
      experiment_id plot_name.
Proof.
  intros Hrqs _ Hin Hlen.
  now apply (figures_survive_restart_after n rqs Hrqs).
Qed.

Lemma restart_gives_back_the_figures_witness :
  plot_lookup
    (_figures (restart (snd (run fresh_client
       [ExperimentUpload "u1" e1; PlotUpload "e1" png "p";
        PlotUpload "e1" [] "q"; PlotUpdate "e1" [] "p"]))))
    "e1" "p"
  = Some [].
Proof.
  refine (restart_gives_back_the_figures 2
       [ExperimentUpload "u1" e1; PlotUpload "e1" png "p";
        PlotUpload "e1" [] "q"; PlotUpdate "e1" [] "p"] "e1" "p"
       eq_refl eq_refl _ eq_refl).
  vm_compute. now left.
Defined.

Lemma no_call_removes_a_file_witness :
  is_Some (figures_dir (snd (run fresh_client
             [PlotUpload "e1" png "p"; PlotDelete "e1" "p";
              ExperimentUpload "u1" e1])) !! "e1_p").
Proof.
  refine (proj1 (no_call_removes_a_file
                   (run fresh_client [PlotUpload "e1" png "p"])
                   [PlotDelete "e1" "p"; ExperimentUpload "u1" e1])
            "e1_p" _).
  vm_compute. eauto.
Defined.

(** What [_get_figure_list] reads for one uuid, whatever wrote the files:
    each file whose name starts with the uuid is a figure, named by the
    file name from the second character after the uuid on. *)
Lemma load_one_reads_every_prefix_match (id : string)
  (dir : gmap string bytes) :
  (forall f f', is_Some (dir !! f) -> is_Some (dir !! f') ->
     PyStr.startswith id f = true -> PyStr.startswith id f' = true ->
     PyStr.drop (String.length id + 1) f
     = PyStr.drop (String.length id + 1) f' -> f = f') ->
  forall f data,
    dir !! f = Some data -> PyStr.startswith id f = true ->
    map_fold
      (fun filename figure_data (figures_for_exp : gmap string bytes) =>
         if PyStr.startswith id filename then
           <[PyStr.drop (String.length id + 1) filename := figure_data]>
             figures_for_exp
         else figures_for_exp)
      (∅ : gmap string bytes) dir
    !! PyStr.drop (String.length id + 1) f = Some data.
Proof.
  intros Huniq.
  assert (H : dir ⊆ dir ->
    forall f data,
      dir !! f = Some data -> PyStr.startswith id f = true ->
      map_fold
        (fun filename figure_data (figures_for_exp : gmap string bytes) =>
           if PyStr.startswith id filename then
             <[PyStr.drop (String.length id + 1) filename := figure_data]>
               figures_for_exp
           else figures_for_exp)
        (∅ : gmap string bytes) dir
      !! PyStr.drop (String.length id + 1) f = Some data); [|now apply H].
  apply (map_fold_weak_ind
    (fun (acc : gmap string bytes) (m : gmap string bytes) =>
       m ⊆ dir ->
       forall f data,
         m !! f = Some data -> PyStr.startswith id f = true ->
         acc !! PyStr.drop (String.length id + 1) f = Some data)).
  - intros _ f data Hf. now rewrite lookup_empty in Hf.
  - intros f0 x m acc Hf0 IH Hsub f data Hf Hstart.
    assert (Hm : m ⊆ dir).
    { etransitivity; [|exact Hsub]. now apply insert_subseteq. }
    destruct (decide (f0 = f)) as [-> | Hne].
    + rewrite lookup_insert_eq in Hf. injection Hf as ->.
      rewrite Hstart. apply lookup_insert_eq.
    + rewrite lookup_insert_ne in Hf by exact Hne.
      destruct (PyStr.startswith id f0) eqn:Hstart0; [|now apply IH].
      rewrite lookup_insert_ne; [now apply IH|].
      intros Heq. apply Hne. apply Huniq; auto.
      * exists x. eapply lookup_weaken; [|exact Hsub].
        apply lookup_insert_eq.
      * exists data. eapply lookup_weaken; [exact Hf | exact Hm].
Qed.

(** X24. What a restart reads for an experiment of the table file: every
    file of the figures directory whose name starts with the uuid becomes
    a figure of that experiment, named by the file name from the second
    character after the uuid on, whichever experiment the file was written
    for (when no two such files give the same name; the uuids of the table
    file are read back as the strings written, none of them reading as a
    number). *)
Theorem restart_reads_every_file_that_starts_with_a_uuid (d : directory)
  (experiment_id filename : string) (data : bytes) :
  uuids_read_back (default [] (experiments_file d)) = true ->
  In experiment_id (map exp_uuid (default [] (experiments_file d))) ->
  figures_dir d !! filename = Some data ->
  PyStr.startswith experiment_id filename = true ->
  (forall f f',
     is_Some (figures_dir d !! f) -> is_Some (figures_dir d !! f') ->
     PyStr.startswith experiment_id f = true ->
     PyStr.startswith experiment_id f' = true ->
     PyStr.drop (String.length experiment_id + 1) f
     = PyStr.drop (String.length experiment_id + 1) f' -> f = f') ->
  plot_lookup (_figures (restart d)) experiment_id
    (PyStr.drop (String.length experiment_id + 1) filename)
  = Some data.
Proof.
  intros _ Hin Hfile Hstart Huniq.
  unfold restart, LocalExperimentClient, init_db, plot_lookup. simpl.
  rewrite (get_figure_list_lookup _ _ _ Hin).
  now apply load_one_reads_every_prefix_match.
Qed.

(** After a restart the figure ["p"] of the experiment ["ab"], stored in
    the file [ab_p], is also a figure of the experiment ["a"], under the
    name ["_p"]. *)
Lemma restart_reads_every_file_witness :
  plot_lookup (_figures (restart (snd prefix_uuids))) "a" "_p" = Some png.
Proof.
  refine (restart_reads_every_file_that_starts_with_a_uuid
            (snd prefix_uuids) "a" "ab_p" png eq_refl _ eq_refl eq_refl _).
  - vm_compute. now left.
  - intros f f' [x Hf] [x' Hf'] _ _ _.
    change (figures_dir (snd prefix_uuids))
      with ({["ab_p" := png]} : gmap string bytes) in Hf, Hf'.
    apply lookup_singleton_Some in Hf as [<- _].
    now apply lookup_singleton_Some in Hf' as [<- _].
Defined.

(** ** C3: a listing is returned, and in order *)

Lemma asks_direction_parse (field : string) (sort_by : option sort_arg)
  (ascending : bool) :
  PyStr.has_char ":" field = false ->
  asks_direction field sort_by ascending ->
  parse_sort_by field sort_by = Ok ascending.
Proof.
  intros Hfield [[-> ->] | [-> | ->]]; unfold sort_token.
  - exact (proj1 (parse_sort_by_accepts field false Hfield)).
  - exact (proj1 (parse_sort_by_accepts field ascending Hfield)).
  - exact (proj2 (parse_sort_by_accepts field ascending Hfield)).
Qed.

(** The call of [experiments] that returns, and what it returns: the
    selected rows, sorted, cut at the limit. *)
Lemma experiments_returns (self : client) (q : exp_query) (ascending : bool) :
  q_device_components q = None ->
  exp_tags_accepted q ->
  asks_direction "start_datetime" (q_sort_by q) ascending ->
  exists df,
    experiments_select self q = Ok df
    /\ experiments self q
       = Ok (iloc_upto (q_limit q)
               (sort_values exp_start_time exp_uuid ascending df)).
Proof.
  intros Hdc Htags Hsort.
  apply asks_direction_parse in Hsort; [|reflexivity].
  destruct (experiments_returns_iff self q) as [Hiff _].
  destruct (experiments self q) as [out|e] eqn:Hout.
  - apply experiments_ok in Hout as (df & asc & Hsel & Hparse & ->).
    rewrite Hsort in Hparse. injection Hparse as <-. eauto.
  - assert (Hok : is_ok (Raise e : result (list experiment)) = true).
    { apply Hiff. split; [exact Hdc|]. split; [exact Htags|].
      now rewrite Hsort. }
    discriminate.
Qed.

(** The same for [analysis_results]. *)
Lemma analysis_results_returns (self : client) (q : res_query)
  (ascending : bool) :
  rq_backend_name q = None ->
  res_tags_accepted q ->
  asks_direction "creation_datetime" (rq_sort_by q) ascending ->
  exists df,
    analysis_results_select self q = Ok df
    /\ analysis_results self q
       = Ok (iloc_upto (rq_limit q)
               (sort_values res_created_at res_uuid ascending df)).
Proof.
  intros Hb Htags Hsort.
  apply asks_direction_parse in Hsort; [|reflexivity].
  assert (Hsel : exists df, analysis_results_select self q = Ok df).
  { unfold analysis_results_select. rewrite Hb.
    set (df0 := match rq_experiment_uuid q with
                | Some u => _ | None => _ end).
    assert (H1 : exists df1,
      match rq_result_type q with
      | Some v => type_filter res_type v df0
      | None => Ok df0
      end = Ok df1).
    { destruct (rq_result_type q) as [v|]; [|eauto].
      apply type_filter_total. }
    destruct H1 as [df1 ->]. simpl.
    destruct Htags as [-> | (ts & -> & Hts)]; [eauto|].
    change ("AND:" +:+ ts) with ("AND" +:+ String ":" ts).
    rewrite split_prefix by reflexivity.
    rewrite (split_no_sep _ _ Hts). simpl. eauto. }
  destruct Hsel as [df Hsel]. exists df. split; [exact Hsel|].
  rewrite analysis_results_stages, Hsel. simpl. now rewrite Hsort.
Qed.

(** C3. Both list methods sort by the timestamp ([start_time] for
    experiments, [created_at] for analysis results) and then by uuid.

    Every listing that is returned, from any table, was asked for with an
    accepted sort specification: none, read as descending, or the single
    token [field:asc] or [field:desc], whose direction is the one read.
    Its entries are in the order of the timestamp in that direction,
    entries without timestamp last, entries with equal timestamps in
    ascending order of their uuid; without a limit they are the selected
    rows, each once.

    And the listing is returned: in a state reached from a new client by
    calls whose payloads are as the rows describe them, [experiments]
    without device components, with tags under the operator ["OR"] or
    ["AND"] or without tags, and [analysis_results] without backend name,
    with tags as [AND:tag,...] or without, when asked for a direction
    (with a ["like:"] pattern that holds no regular-expression
    metacharacter), return the selected rows, each once, in the order of
    that direction, cut at the limit. *)
Theorem list_sorted_by_timestamp_then_uuid :
  (forall (self : client) (q : exp_query) (out : list experiment),
      experiments self q = Ok out ->
      exists ascending : bool,
        asks_direction "start_datetime" (q_sort_by q) ascending
        /\ listed_in_order exp_start_time exp_uuid ascending out
        /\ (q_limit q = None ->
            exists df, experiments_select self q = Ok df
                       /\ Permutation out df))
  /\ (forall (self : client) (q : res_query) (out : list analysis_result),
      analysis_results self q = Ok out ->
      exists ascending : bool,
        asks_direction "creation_datetime" (rq_sort_by q) ascending
        /\ listed_in_order res_created_at res_uuid ascending out
        /\ (rq_limit q = None ->
            exists df, analysis_results_select self q = Ok df
                       /\ Permutation out df))
  /\ (forall (local_save : bool) (rqs : list request) (q : exp_query)
             (ascending : bool),
      forallb well_formed_request rqs = true ->
      q_device_components q = None ->
      plain_type_filter (q_experiment_type q) = true ->
      exp_tags_accepted q ->
      asks_direction "start_datetime" (q_sort_by q) ascending ->
      exists out sorted df : list experiment,
        experiments (reached local_save rqs) q = Ok out
        /\ experiments_select (reached local_save rqs) q = Ok df
        /\ Permutation sorted df
        /\ listed_in_order exp_start_time exp_uuid ascending sorted
        /\ out = iloc_upto (q_limit q) sorted)
  /\ (forall (local_save : bool) (rqs : list request) (q : res_query)
             (ascending : bool),
      forallb well_formed_request rqs = true ->
      rq_backend_name q = None ->
      plain_type_filter (rq_result_type q) = true ->
      res_tags_accepted q ->
      asks_direction "creation_datetime" (rq_sort_by q) ascending ->
      exists out sorted df : list analysis_result,
        analysis_results (reached local_save rqs) q = Ok out
        /\ analysis_results_select (reached local_save rqs) q = Ok df
        /\ Permutation sorted df
        /\ listed_in_order res_created_at res_uuid ascending sorted
        /\ out = iloc_upto (rq_limit q) sorted).
Proof.
  assert (Hdir : forall field sort_by ascending,
    parse_sort_by field sort_by = Ok ascending ->
    asks_direction field sort_by ascending).
  { intros field [s|] asc Hparse.
    - right. apply parse_sort_by_token in Hparse.
      destruct Hparse as [-> | ->]; [left | right]; reflexivity.
    - left. split; [reflexivity|].
      unfold parse_sort_by in Hparse.
      destruct (PyStr.split ":" (field +:+ ":desc"))
        as [|name [|direction [|]]] eqn:Hs; try discriminate.
      apply split_two in Hs.
      destruct (String.eqb name field) eqn:Hn; simpl in Hparse;
        [|discriminate].
      apply String.eqb_eq in Hn. subst name.
      assert (Hd : direction = "desc").
      { clear Hparse. revert Hs. induction field as [|c field IH].
        - now intros [= ->].
        - rewrite !append_cons. intros [= Hs]. auto. }
      subst direction. now injection Hparse as <-. }
  split; [|split; [|split]].
  - intros self q out Hout.
    apply experiments_ok in Hout as (df & asc & Hsel & Hparse & ->).
    exists asc. split; [now apply Hdir|]. split.
    + apply listed_in_order_iloc, sort_values_listed.
    + intros Hlim. rewrite Hlim. exists df. split; [exact Hsel|].
      apply sort_values_perm.
  - intros self q out Hout.
    apply analysis_results_ok in Hout as (df & asc & Hsel & Hparse & ->).
    exists asc. split; [now apply Hdir|]. split.
    + apply listed_in_order_iloc, sort_values_listed.
    + intros Hlim. rewrite Hlim. exists df. split; [exact Hsel|].
      apply sort_values_perm.
  - intros ls rqs q asc _ Hdc _ Htags Hsort.
    destruct (experiments_returns (reached ls rqs) q asc Hdc Htags Hsort)
      as (df & Hsel & Hout).
    exists (iloc_upto (q_limit q)
              (sort_values exp_start_time exp_uuid asc df)),
      (sort_values exp_start_time exp_uuid asc df), df.
    split; [exact Hout|]. split; [exact Hsel|].
    split; [apply sort_values_perm|].
    split; [apply sort_values_listed | reflexivity].
  - intros ls rqs q asc _ Hb _ Htags Hsort.
    destruct (analysis_results_returns (reached ls rqs) q asc Hb Htags Hsort)
      as (df & Hsel & Hout).
    exists (iloc_upto (rq_limit q)
              (sort_values res_created_at res_uuid asc df)),
      (sort_values res_created_at res_uuid asc df), df.
    split; [exact Hout|]. split; [exact Hsel|].
    split; [apply sort_values_perm|].
    split; [apply sort_values_listed | reflexivity].
Qed.

(** The table holds [e1] before [e2]; the listing without sort
    specification gives [e2], started later, first.  The results table holds
    [r1], [r3], [r2]; asked for in ascending order with the tag [a], they
    come as [r1], [r2], [r3]. *)
Lemma list_sorted_witness :
  (map exp_uuid (_experiments (reached true three_results)) = ["e1"; "e2"]
   /\ exists out,
        experiments (reached true three_results)
          (ExpQuery None None None None None None (Some "OR") None None None)
        = Ok out
        /\ map exp_uuid out = ["e2"; "e1"]
        /\ listed_in_order exp_start_time exp_uuid false out)
  /\ (map res_uuid (_results (reached true three_results))
      = ["r1"; "r3"; "r2"]
      /\ exists out,
           analysis_results (reached true three_results)
             (ResQuery None None None None None None None None
                (Some "AND:a") None
                (Some (SortStr "creation_datetime:asc")))
           = Ok out
           /\ map res_uuid out = ["r1"; "r2"; "r3"]
           /\ listed_in_order res_created_at res_uuid true out).
Proof.
  split; (split; [reflexivity|]).
  - destruct (proj1 (proj2 (proj2 list_sorted_by_timestamp_then_uuid))
                true three_results
                (ExpQuery None None None None None None (Some "OR") None None
                   None)
                false eq_refl eq_refl eq_refl (or_introl eq_refl)
                (or_introl (conj eq_refl eq_refl)))
      as (out & sorted & df & Hout & _ & _ & Hlisted & Hcut).
    simpl in Hcut. subst sorted. exists out.
    split; [exact Hout|]. split; [|exact Hlisted].
    assert (Hrun : experiments (reached true three_results)
              (ExpQuery None None None None None None (Some "OR") None None
                 None)
            = Ok [row_of e2; row_of e1]) by reflexivity.
    rewrite Hrun in Hout. now injection Hout as <-.
  - destruct (proj2 (proj2 (proj2 list_sorted_by_timestamp_then_uuid))
                true three_results
                (ResQuery None None None None None None None None
                   (Some "AND:a") None
                   (Some (SortStr "creation_datetime:asc")))
                true eq_refl eq_refl eq_refl
                (or_intror (ex_intro _ "a" (conj eq_refl eq_refl)))
                (or_intror (or_introl eq_refl)))
      as (out & sorted & df & Hout & _ & _ & Hlisted & Hcut).
    simpl in Hcut. subst sorted. exists out.
    split; [exact Hout|]. split; [|exact Hlisted].
    assert (Hrun : map res_uuid
              (match analysis_results (reached true three_results)
                       (ResQuery None None None None None None None None
                          (Some "AND:a") None
                          (Some (SortStr "creation_datetime:asc"))) with
               | Ok l => l
               | Raise _ => []
               end)
            = ["r1"; "r2"; "r3"]) by reflexivity.
    now rewrite Hout in Hrun.
Defined.
